(** * Session context engine of diy-chatgpt

    A shallow embedding of the storage layer
    ([backend/services/storage/database.js], [.../fileStorage.js]), the
    session service ([backend/services/session.js]) and the summarizer
    service ([backend/services/summarizer.js]), followed by the properties
    of the specification that concern them.

    Conventions of the embedding:
    - a PostgreSQL table is the list of its rows in heap (insertion) order;
      every [pool.query] is one auto-committed statement;
    - the content store is a finite map from (session id, content id) to
      the parsed JSON document stored at
      [<base>/<session id>/messages|summaries/<content id>.json];
    - an id is the text of a UUID as PostgreSQL prints it and as
      [uuidv4()] draws it.  The id columns are of type UUID: text that is
      not UUID syntax is refused by the server (error 22P02) before the
      statement runs, and the statements below do not model that refusal.
      A property about an id that need not be a stored one therefore
      carries [canonical_uuid] as a hypothesis;
    - [Date.now()], [uuidv4()] and the generation backend are oracles of
      the environment, indexed by the number of earlier uses;
    - an [async] method is a computation in the monad [M]: it reads the
      environment, threads the [World] and either returns or throws; what
      it wrote before throwing stays written. *)

From Stdlib Require Import ZArith QArith Qround Ascii String.
From stdpp Require Import base option list sorting strings gmap.

Open Scope Z_scope.

(** ** Metadata Index: rows of the three tables *)

Record SessionRow := mkSessionRow {
  sess_id : string;
  sess_title : option string;
  sess_created_at : Z;
  sess_updated_at : Z;
  sess_last_activity_at : Z;
  sess_current_summary_id : option string;
  sess_metadata : string
}.

Record MessageRow := mkMessageRow {
  msg_id : string;
  msg_session_id : string;
  msg_role : string;
  msg_file_path : string;
  msg_tokens : Z;
  msg_is_summarized : bool;
  msg_created_at : Z
}.

Record SummaryRow := mkSummaryRow {
  sum_id : string;
  sum_session_id : string;
  sum_file_path : string;
  sum_tokens : Z;
  sum_covers_until_message_id : option string;
  sum_created_at : Z
}.

Record Tables := mkTables {
  sessions : list SessionRow;
  messages : list MessageRow;
  summaries : list SummaryRow
}.

(** ** Content Store: the JSON documents written by [fileStorage.js] *)

Record MessageFile := mkMessageFile {
  mf_id : string;
  mf_session_id : string;
  mf_role : string;
  mf_content : string;
  mf_tool_used : option string;
  mf_sources : option (list string);
  mf_metadata : option string;
  mf_created_at : Z
}.

Record SummaryFile := mkSummaryFile {
  sf_id : string;
  sf_session_id : string;
  sf_summary : string;
  sf_covered_message_ids : list string;
  sf_tokens : Z;
  sf_created_at : Z
}.

Record Files := mkFiles {
  message_files : gmap (string * string) MessageFile;
  summary_files : gmap (string * string) SummaryFile
}.

(** A path below [basePath], as [getMessagePath] / [getSummaryPath] build it. *)
Inductive path :=
| MessagePath (sessionId messageId : string)
| SummaryPath (sessionId summaryId : string).

(** ** Generation backend: request and response of [chat.completions.create] *)

Record ChatMessage := mkChatMessage { role : string; content : string }.

Record Request := mkRequest {
  req_model : string;
  req_messages : list ChatMessage;
  req_max_tokens : Z;
  req_temperature : Q
}.

(** [choices] lists [choices[i].message.content]; [usage] is
    [usage?.total_tokens]. *)
Record Response := mkResponse {
  choices : list string;
  usage : option Z
}.

(** ** Errors and the monad of asynchronous methods *)

Inductive error :=
| ForeignKeyViolation   (* a row names a session that is not in [sessions] *)
| UniqueViolation       (* duplicate primary key *)
| CheckViolation        (* [role] outside user / assistant / system *)
| NegativeLimit         (* LIMIT must not be negative *)
| TypeError             (* property read on null or undefined *)
| BackendError.         (* the generation backend rejected the call *)

Inductive outcome (A : Type) :=
| Ok (a : A)
| Throw (e : error).
Arguments Ok {A} a.
Arguments Throw {A} e.

Record Env := mkEnv {
  clock : nat → Z;
  fresh_uuid : nat → string;
  backend : nat → Request → outcome Response
}.

Record World := mkWorld {
  tables : Tables;
  files : Files;
  ticks : nat;
  uuids : nat;
  calls : list Request;
  journal : list (Tables * Files)
}.

Definition M (A : Type) : Type := Env → World → outcome A * World.

Global Instance M_ret : MRet M := λ A a _ w, (Ok a, w).

Global Instance M_bind : MBind M := λ A B k m E w,
  match m E w with
  | (Ok a, w') => k a E w'
  | (Throw e, w') => (Throw e, w')
  end.

Definition throw {A} (e : error) : M A := λ _ w, (Throw e, w).

(** [try { body } catch (err) { handler }] *)
Definition try_catch {A} (body : M A) (handler : error → M A) : M A := λ E w,
  match body E w with
  | (Ok a, w') => (Ok a, w')
  | (Throw e, w') => handler e E w'
  end.

(** [Date.now()] *)
Definition Date_now : M Z := λ E w,
  (Ok (clock E (ticks w)),
   mkWorld (tables w) (files w) (S (ticks w)) (uuids w) (calls w) (journal w)).

(** [uuidv4()] *)
Definition uuidv4 : M string := λ E w,
  (Ok (fresh_uuid E (uuids w)),
   mkWorld (tables w) (files w) (ticks w) (S (uuids w)) (calls w) (journal w)).

(** [this.openai.chat.completions.create(request)] *)
Definition chat_completions_create (r : Request) : M Response := λ E w,
  (backend E (length (calls w)) r,
   mkWorld (tables w) (files w) (ticks w) (uuids w) (r :: calls w) (journal w)).

(** A [pool.query] that only reads. *)
Definition pool_query_read {A} (q : Tables → outcome A) : M A := λ _ w,
  (q (tables w), w).

(** A [pool.query] that writes: the statement commits on its own, and the
    committed stores are what any other request sees from then on. *)
Definition pool_query_write (q : Tables → outcome Tables) : M unit := λ _ w,
  match q (tables w) with
  | Ok t => (Ok (),
             mkWorld t (files w) (ticks w) (uuids w) (calls w)
                     ((t, files w) :: journal w))
  | Throw e => (Throw e, w)
  end.

(** [fs.writeFile] / [fs.rm] *)
Definition fs_write (f : Files → Files) : M unit := λ _ w,
  let fs := f (files w) in
  (Ok (),
   mkWorld (tables w) fs (ticks w) (uuids w) (calls w)
           ((tables w, fs) :: journal w)).

Definition fs_read {A} (f : Files → A) : M A := λ _ w, (Ok (f (files w)), w).

(** [for (const x of xs) { ... }] and [Promise.all(xs.map(async ...))] *)
Fixpoint mapM {A B} (f : A → M B) (xs : list A) : M (list B) :=
  match xs with
  | [] => mret []
  | x :: xs' => y ← f x; ys ← mapM f xs'; mret (y :: ys)
  end.

(** JavaScript truthiness of a string and [a || b] on strings. *)
Definition truthy (s : string) : bool := negb (String.eqb s "").

Definition or_else (a : option string) (b : string) : string :=
  match a with
  | Some s => if truthy s then s else b
  | None => b
  end.

(** ** [fileStorage.js] *)

Module FileStorage.

(** The [data] argument of [saveMessage]. *)
Record MessageData := mkMessageData {
  data_role : string;
  data_content : string;
  data_toolUsed : option string;
  data_sources : option (list string);
  data_metadata : option string;
  data_createdAt : option Z
}.

(** The [data] argument of [saveSummary]. *)
Record SummaryData := mkSummaryData {
  data_summary : string;
  data_coveredMessageIds : list string;
  data_tokens : Z;
  data_summary_createdAt : option Z
}.

(** [fs.mkdir(dirPath, { recursive: true })]: directories are not part
    of [Files], so nothing observable changes. *)
Definition ensureDir (dir : path) : M unit := mret ().

Definition getMessagePath (sessionId messageId : string) : path :=
  MessagePath sessionId messageId.

Definition getSummaryPath (sessionId summaryId : string) : path :=
  SummaryPath sessionId summaryId.

(** [data.createdAt || Date.now()] *)
Definition createdAt_or_now (t : option Z) : M Z :=
  match t with
  | Some t' => if t' =? 0 then Date_now else mret t'
  | None => Date_now
  end.

(** [data.toolUsed || null] *)
Definition string_or_null (s : option string) : option string :=
  match s with
  | Some s' => if truthy s' then Some s' else None
  | None => None
  end.

Definition write_message_file (sessionId messageId : string)
    (c : MessageFile) (fs : Files) : Files :=
  mkFiles (<[(sessionId, messageId) := c]> (message_files fs)) (summary_files fs).

Definition write_summary_file (sessionId summaryId : string)
    (c : SummaryFile) (fs : Files) : Files :=
  mkFiles (message_files fs) (<[(sessionId, summaryId) := c]> (summary_files fs)).

Definition saveMessage (sessionId messageId : string) (data : MessageData)
    : M path :=
  let filePath := getMessagePath sessionId messageId in
  ensureDir filePath;;
  created ← createdAt_or_now (data_createdAt data);
  let content := {|
    mf_id := messageId;
    mf_session_id := sessionId;
    mf_role := data_role data;
    mf_content := data_content data;
    mf_tool_used := string_or_null (data_toolUsed data);
    mf_sources := data_sources data;
    mf_metadata := data_metadata data;
    mf_created_at := created
  |} in
  fs_write (write_message_file sessionId messageId content);;
  mret filePath.

(** Returns [None] for ENOENT. *)
Definition getMessage (sessionId messageId : string) : M (option MessageFile) :=
  fs_read (λ fs, message_files fs !! (sessionId, messageId)).

Definition saveSummary (sessionId summaryId : string) (data : SummaryData)
    : M path :=
  let filePath := getSummaryPath sessionId summaryId in
  ensureDir filePath;;
  created ← createdAt_or_now (data_summary_createdAt data);
  let content := {|
    sf_id := summaryId;
    sf_session_id := sessionId;
    sf_summary := data_summary data;
    sf_covered_message_ids := data_coveredMessageIds data;
    sf_tokens := data_tokens data;
    sf_created_at := created
  |} in
  fs_write (write_summary_file sessionId summaryId content);;
  mret filePath.

(** Returns [None] for ENOENT. *)
Definition getSummary (sessionId summaryId : string) : M (option SummaryFile) :=
  fs_read (λ fs, summary_files fs !! (sessionId, summaryId)).

(** [path.relative(basePath, absolutePath)] *)
Definition getRelativePath (p : path) : string :=
  match p with
  | MessagePath s m => s +:+ "/messages/" +:+ m +:+ ".json"
  | SummaryPath s m => s +:+ "/summaries/" +:+ m +:+ ".json"
  end.

(** [fs.rm(sessionPath, { recursive: true, force: true })]: every
    document below the directory of the session goes; a directory that
    is not there is no error.  The session id is one path segment, as
    the ids that the services draw are. *)
Definition remove_session_files (sessionId : string) (fs : Files) : Files :=
  mkFiles (filter (λ kv, kv.1.1 ≠ sessionId) (message_files fs))
          (filter (λ kv, kv.1.1 ≠ sessionId) (summary_files fs)).

Definition deleteSession (sessionId : string) : M unit :=
  fs_write (remove_session_files sessionId).

End FileStorage.

(** ** [database.js] *)

(** *** The SQL statements, as functions on the tables *)

(** The id parameters are UUID text in the printed form
    ([canonical_uuid], below): on such text two ids are the same UUID
    exactly when they are the same string, which is how the statements
    compare them.  Text that is not UUID syntax never reaches a
    statement, the server refuses it with error 22P02; the functions
    here say nothing about such text and are to be read on ids of the
    printed form only. *)

(** [ORDER BY created_at ASC] and [DESC] on [messages]. *)
Definition created_asc (a b : MessageRow) : Prop :=
  msg_created_at a ≤ msg_created_at b.

Definition created_desc (a b : MessageRow) : Prop :=
  msg_created_at b ≤ msg_created_at a.

Global Instance created_asc_dec : RelDecision created_asc :=
  λ a b, Z_le_dec (msg_created_at a) (msg_created_at b).

Global Instance created_desc_dec : RelDecision created_desc :=
  λ a b, Z_le_dec (msg_created_at b) (msg_created_at a).

(** [SELECT ... FROM sessions WHERE id = $1] *)
Definition select_session (sessionId : string) (t : Tables) : list SessionRow :=
  filter (λ s, sess_id s = sessionId) (sessions t).

(** [role IN ('user', 'assistant', 'system')] *)
Definition role_check (r : string) : bool :=
  bool_decide (r = "user" ∨ r = "assistant" ∨ r = "system").

(** [INSERT INTO messages (id, session_id, role, file_path, tokens, created_at)]:
    [is_summarized] takes its default FALSE; the CHECK on [role], the
    primary key and the reference to [sessions(id)] are enforced. *)
Definition insert_message (id sessionId role filePath : string) (tokens now : Z)
    (t : Tables) : outcome Tables :=
  if negb (role_check role) then Throw CheckViolation
  else if bool_decide (id ∈ msg_id <$> messages t) then Throw UniqueViolation
  else if bool_decide (sessionId ∈ sess_id <$> sessions t) then
    Ok (mkTables (sessions t)
          (messages t ++ [mkMessageRow id sessionId role filePath tokens false now])
          (summaries t))
  else Throw ForeignKeyViolation.

(** [UPDATE sessions SET last_activity_at = $1, updated_at = $1 WHERE id = $2] *)
Definition touch_session (now : Z) (sessionId : string) (s : SessionRow) : SessionRow :=
  if bool_decide (sess_id s = sessionId) then
    mkSessionRow (sess_id s) (sess_title s) (sess_created_at s) now now
                 (sess_current_summary_id s) (sess_metadata s)
  else s.

Definition update_session_activity (now : Z) (sessionId : string) (t : Tables)
    : outcome Tables :=
  Ok (mkTables (touch_session now sessionId <$> sessions t) (messages t) (summaries t)).

(** The optional cursor clause
    [AND created_at < (SELECT created_at FROM messages WHERE id = $2)]:
    a subquery without rows is NULL, and no row passes a comparison
    with NULL. *)
Definition cursor_created_at (beforeId : string) (t : Tables) : option Z :=
  msg_created_at <$> head (filter (λ m, msg_id m = beforeId) (messages t)).

Definition before_cursor (cursor : option (option Z)) (m : MessageRow) : Prop :=
  match cursor with
  | None => True
  | Some None => False
  | Some (Some c) => msg_created_at m < c
  end.

Global Instance before_cursor_dec cursor m : Decision (before_cursor cursor m).
Proof. destruct cursor as [[c|]|]; simpl; apply _. Defined.

(** [SELECT ... FROM messages WHERE session_id = $1 [cursor clause]
     ORDER BY created_at DESC LIMIT $n].  PostgreSQL leaves the order of
     rows with equal [created_at] open; here it is the one of the sort. *)
Definition select_messages_page (sessionId : string) (cursor : option string)
    (limit : Z) (t : Tables) : outcome (list MessageRow) :=
  if limit <? 0 then Throw NegativeLimit
  else
    let c := (λ b, cursor_created_at b t) <$> cursor in
    Ok (take (Z.to_nat limit)
          (merge_sort created_desc
             (filter (λ m, msg_session_id m = sessionId ∧ before_cursor c m)
                     (messages t)))).

(** [SELECT ... FROM messages WHERE session_id = $1 AND is_summarized = FALSE
     ORDER BY created_at ASC] *)
Definition select_unsummarized (sessionId : string) (t : Tables) : list MessageRow :=
  merge_sort created_asc
    (filter (λ m, msg_session_id m = sessionId ∧ msg_is_summarized m = false)
            (messages t)).

(** [UPDATE messages SET is_summarized = TRUE WHERE id = ANY($1)] *)
Definition mark_summarized (messageIds : list string) (m : MessageRow) : MessageRow :=
  if bool_decide (msg_id m ∈ messageIds) then
    mkMessageRow (msg_id m) (msg_session_id m) (msg_role m) (msg_file_path m)
                 (msg_tokens m) true (msg_created_at m)
  else m.

Definition update_messages_summarized (messageIds : list string) (t : Tables)
    : outcome Tables :=
  Ok (mkTables (sessions t) (mark_summarized messageIds <$> messages t) (summaries t)).

(** [SELECT COUNT( * ) FROM messages
     WHERE session_id = $1 AND role = 'assistant' AND is_summarized = FALSE] *)
Definition count_meaningful (sessionId : string) (t : Tables) : Z :=
  Z.of_nat (length (filter
    (λ m, msg_session_id m = sessionId ∧ msg_role m = "assistant"
          ∧ msg_is_summarized m = false)
    (messages t))).

(** [INSERT INTO summaries (id, session_id, file_path, tokens,
     covers_until_message_id, created_at)] *)
Definition insert_summary (id sessionId filePath : string) (tokens : Z)
    (coversUntil : option string) (now : Z) (t : Tables) : outcome Tables :=
  if bool_decide (id ∈ sum_id <$> summaries t) then Throw UniqueViolation
  else if bool_decide (sessionId ∈ sess_id <$> sessions t) then
    Ok (mkTables (sessions t) (messages t)
          (summaries t ++ [mkSummaryRow id sessionId filePath tokens coversUntil now]))
  else Throw ForeignKeyViolation.

(** [UPDATE sessions SET current_summary_id = $1, updated_at = $2 WHERE id = $3] *)
Definition repoint_session (summaryId : string) (now : Z) (sessionId : string)
    (s : SessionRow) : SessionRow :=
  if bool_decide (sess_id s = sessionId) then
    mkSessionRow (sess_id s) (sess_title s) (sess_created_at s) now
                 (sess_last_activity_at s) (Some summaryId) (sess_metadata s)
  else s.

Definition update_current_summary (summaryId : string) (now : Z) (sessionId : string)
    (t : Tables) : outcome Tables :=
  Ok (mkTables (repoint_session summaryId now sessionId <$> sessions t)
               (messages t) (summaries t)).

(** [SELECT s.* FROM summaries s
     JOIN sessions sess ON sess.current_summary_id = s.id WHERE sess.id = $1] *)
Definition select_current_summary (sessionId : string) (t : Tables) : list SummaryRow :=
  s ← summaries t;
  sess ← sessions t;
  if bool_decide (sess_current_summary_id sess = Some (sum_id s)
                  ∧ sess_id sess = sessionId)
  then [s] else [].

(** [UPDATE sessions SET <fields> WHERE id = $n], with the field list
    that [updateSession] assembles: [updated_at] always, the others when
    given. *)
Definition set_session_fields (sessionId : string)
    (title summaryId : option (option string)) (metadata : option string)
    (updated : Z) (activity : option Z) (s : SessionRow) : SessionRow :=
  if bool_decide (sess_id s = sessionId) then
    mkSessionRow (sess_id s)
                 (default (sess_title s) title)
                 (sess_created_at s)
                 updated
                 (default (sess_last_activity_at s) activity)
                 (default (sess_current_summary_id s) summaryId)
                 (default (sess_metadata s) metadata)
  else s.

Definition update_session_fields (sessionId : string)
    (title summaryId : option (option string)) (metadata : option string)
    (updated : Z) (activity : option Z) (t : Tables) : outcome Tables :=
  Ok (mkTables
        (set_session_fields sessionId title summaryId metadata updated activity
           <$> sessions t)
        (messages t) (summaries t)).

(** [INSERT INTO sessions (id, title, created_at, updated_at, last_activity_at)
     VALUES ($1, $2, $3, $3, $3)]: [current_summary_id] is NULL and
    [metadata] takes its default. *)
Definition insert_session (id : string) (title : option string) (now : Z)
    (t : Tables) : outcome Tables :=
  if bool_decide (id ∈ sess_id <$> sessions t) then Throw UniqueViolation
  else
    Ok (mkTables (sessions t ++ [mkSessionRow id title now now now None "{}"])
                 (messages t) (summaries t)).

(** [DELETE FROM sessions WHERE id = $1]: the rows of [messages] and
    [summaries] that reference a deleted session go with it
    (ON DELETE CASCADE). *)
Definition delete_session_rows (sessionId : string) (t : Tables) : outcome Tables :=
  if bool_decide (sessionId ∈ sess_id <$> sessions t) then
    Ok (mkTables (filter (λ s, sess_id s ≠ sessionId) (sessions t))
                 (filter (λ m, msg_session_id m ≠ sessionId) (messages t))
                 (filter (λ s, sum_session_id s ≠ sessionId) (summaries t)))
  else Ok t.

(** *** The methods of the [Database] class *)

Module Database.

(** The [updates] argument of [updateSession]; [None] is [undefined].
    [upd_metadata] is the text that [JSON.stringify] gives. *)
Record SessionUpdates := mkSessionUpdates {
  upd_title : option (option string);
  upd_currentSummaryId : option (option string);
  upd_metadata : option string;
  upd_updateActivity : option bool
}.

(** The [data] argument of [createMessage]. *)
Record MessageData := mkMessageData {
  data_id : option string;
  data_role : string;
  data_filePath : string;
  data_tokens : Z
}.

Record MessageRef := mkMessageRef {
  ref_id : string;
  ref_sessionId : string;
  ref_role : string;
  ref_filePath : string;
  ref_createdAt : Z
}.

(** The [data] argument of [createSummary]. *)
Record SummaryData := mkSummaryData {
  data_summary_filePath : string;
  data_summary_tokens : Z;
  data_coversUntilMessageId : option string
}.

Record SummaryRef := mkSummaryRef {
  sref_id : string;
  sref_sessionId : string;
  sref_filePath : string;
  sref_createdAt : Z
}.

Definition getSession (sessionId : string) : M (option SessionRow) :=
  pool_query_read (λ t, Ok (head (select_session sessionId t))).

Definition updateSession (sessionId : string) (updates : SessionUpdates) : M unit :=
  updated ← Date_now;
  activity ← match upd_updateActivity updates with
             | Some false => mret None
             | _ => now ← Date_now; mret (Some now)
             end;
  pool_query_write
    (update_session_fields sessionId (upd_title updates)
       (upd_currentSummaryId updates) (upd_metadata updates) updated activity).

Definition createMessage (sessionId : string) (data : MessageData) : M MessageRef :=
  id ← match data_id data with
       | Some i => if truthy i then mret i else uuidv4
       | None => uuidv4
       end;
  now ← Date_now;
  pool_query_write
    (insert_message id sessionId (data_role data) (data_filePath data)
                    (data_tokens data) now);;
  pool_query_write (update_session_activity now sessionId);;
  mret (mkMessageRef id sessionId (data_role data) (data_filePath data) now).

(** The page is selected newest first and returned reversed. *)
Definition getMessages (sessionId : string) (limit : Z) (beforeId : option string)
    : M (list MessageRow) :=
  let cursor := match beforeId with
                | Some b => if truthy b then Some b else None
                | None => None
                end in
  rows ← pool_query_read (select_messages_page sessionId cursor limit);
  mret (reverse rows).

Definition getUnsummarizedMessages (sessionId : string) : M (list MessageRow) :=
  pool_query_read (λ t, Ok (select_unsummarized sessionId t)).

Definition markMessagesSummarized (messageIds : list string) : M unit :=
  if bool_decide (length messageIds = 0%nat) then mret ()
  else pool_query_write (update_messages_summarized messageIds).

Definition countMeaningfulMessages (sessionId : string) : M Z :=
  pool_query_read (λ t, Ok (count_meaningful sessionId t)).

Definition createSummary (sessionId : string) (data : SummaryData) : M SummaryRef :=
  id ← uuidv4;
  now ← Date_now;
  pool_query_write
    (insert_summary id sessionId (data_summary_filePath data)
                    (data_summary_tokens data) (data_coversUntilMessageId data) now);;
  pool_query_write (update_current_summary id now sessionId);;
  mret (mkSummaryRef id sessionId (data_summary_filePath data) now).

Definition getCurrentSummary (sessionId : string) : M (option SummaryRow) :=
  pool_query_read (λ t, Ok (head (select_current_summary sessionId t))).

(** What [createSession] returns. *)
Record CreatedSession := mkCreatedSession {
  created_id : string;
  created_title : option string;
  created_createdAt : Z;
  created_updatedAt : Z;
  created_lastActivityAt : Z
}.

Definition createSession (title : option string) : M CreatedSession :=
  id ← uuidv4;
  now ← Date_now;
  pool_query_write (insert_session id title now);;
  mret (mkCreatedSession id title now now now).

Definition deleteSession (sessionId : string) : M unit :=
  pool_query_write (delete_session_rows sessionId).

End Database.

(** ** [config/database.js], the [session] settings *)

Record SessionConfig := mkSessionConfig {
  cacheExpiryMinutes : Z;
  meaningfulMessageThreshold : Z;
  summaryModel : string;
  titleModel : string;
  defaultPageSize : Z
}.

Definition dbConfig_session : SessionConfig := {|
  cacheExpiryMinutes := 5;
  meaningfulMessageThreshold := 5;
  summaryModel := "gpt-4o-mini";
  titleModel := "gpt-4o-mini";
  defaultPageSize := 4
|}.

(** ** String helpers of JavaScript used by the services *)

Definition LF : string := String (Ascii.ascii_of_nat 10) EmptyString.
Definition DQ : string := String (Ascii.ascii_of_nat 34) EmptyString.

(** [s.replace(/[<dq>']/g, '')] *)
Fixpoint remove_quotes (s : string) : string :=
  match s with
  | EmptyString => EmptyString
  | String c s' =>
      if bool_decide (c = Ascii.ascii_of_nat 34 ∨ c = Ascii.ascii_of_nat 39)
      then remove_quotes s'
      else String c (remove_quotes s')
  end.

(** [s.replace(/[.!?]$/, '')] *)
Fixpoint remove_final_punctuation (s : string) : string :=
  match s with
  | EmptyString => EmptyString
  | String c EmptyString =>
      if bool_decide (c = "."%char ∨ c = "!"%char ∨ c = "?"%char)
      then EmptyString else s
  | String c s' => String c (remove_final_punctuation s')
  end.

(** White space of [trim()], within ASCII. *)
Definition is_white_space (c : ascii) : bool :=
  bool_decide (c = " "%char) || (9 <=? Ascii.nat_of_ascii c)%nat && (Ascii.nat_of_ascii c <=? 13)%nat.

Fixpoint trimStart (s : string) : string :=
  match s with
  | EmptyString => EmptyString
  | String c s' => if is_white_space c then trimStart s' else s
  end.

Definition trim (s : string) : string :=
  String.rev (trimStart (String.rev (trimStart s))).

(** [Math.ceil(content.length / 4)] *)
Definition estimate_tokens (content : string) : Z :=
  Qceiling (Z.of_nat (String.length content) # 4).

(** ** UUID text *)

(** The form in which PostgreSQL prints a value of type UUID: 32
    lower-case hexadecimal digits in groups of 8, 4, 4, 4 and 12,
    separated by hyphens. *)
Definition is_lower_hex (c : ascii) : bool :=
  let n := Ascii.nat_of_ascii c in
  ((48 <=? n) && (n <=? 57) || (97 <=? n) && (n <=? 102))%nat.

Fixpoint uuid_text_from (pos : nat) (s : string) : bool :=
  match s with
  | EmptyString => (pos =? 36)%nat
  | String c s' =>
      (if (pos =? 8)%nat || (pos =? 13)%nat || (pos =? 18)%nat || (pos =? 23)%nat
       then Ascii.eqb c "-"%char
       else is_lower_hex c)
      && uuid_text_from (S pos) s'
  end.

Definition canonical_uuid (s : string) : bool := uuid_text_from 0 s.

(** ** [summarizer.js] *)

Module SummarizerService.

Record Needed := mkNeeded {
  needsSummary : bool;
  reason : string;
  minutesSinceActivity : option Q;
  meaningfulCount : option Z
}.

Record LoadedMessage := mkLoadedMessage {
  lm_id : string;
  lm_role : string;
  lm_content : string;
  lm_createdAt : Z
}.

Record SummaryResult := mkSummaryResult {
  res_summary : string;
  res_coveredMessages : Z;
  res_tokens : Z
}.

Record Context := mkContext {
  ctx_summary : option string;
  ctx_messages : list ChatMessage;
  ctx_hasSummary : bool;
  ctx_activeMessageCount : Z
}.

(** [minutesSinceActivity] is the exact quotient here.  The comparison
    with [cacheExpiryMinutes] has the same outcome on the doubles of
    JavaScript: the timestamps are integers, the division is correctly
    rounded, and 5 is the quotient of 300000 by 60000. *)
Definition checkSummarizationNeeded (config : SessionConfig) (sessionId : string)
    : M Needed :=
  session ← Database.getSession sessionId;
  match session with
  | None => mret (mkNeeded false "session_not_found" None None)
  | Some session =>
      now ← Date_now;
      let lastActivity := sess_last_activity_at session in
      let minutes := Qmake (now - lastActivity) (1000 * 60) in
      if Qle_bool minutes (inject_Z (cacheExpiryMinutes config)) then
        mret (mkNeeded false "cache_still_valid" None None)
      else
        count ← Database.countMeaningfulMessages sessionId;
        if count <? meaningfulMessageThreshold config then
          mret (mkNeeded false "not_enough_messages" None None)
        else
          mret (mkNeeded true "cache_expired_and_threshold_met"
                        (Some minutes) (Some count))
  end.

Definition buildSummaryPrompt (previousSummary : option string)
    (msgs : list LoadedMessage) : string :=
  let header :=
    match previousSummary with
    | Some p =>
        if truthy p then
          "## Previous Conversation Summary" +:+ LF +:+ p +:+ LF +:+ LF
          +:+ "## New Messages to Incorporate" +:+ LF
        else "## Conversation to Summarize" +:+ LF
    | None => "## Conversation to Summarize" +:+ LF
    end in
  let total := Z.of_nat (length msgs) in
  let line (index : nat) (msg : LoadedMessage) : string :=
    let recencyWeight := if total - 3 <=? Z.of_nat index then "[RECENT]" else "" in
    let role := if String.eqb (lm_role msg) "user" then "User" else "Assistant" in
    recencyWeight +:+ " " +:+ role +:+ ": " +:+ lm_content msg +:+ LF +:+ LF in
  header +:+ String.concat "" (imap line msgs)
  +:+ LF +:+ "Generate a comprehensive summary following the guidelines.".

Definition getSummarizerSystemPrompt : string :=
"You are a conversation summarizer. Create concise but comprehensive summaries.

## Output Format
Provide a summary with these sections:

### Context
Brief description of what this conversation is about (1-2 sentences)

### Key Discussion Points
- Main topics discussed (bullet points)
- Important conclusions reached

### User Instructions & Preferences
- Any specific instructions the user gave
- Preferences or constraints mentioned
- These should be preserved for context

### Important Facts & Details
- Specific facts, numbers, or technical details mentioned
- Code snippets or examples if relevant (keep brief)

## Guidelines
1. **Recency Weighting**: Give more detail to [RECENT] messages - they represent the current focus
2. **Instruction Preservation**: User instructions should NEVER be lost
3. **Conciseness**: Keep under 500 words while preserving essential context
4. **Actionable**: The summary should allow continuing the conversation seamlessly
5. **No Opinions**: Just summarize, don't add interpretation".

(** The body of the [messages.map(async (msg) => ...)] of [generateSummary]:
    [content.role] on a missing file is a property read on [null]. *)
Definition loadMessage (sessionId : string) (msg : MessageRow) : M LoadedMessage :=
  content ← FileStorage.getMessage sessionId (msg_id msg);
  match content with
  | Some c => mret (mkLoadedMessage (msg_id msg) (mf_role c) (mf_content c)
                                    (msg_created_at msg))
  | None => throw TypeError
  end.

Definition generateSummary (config : SessionConfig) (sessionId : string)
    : M (option SummaryResult) :=
  currentSummary ← Database.getCurrentSummary sessionId;
  previousSummaryText ←
    match currentSummary with
    | Some cur =>
        summaryContent ← FileStorage.getSummary sessionId (sum_id cur);
        mret (sf_summary <$> summaryContent)
    | None => mret None
    end;
  msgs ← Database.getUnsummarizedMessages sessionId;
  if bool_decide (length msgs = 0%nat) then mret None
  else
    messageContents ← mapM (loadMessage sessionId) msgs;
    let summaryPrompt := buildSummaryPrompt previousSummaryText messageContents in
    response ← chat_completions_create {|
      req_model := summaryModel config;
      req_messages := [ mkChatMessage "system" getSummarizerSystemPrompt;
                        mkChatMessage "user" summaryPrompt ];
      req_max_tokens := 1000;
      req_temperature := 3 # 10
    |};
    summaryText ← match choices response with
                  | c :: _ => mret c
                  | [] => throw TypeError
                  end;
    let summaryTokens := default 0 (usage response) in
    lastMessageId ← match last msgs with
                    | Some m => mret (msg_id m)
                    | None => throw TypeError
                    end;
    created ← Date_now;
    let summaryData := {|
      FileStorage.data_summary := summaryText;
      FileStorage.data_coveredMessageIds := msg_id <$> msgs;
      FileStorage.data_tokens := summaryTokens;
      FileStorage.data_summary_createdAt := Some created
    |} in
    summaryId ← uuidv4;
    filePath ← FileStorage.saveSummary sessionId summaryId summaryData;
    Database.createSummary sessionId {|
      Database.data_summary_filePath := FileStorage.getRelativePath filePath;
      Database.data_summary_tokens := summaryTokens;
      Database.data_coversUntilMessageId := Some lastMessageId
    |};;
    Database.markMessagesSummarized (msg_id <$> msgs);;
    mret (Some (mkSummaryResult summaryText (Z.of_nat (length msgs)) summaryTokens)).

(** The body of the [for (const msg of unsummarizedMsgs)] loop of
    [getSessionContext]: a message without content is skipped. *)
Definition loadActive (sessionId : string) (msg : MessageRow)
    : M (option ChatMessage) :=
  content ← FileStorage.getMessage sessionId (msg_id msg);
  mret ((λ c, mkChatMessage (mf_role c) (mf_content c)) <$> content).

(** The part of [getSessionContext] that follows the summarization step:
    current summary, then the unsummarized messages and their content. *)
Definition assembleContext (sessionId : string) : M Context :=
  currentSummary ← Database.getCurrentSummary sessionId;
  summaryText ←
    match currentSummary with
    | Some cur =>
        summaryContent ← FileStorage.getSummary sessionId (sum_id cur);
        mret (sf_summary <$> summaryContent)
    | None => mret None
    end;
  unsummarizedMsgs ← Database.getUnsummarizedMessages sessionId;
  loaded ← mapM (loadActive sessionId) unsummarizedMsgs;
  let activeMessages := omap id loaded in
  mret {|
    ctx_summary := summaryText;
    ctx_messages := activeMessages;
    ctx_hasSummary := match summaryText with Some s => truthy s | None => false end;
    ctx_activeMessageCount := Z.of_nat (length activeMessages)
  |}.

Definition getSessionContext (config : SessionConfig) (sessionId : string)
    : M Context :=
  check ← checkSummarizationNeeded config sessionId;
  (if needsSummary check
   then generateSummary config sessionId;; mret ()
   else mret ());;
  assembleContext sessionId.

End SummarizerService.

(** ** [session.js] *)

Module SessionService.

(** The [metadata] argument of [addMessage]. *)
Record Metadata := mkMetadata {
  toolUsed : option string;
  sources : option (list string);
  extra : option string
}.

Record AddedMessage := mkAddedMessage {
  added_id : string;
  added_role : string;
  added_content : string;
  added_tokens : Z
}.

Record LoadedMessage := mkLoadedMessage {
  lm_id : string;
  lm_role : string;
  lm_content : string;
  lm_toolUsed : option string;
  lm_sources : option (list string);
  lm_createdAt : Z;
  lm_isSummarized : bool
}.

Definition addMessage (sessionId role content : string) (metadata : Metadata)
    : M AddedMessage :=
  messageId ← uuidv4;
  let tokens := estimate_tokens content in
  created ← Date_now;
  filePath ← FileStorage.saveMessage sessionId messageId {|
    FileStorage.data_role := role;
    FileStorage.data_content := content;
    FileStorage.data_toolUsed := toolUsed metadata;
    FileStorage.data_sources := sources metadata;
    FileStorage.data_metadata := extra metadata;
    FileStorage.data_createdAt := Some created
  |};
  Database.createMessage sessionId {|
    Database.data_id := Some messageId;
    Database.data_role := role;
    Database.data_filePath := FileStorage.getRelativePath filePath;
    Database.data_tokens := tokens
  |};;
  mret (mkAddedMessage messageId role content tokens).

(** The body of the [messageRefs.map(async (ref) => ...)] of [getMessages]. *)
Definition loadMessage (sessionId : string) (ref : MessageRow) : M LoadedMessage :=
  content ← FileStorage.getMessage sessionId (msg_id ref);
  mret {|
    lm_id := msg_id ref;
    lm_role := or_else (mf_role <$> content) (msg_role ref);
    lm_content := or_else (mf_content <$> content) "";
    lm_toolUsed := content ≫= mf_tool_used;
    lm_sources := content ≫= mf_sources;
    lm_createdAt := msg_created_at ref;
    lm_isSummarized := msg_is_summarized ref
  |}.

Definition getMessages (sessionId : string) (limit : Z) (beforeId : option string)
    : M (list LoadedMessage) :=
  messageRefs ← Database.getMessages sessionId limit beforeId;
  mapM (loadMessage sessionId) messageRefs.

Definition title_system_prompt : string :=
"You are a title generator. Create a concise 3-6 word title that summarizes the user's question or topic. 
Rules:
- Output ONLY the title, no quotes, no punctuation at the end
- Be descriptive but brief
- Focus on the main topic or intent

Example inputs and outputs:
" +:+ DQ +:+ "What is 2+2?" +:+ DQ +:+ " → " +:+ DQ +:+ "Basic Math Question" +:+ DQ +:+ "
" +:+ DQ +:+ "How do I learn Python?" +:+ DQ +:+ " → " +:+ DQ +:+ "Learning Python Programming" +:+ DQ +:+ "
" +:+ DQ +:+ "Tell me about the French Revolution" +:+ DQ +:+ " → " +:+ DQ +:+ "French Revolution Overview" +:+ DQ.

Definition generateTitle (config : SessionConfig) (sessionId : string)
    : M (option string) :=
  msgs ← getMessages sessionId 2 None;
  if bool_decide (length msgs = 0%nat) then mret None
  else
    match head (filter (λ m, lm_role m = "user") msgs) with
    | None => mret None
    | Some firstUserMessage =>
        try_catch
          (response ← chat_completions_create {|
             req_model := titleModel config;
             req_messages :=
               [ mkChatMessage "system" title_system_prompt;
                 mkChatMessage "user"
                   ("Create a title for this message: " +:+ DQ
                    +:+ substring 0 200 (lm_content firstUserMessage) +:+ DQ) ];
             req_max_tokens := 20;
             req_temperature := 1 # 2
           |};
           raw ← match choices response with
                 | c :: _ => mret c
                 | [] => throw TypeError
                 end;
           let title := trim (remove_final_punctuation (remove_quotes raw)) in
           Database.updateSession sessionId {|
             Database.upd_title := Some (Some title);
             Database.upd_currentSummaryId := None;
             Database.upd_metadata := None;
             Database.upd_updateActivity := Some false
           |};;
           mret (Some title))
          (λ err, mret None)
    end.


Definition createSession (title : option string) : M Database.CreatedSession :=
  Database.createSession title.

Record SessionWithMessages := mkSessionWithMessages {
  with_session : SessionRow;
  with_messages : list LoadedMessage
}.

(** [pageSize] is [None] when the caller gives none; [pageSize || default]
    also takes the default for 0. *)
Definition getSession (config : SessionConfig) (sessionId : string)
    (pageSize : option Z) : M (option SessionWithMessages) :=
  session ← Database.getSession sessionId;
  match session with
  | None => mret None
  | Some session =>
      let limit := match pageSize with
                   | Some p => if p =? 0 then defaultPageSize config else p
                   | None => defaultPageSize config
                   end in
      msgs ← getMessages sessionId limit None;
      mret (Some (mkSessionWithMessages session msgs))
  end.

(** Files first, then the rows. *)
Definition deleteSession (sessionId : string) : M unit :=
  FileStorage.deleteSession sessionId;;
  Database.deleteSession sessionId.

(** [cachedTokens] is the string 'summarized' or a number. *)
Record ApiContext := mkApiContext {
  api_messages : list ChatMessage;
  api_hasSummary : bool;
  api_activeMessageCount : Z;
  api_cachedTokens : string + Z
}.

Definition getContextForApiCall (config : SessionConfig) (sessionId : string)
    : M ApiContext :=
  context ← SummarizerService.getSessionContext config sessionId;
  let summaryItem :=
    match SummarizerService.ctx_summary context with
    | Some summary =>
        if truthy summary then
          [ mkChatMessage "system"
              ("## Previous Conversation Summary" +:+ LF +:+ summary +:+ LF +:+ LF
               +:+ "Continue the conversation based on this context.") ]
        else []
    | None => []
    end in
  let apiMessages :=
    summaryItem
    ++ ((λ msg, mkChatMessage (role msg) (content msg))
          <$> SummarizerService.ctx_messages context) in
  mret {|
    api_messages := apiMessages;
    api_hasSummary := SummarizerService.ctx_hasSummary context;
    api_activeMessageCount := SummarizerService.ctx_activeMessageCount context;
    api_cachedTokens :=
      if SummarizerService.ctx_hasSummary context then inl "summarized"
      else inr (SummarizerService.ctx_activeMessageCount context * 100)
  |}.

End SessionService.

(** ** The session branch of [POST /api/chat], up to the context *)

(** [await sessionService.addMessage(sessionId, 'user', message)] and then
    [await sessionService.getContextForApiCall(sessionId)]. *)
Definition chat_session_context (config : SessionConfig)
    (sessionId message : string) : M SessionService.ApiContext :=
  SessionService.addMessage sessionId "user" message
    (SessionService.mkMetadata None None None);;
  SessionService.getContextForApiCall config sessionId.

(** ** Notions used by the properties *)

(** The recovery invariant on the pair of stores.  A message is read back
    under its own id ([getMessagePath(sessionId, msg.id)]).  A summary row
    carries an id of its own (drawn by [createSummary]), so its
    [file_path] is what ties it to its document. *)
Definition content_present (st : Tables * Files) : Prop :=
  (∀ m, m ∈ messages st.1 →
        is_Some (message_files st.2 !! (msg_session_id m, msg_id m)))
  ∧ (∀ s, s ∈ summaries st.1 →
          ∃ contentId,
            is_Some (summary_files st.2 !! (sum_session_id s, contentId))
            ∧ sum_file_path s
              = FileStorage.getRelativePath (SummaryPath (sum_session_id s) contentId)).

(** A reader's view of the tables in which no summary row is ahead of
    the flags: the message a summary covers up to is marked. *)
Definition summaries_marked (t : Tables) : Prop :=
  ∀ s m, s ∈ summaries t → m ∈ messages t →
         sum_covers_until_message_id s = Some (msg_id m) →
         msg_is_summarized m = true.

(** Every message row names a session row (the REFERENCES constraint). *)
Definition references_hold (t : Tables) : Prop :=
  ∀ m, m ∈ messages t → msg_session_id m ∈ sess_id <$> sessions t.

(** What [getSessionContext] makes of one unsummarized row. *)
Definition active_entry (sessionId : string) (fs : Files) (m : MessageRow)
    : option ChatMessage :=
  (λ c, mkChatMessage (mf_role c) (mf_content c))
    <$> message_files fs !! (sessionId, msg_id m).

(** The constraints of the schema that the statements rely on: primary
    keys, and the references from [messages] and [summaries] to
    [sessions]. *)
Definition schema_holds (t : Tables) : Prop :=
  NoDup (sess_id <$> sessions t)
  ∧ NoDup (msg_id <$> messages t)
  ∧ NoDup (sum_id <$> summaries t)
  ∧ (∀ m, m ∈ messages t → msg_session_id m ∈ sess_id <$> sessions t)
  ∧ (∀ s, s ∈ summaries t → sum_session_id s ∈ sess_id <$> sessions t).

(** A message row changes in its flag only, and only from false to true. *)
Definition flag_only_raised (m m' : MessageRow) : Prop :=
  msg_id m' = msg_id m
  ∧ msg_session_id m' = msg_session_id m
  ∧ msg_role m' = msg_role m
  ∧ msg_file_path m' = msg_file_path m
  ∧ msg_tokens m' = msg_tokens m
  ∧ msg_created_at m' = msg_created_at m
  ∧ (msg_is_summarized m = true → msg_is_summarized m' = true).

(** A computation that leaves the schema constraints in force, however
    it ends. *)
Definition keeps_schema {A} (m : M A) : Prop :=
  ∀ E w, schema_holds (tables w) → schema_holds (tables (m E w).2).

(** ** Sample stores and environments *)

(** The decimal digit of [i], for [i] below ten. *)
Definition digit (i : nat) : string :=
  String (Ascii.ascii_of_nat (48 + i)) EmptyString.

Definition sample_env (now : Z) (reply : nat → outcome Response) : Env :=
  mkEnv (λ _, now) (λ n, "uuid-" +:+ digit n) (λ n _, reply n).

Definition sample_reply : outcome Response :=
  Ok (mkResponse ["The user greeted the assistant."] (Some 42)).

Definition sample_row (role : string) (summarized : bool) (i : nat) : MessageRow :=
  mkMessageRow ("m" +:+ digit i) "s" role
               ("s/messages/m" +:+ digit i +:+ ".json") 2 summarized (Z.of_nat i).

Definition sample_file (role : string) (i : nat) : (string * string) * MessageFile :=
  (("s", "m" +:+ digit i),
   mkMessageFile ("m" +:+ digit i) "s" role "hello" None None None (Z.of_nat i)).

Definition sample_session : SessionRow :=
  mkSessionRow "s" None 0 0 0 None "{}".

(** One session ["s"], last active at time 0, with [n] assistant replies
    [m0 .. m(n-1)] whose content is stored. *)
Definition sample_world (n : nat) (summarized : bool) : World :=
  mkWorld
    (mkTables [sample_session] (sample_row "assistant" summarized <$> seq 0 n) [])
    (mkFiles (list_to_map (sample_file "assistant" <$> seq 0 n)) ∅)
    0 0 [] [].


(** Five unsummarized assistant replies, the content of the last one gone. *)
Definition half_stored_world : World :=
  mkWorld (tables (sample_world 5 false)) (files (sample_world 4 false)) 0 0 [] [].

(** The same session with one user message [m0], content stored. *)
Definition asking_world : World :=
  mkWorld (mkTables [sample_session] [sample_row "user" false 0] [])
          (mkFiles (list_to_map [sample_file "user" 0]) ∅) 0 0 [] [].

(** Stores without any session. *)
Definition empty_world : World :=
  mkWorld (mkTables [] [] []) (mkFiles ∅ ∅) 0 0 [] [].

(** Samples whose ids are UUID text. *)
Definition hex_digit (i : nat) : string :=
  String (nth (i mod 16) (list_ascii_of_string "0123456789abcdef") "0"%char)
         EmptyString.

Definition sample_uuid (group : string) (i : nat) : string :=
  group +:+ "-0000-4000-8000-00000000000" +:+ hex_digit i.

Definition uuid_env (now : Z) (reply : nat → outcome Response) : Env :=
  mkEnv (λ _, now) (λ n, sample_uuid "000000f1" n) (λ n _, reply n).

Definition uuid_session_id : string := sample_uuid "5e551000" 0.

(** A well-formed id that names nothing in the samples. *)
Definition ghost_uuid : string := sample_uuid "dead0000" 0.

Definition uuid_row (role : string) (summarized : bool) (i : nat) : MessageRow :=
  mkMessageRow (sample_uuid "0000000a" i) uuid_session_id role
               (uuid_session_id +:+ "/messages/" +:+ sample_uuid "0000000a" i
                +:+ ".json")
               2 summarized (Z.of_nat i).

Definition uuid_file (role : string) (i : nat) : (string * string) * MessageFile :=
  ((uuid_session_id, sample_uuid "0000000a" i),
   mkMessageFile (sample_uuid "0000000a" i) uuid_session_id role "hello"
                 None None None (Z.of_nat i)).

(** As [sample_world], with UUID text for every id. *)
Definition uuid_world (n : nat) (summarized : bool) : World :=
  mkWorld
    (mkTables [mkSessionRow uuid_session_id None 0 0 0 None "{}"]
              (uuid_row "assistant" summarized <$> seq 0 n) [])
    (mkFiles (list_to_map (uuid_file "assistant" <$> seq 0 n)) ∅)
    0 0 [] [].

(** * Running computations *)

Lemma bind_run {A B} (m : M A) (k : A → M B) E w :
  (m ≫= k) E w =
  match m E w with
  | (Ok a, w') => k a E w'
  | (Throw e, w') => (Throw e, w')
  end.
Proof. reflexivity. Qed.

Lemma bind_Ok {A B} (m : M A) (k : A → M B) E w a w' :
  m E w = (Ok a, w') → (m ≫= k) E w = k a E w'.
Proof. intros H. rewrite bind_run, H. reflexivity. Qed.

Lemma bind_Throw {A B} (m : M A) (k : A → M B) E w e w' :
  m E w = (Throw e, w') → (m ≫= k) E w = (Throw e, w').
Proof. intros H. rewrite bind_run, H. reflexivity. Qed.

Ltac world_fields :=
  cbn [tables files ticks uuids calls journal].

(** One step of a computation whose head reduces by itself. *)
Ltac step :=
  erewrite bind_Ok; [|reflexivity]; world_fields.

(** One step of a computation whose head is described by [H]. *)
Ltac step_with H :=
  cbv zeta in H; cbn [tables files ticks uuids calls journal] in H;
  erewrite bind_Ok; [|apply H]; world_fields.

(** ** Reads leave the world as it is *)

Lemma previous_summary_run sessionId (cur : option SummaryRow) E w :
  ∃ text,
    match cur with
    | Some cur =>
        summaryContent ← FileStorage.getSummary sessionId (sum_id cur);
        mret (sf_summary <$> summaryContent)
    | None => mret None
    end E w = (Ok text, w).
Proof. destruct cur; eexists; reflexivity. Qed.

Lemma mapM_loadMessage_Ok sessionId l E w :
  (∀ m, m ∈ l → is_Some (message_files (files w) !! (sessionId, msg_id m))) →
  ∃ cs, mapM (SummarizerService.loadMessage sessionId) l E w = (Ok cs, w).
Proof.
  induction l as [|m l IH]; intros Hf.
  - eexists. reflexivity.
  - destruct (Hf m) as [c Hc]; [left|].
    destruct IH as [cs Hcs]; [intros; apply Hf; by right|].
    eexists. cbn [mapM]. erewrite bind_Ok; last first.
    { unfold SummarizerService.loadMessage. erewrite bind_Ok; [|reflexivity].
      rewrite Hc. reflexivity. }
    erewrite bind_Ok; [|exact Hcs]. reflexivity.
Qed.

Lemma mapM_loadMessage_missing sessionId l E w m :
  m ∈ l →
  message_files (files w) !! (sessionId, msg_id m) = None →
  mapM (SummarizerService.loadMessage sessionId) l E w = (Throw TypeError, w).
Proof.
  intros Hin Hnone. induction l as [|x l IH]; [by apply elem_of_nil in Hin|].
  cbn [mapM]. rewrite bind_run.
  unfold SummarizerService.loadMessage at 1. rewrite bind_run.
  unfold FileStorage.getMessage, fs_read.
  destruct (message_files (files w) !! (sessionId, msg_id x)) as [c|] eqn:Hx;
    [|reflexivity].
  apply elem_of_cons in Hin as [->|Hin]; [congruence|].
  cbn. rewrite bind_run, (IH Hin). reflexivity.
Qed.

Lemma mapM_loadActive_run sessionId l E w :
  mapM (SummarizerService.loadActive sessionId) l E w
  = (Ok (active_entry sessionId (files w) <$> l), w).
Proof.
  induction l as [|m l IH]; [reflexivity|].
  cbn [mapM]. erewrite bind_Ok; [|reflexivity].
  erewrite bind_Ok; [|exact IH]. reflexivity.
Qed.

Lemma mapM_session_loadMessage_run sessionId l E w :
  ∃ loaded,
    mapM (SessionService.loadMessage sessionId) l E w = (Ok loaded, w)
    ∧ Forall2 (λ ref lm,
         SessionService.lm_id lm = msg_id ref
         ∧ SessionService.lm_isSummarized lm = msg_is_summarized ref
         ∧ (message_files (files w) !! (sessionId, msg_id ref) = None →
            SessionService.lm_content lm = ""
            ∧ SessionService.lm_role lm = msg_role ref))
       l loaded.
Proof.
  induction l as [|m l (loaded & Hrun & Hall)].
  - eexists. split; [reflexivity | constructor].
  - eexists. split.
    + cbn [mapM]. erewrite bind_Ok; [|reflexivity].
      erewrite bind_Ok; [|exact Hrun]. reflexivity.
    + constructor; [|exact Hall]. cbn.
      split; [reflexivity|]. split; [reflexivity|].
      intros ->. split; reflexivity.
Qed.

(** ** The tables after the statements *)

Lemma insert_summary_Ok id sessionId filePath tokens covers now t :
  id ∉ sum_id <$> summaries t →
  sessionId ∈ sess_id <$> sessions t →
  insert_summary id sessionId filePath tokens covers now t =
  Ok (mkTables (sessions t) (messages t)
        (summaries t ++ [mkSummaryRow id sessionId filePath tokens covers now])).
Proof.
  intros Hfresh Hsess. unfold insert_summary.
  rewrite bool_decide_eq_false_2 by done.
  rewrite bool_decide_eq_true_2 by done. reflexivity.
Qed.

Lemma elem_of_select_unsummarized sessionId t m :
  m ∈ select_unsummarized sessionId t ↔
  m ∈ messages t ∧ msg_session_id m = sessionId ∧ msg_is_summarized m = false.
Proof.
  unfold select_unsummarized. rewrite merge_sort_Permutation.
  rewrite list_elem_of_filter. tauto.
Qed.

Lemma select_unsummarized_marked sessionId t sess sums :
  select_unsummarized sessionId
    (mkTables sess
       (mark_summarized (msg_id <$> select_unsummarized sessionId t) <$> messages t)
       sums) = [].
Proof.
  apply elem_of_nil_inv. intros m Hm.
  apply elem_of_select_unsummarized in Hm as (Hin & Hs & Hflag). cbn in Hin.
  apply list_elem_of_fmap in Hin as (m0 & -> & Hin0).
  unfold mark_summarized in Hs, Hflag.
  case_bool_decide as Hid; [discriminate|].
  apply Hid, list_elem_of_fmap. exists m0. split; [done|].
  apply elem_of_select_unsummarized. done.
Qed.

(** ** The writes of a summarization run *)

Lemma saveSummary_run sessionId summaryId data created E w :
  FileStorage.data_summary_createdAt data = Some created →
  ∃ content n,
    FileStorage.saveSummary sessionId summaryId data E w =
    (Ok (SummaryPath sessionId summaryId),
     let f := FileStorage.write_summary_file sessionId summaryId content (files w) in
     mkWorld (tables w) f n (uuids w) (calls w) ((tables w, f) :: journal w))
    ∧ sf_summary content = FileStorage.data_summary data
    ∧ sf_covered_message_ids content = FileStorage.data_coveredMessageIds data.
Proof.
  intros Hc. unfold FileStorage.saveSummary, FileStorage.createdAt_or_now.
  rewrite Hc.
  destruct (created =? 0); do 2 eexists; (split; [reflexivity|]); split; reflexivity.
Qed.

Lemma createSummary_run sessionId data E w t1 :
  insert_summary (fresh_uuid E (uuids w)) sessionId
    (Database.data_summary_filePath data) (Database.data_summary_tokens data)
    (Database.data_coversUntilMessageId data) (clock E (ticks w)) (tables w) = Ok t1 →
  ∃ t2 ref,
    update_current_summary (fresh_uuid E (uuids w)) (clock E (ticks w)) sessionId t1
      = Ok t2 ∧
    Database.createSummary sessionId data E w =
    (Ok ref,
     mkWorld t2 (files w) (S (ticks w)) (S (uuids w)) (calls w)
             ((t2, files w) :: (t1, files w) :: journal w)).
Proof.
  intros Hins. do 2 eexists. split; [reflexivity|].
  unfold Database.createSummary.
  step. step.
  erewrite bind_Ok; last first.
  { unfold pool_query_write. world_fields. rewrite Hins. reflexivity. }
  step. reflexivity.
Qed.


Lemma markMessagesSummarized_run ids E w :
  ids ≠ [] →
  Database.markMessagesSummarized ids E w =
  (Ok (),
   let t := mkTables (sessions (tables w))
              (mark_summarized ids <$> messages (tables w)) (summaries (tables w)) in
   mkWorld t (files w) (ticks w) (uuids w) (calls w) ((t, files w) :: journal w)).
Proof.
  intros Hne. unfold Database.markMessagesSummarized.
  rewrite bool_decide_eq_false_2; [reflexivity|].
  destruct ids; [done | discriminate].
Qed.

(** A run that finds a batch, reads its content, gets an answer from the
    backend and may insert its row: the result, and the four writes in
    the order in which they are committed. *)
Lemma generateSummary_success config sessionId E w resp c cs lastm :
  let batch := select_unsummarized sessionId (tables w) in
  last batch = Some lastm →
  (∀ m, m ∈ batch → is_Some (message_files (files w) !! (sessionId, msg_id m))) →
  (∀ r, backend E (length (calls w)) r = Ok resp) →
  choices resp = c :: cs →
  fresh_uuid E (S (uuids w)) ∉ sum_id <$> summaries (tables w) →
  sessionId ∈ sess_id <$> sessions (tables w) →
  ∃ content now t1 t2 t3 w' req,
    let f1 := FileStorage.write_summary_file sessionId (fresh_uuid E (uuids w))
                content (files w) in
    sf_summary content = c ∧
    sf_covered_message_ids content = msg_id <$> batch ∧
    SummarizerService.generateSummary config sessionId E w =
      (Ok (Some (SummarizerService.mkSummaryResult c (Z.of_nat (length batch))
                   (default 0 (usage resp)))), w') ∧
    insert_summary (fresh_uuid E (S (uuids w))) sessionId
      (FileStorage.getRelativePath (SummaryPath sessionId (fresh_uuid E (uuids w))))
      (default 0 (usage resp)) (Some (msg_id lastm)) now (tables w) = Ok t1 ∧
    update_current_summary (fresh_uuid E (S (uuids w))) now sessionId t1 = Ok t2 ∧
    update_messages_summarized (msg_id <$> batch) t2 = Ok t3 ∧
    tables w' = t3 ∧ files w' = f1 ∧ calls w' = req :: calls w ∧
    journal w' = (t3, f1) :: (t2, f1) :: (t1, f1) :: (tables w, f1) :: journal w.
Proof.
  intros batch Hlast Hfiles Hback Hchoices Hfresh Hsess.
  assert (Hne : batch ≠ []) by (intros Hnil; rewrite Hnil in Hlast; discriminate).
  destruct (mapM_loadMessage_Ok sessionId batch E w Hfiles) as [contents Hload].
  destruct (previous_summary_run sessionId
              (head (select_current_summary sessionId (tables w))) E w) as [text Htext].
  unfold SummarizerService.generateSummary.
  step. step_with Htext. step.
  fold batch. rewrite bool_decide_eq_false_2 by (destruct batch; [done | discriminate]).
  step_with Hload.
  erewrite bind_Ok; last first.
  { unfold chat_completions_create. rewrite Hback. reflexivity. }
  world_fields. rewrite Hchoices. step.
  rewrite Hlast. step. step. step.
  match goal with
  | |- context [(FileStorage.saveSummary ?s ?i ?d ≫= _) _ ?w0] =>
      destruct (saveSummary_run s i d _ E w0 eq_refl)
        as (content & n & Hsave & Htext' & Hcovered)
  end.
  step_with Hsave.
  match goal with
  | |- context [(Database.createSummary ?s ?d ≫= _) _ ?w0] =>
      edestruct (createSummary_run s d E w0) as (t2 & ref & Hupd & Hcreate)
  end.
  { cbn [tables files ticks uuids calls journal Database.data_summary_filePath
         Database.data_summary_tokens Database.data_coversUntilMessageId].
    apply insert_summary_Ok; assumption. }
  step_with Hcreate.
  erewrite bind_Ok; last first.
  { apply markMessagesSummarized_run. by destruct batch. }
  cbv zeta. world_fields.
  cbn [tables files ticks uuids calls journal Database.data_summary_filePath
       Database.data_summary_tokens Database.data_coversUntilMessageId] in Hupd.
  do 7 eexists. split; [exact Htext'|]. split; [exact Hcovered|].
  split; [reflexivity|].
  split; [apply insert_summary_Ok; assumption|].
  split; [exact Hupd|].
  split; [reflexivity|].
  world_fields.
  unfold update_current_summary in Hupd. injection Hupd as <-.
  repeat split.
Qed.

(** * Summarization trigger *)

Lemma cache_expired_iff (idle : Z) :
  Qle_bool (Qmake idle (1000 * 60)) (inject_Z 5) = false ↔ 5 * 60 * 1000 < idle.
Proof.
  unfold Qle_bool. cbn [Qnum Qden inject_Z].
  rewrite Z.leb_gt. change (Z.pos (1000 * 60)) with 60000. lia.
Qed.

Lemma getSessionContext_run config sessionId E w check w1 :
  SummarizerService.checkSummarizationNeeded config sessionId E w = (Ok check, w1) →
  SummarizerService.getSessionContext config sessionId E w =
  if SummarizerService.needsSummary check
  then (SummarizerService.generateSummary config sessionId;;
        SummarizerService.assembleContext sessionId) E w1
  else SummarizerService.assembleContext sessionId E w1.
Proof.
  intros Hcheck. unfold SummarizerService.getSessionContext.
  erewrite bind_Ok; [|exact Hcheck].
  destruct (SummarizerService.needsSummary check); [|reflexivity].
  rewrite !bind_run.
  destruct (SummarizerService.generateSummary config sessionId E w1) as [[r|e] w2];
    reflexivity.
Qed.

(** C1. For an existing session, with an expiry window of 5 minutes and
    a threshold of 5, building the context runs the summarization exactly
    when more than 5 minutes have passed since [lastActivityAt] and at
    least 5 unsummarized assistant messages exist.  Idle for 3 minutes
    with 10 such messages: no; idle for 6 minutes with 10: yes; idle for
    6 minutes with 2: no. *)
Theorem cache_expiry_gating E w sessionId session :
  head (select_session sessionId (tables w)) = Some session →
  let idle := clock E (ticks w) - sess_last_activity_at session in
  let unsummarized_replies := count_meaningful sessionId (tables w) in
  let w1 := mkWorld (tables w) (files w) (S (ticks w)) (uuids w) (calls w) (journal w) in
  ∃ check,
    SummarizerService.checkSummarizationNeeded dbConfig_session sessionId E w
      = (Ok check, w1)
    ∧ (SummarizerService.needsSummary check = true
       ↔ 5 * 60 * 1000 < idle ∧ 5 ≤ unsummarized_replies)
    ∧ SummarizerService.getSessionContext dbConfig_session sessionId E w
      = (if SummarizerService.needsSummary check
         then (SummarizerService.generateSummary dbConfig_session sessionId;;
               SummarizerService.assembleContext sessionId) E w1
         else SummarizerService.assembleContext sessionId E w1)
    ∧ (idle = 3 * 60 * 1000 → unsummarized_replies = 10 →
       SummarizerService.needsSummary check = false)
    ∧ (idle = 6 * 60 * 1000 → unsummarized_replies = 10 →
       SummarizerService.needsSummary check = true)
    ∧ (idle = 6 * 60 * 1000 → unsummarized_replies = 2 →
       SummarizerService.needsSummary check = false).
Proof.
  intros Hsession idle n w1.
  assert (∃ check,
    SummarizerService.checkSummarizationNeeded dbConfig_session sessionId E w
      = (Ok check, w1)
    ∧ (SummarizerService.needsSummary check = true
       ↔ 5 * 60 * 1000 < idle ∧ 5 ≤ n)) as (check & Hrun & Hiff).
  { unfold SummarizerService.checkSummarizationNeeded.
    erewrite bind_Ok; [|reflexivity]. rewrite Hsession.
    erewrite bind_Ok; [|reflexivity]. fold idle.
    cbn [cacheExpiryMinutes meaningfulMessageThreshold dbConfig_session].
    destruct (Qle_bool (Qmake idle (1000 * 60)) (inject_Z 5)) eqn:Hq.
    - eexists. split; [reflexivity|]. cbn.
      assert (¬ 5 * 60 * 1000 < idle).
      { rewrite <- cache_expired_iff. congruence. }
      split; [discriminate | tauto].
    - apply cache_expired_iff in Hq.
      erewrite bind_Ok; [|reflexivity]. world_fields. fold n.
      destruct (n <? 5) eqn:Hn.
      + eexists. split; [reflexivity|]. cbn. apply Z.ltb_lt in Hn.
        split; [discriminate | lia].
      + eexists. split; [reflexivity|]. cbn. apply Z.ltb_ge in Hn.
        split; [intros _; split; assumption | reflexivity]. }
  exists check. split; [exact Hrun|]. split; [exact Hiff|].
  split; [exact (getSessionContext_run _ _ _ _ _ _ Hrun)|].
  split; [|split].
  - intros Hi Hc. destruct (SummarizerService.needsSummary check); [|reflexivity].
    destruct Hiff as [Hiff _]. specialize (Hiff eq_refl). lia.
  - intros Hi Hc. apply Hiff. lia.
  - intros Hi Hc. destruct (SummarizerService.needsSummary check); [|reflexivity].
    destruct Hiff as [Hiff _]. specialize (Hiff eq_refl). lia.
Qed.

Lemma cache_expiry_gating_witness :
  let E := sample_env (6 * 60 * 1000) (λ _, sample_reply) in
  let w := sample_world 10 false in
  head (select_session "s" (tables w)) = Some sample_session
  ∧ ∃ check,
      (SummarizerService.checkSummarizationNeeded dbConfig_session "s" E w).1 = Ok check
      ∧ SummarizerService.needsSummary check = true.
Proof.
  intros E w. split; [reflexivity|].
  destruct (cache_expiry_gating E w "s" sample_session eq_refl)
    as (check & Hrun & _ & _ & _ & Hyes & _).
  exists check. split; [by rewrite Hrun|].
  apply Hyes; reflexivity.
Defined.

(** * The summarization algorithm *)

Lemma batch_marked sessionId t m :
  m ∈ select_unsummarized sessionId t →
  ∃ m', m' ∈ mark_summarized (msg_id <$> select_unsummarized sessionId t) <$> messages t
        ∧ msg_id m' = msg_id m ∧ msg_is_summarized m' = true.
Proof.
  intros Hm. pose proof Hm as Hm0.
  apply elem_of_select_unsummarized in Hm0 as (Hin & _ & _).
  exists (mark_summarized (msg_id <$> select_unsummarized sessionId t) m).
  split; [by apply list_elem_of_fmap_2|].
  unfold mark_summarized. rewrite bool_decide_eq_true_2; [done|].
  by apply list_elem_of_fmap_2.
Qed.

(** C6. With no unsummarized message in the session, the summarization
    algorithm returns null and leaves the whole world as it was: no call
    to the generation backend, no content written, no summary row, no
    change to [currentSummaryId] or to any flag. *)
Theorem summarize_nothing_is_noop config sessionId E w :
  (∀ m, m ∈ messages (tables w) → msg_session_id m = sessionId →
        msg_is_summarized m = true) →
  SummarizerService.generateSummary config sessionId E w = (Ok None, w).
Proof.
  intros Hall.
  assert (Hbatch : select_unsummarized sessionId (tables w) = []).
  { apply elem_of_nil_inv. intros m Hm.
    apply elem_of_select_unsummarized in Hm as (Hin & Hs & Hflag).
    rewrite (Hall m Hin Hs) in Hflag. discriminate. }
  destruct (previous_summary_run sessionId
              (head (select_current_summary sessionId (tables w))) E w) as [text Htext].
  unfold SummarizerService.generateSummary.
  step. step_with Htext. step. rewrite Hbatch. reflexivity.
Qed.

Lemma summarize_nothing_is_noop_witness :
  let E := sample_env (6 * 60 * 1000) (λ _, sample_reply) in
  let w := sample_world 3 true in
  Forall (λ m, msg_session_id m = "s" → msg_is_summarized m = true)
         (messages (tables w))
  ∧ SummarizerService.generateSummary dbConfig_session "s" E w = (Ok None, w).
Proof.
  intros E w.
  assert (Hall : Forall (λ m, msg_session_id m = "s" → msg_is_summarized m = true)
                        (messages (tables w))).
  { repeat constructor. }
  split; [exact Hall|].
  apply summarize_nothing_is_noop.
  intros m Hm. exact (proj1 (Forall_forall _ _) Hall m Hm).
Defined.

(** C3. When the call to the generation backend throws, the run ends
    with that error and has written nothing: both stores are as before
    and nothing was committed in between, so the batch is still
    unsummarized.  A later run whose backend call answers covers exactly
    that batch and marks each of its messages. *)
Theorem backend_failure_writes_nothing config sessionId E w e lastm :
  let batch := select_unsummarized sessionId (tables w) in
  last batch = Some lastm →
  (∀ m, m ∈ batch → is_Some (message_files (files w) !! (sessionId, msg_id m))) →
  (∀ r, backend E (length (calls w)) r = Throw e) →
  ∃ w',
    SummarizerService.generateSummary config sessionId E w = (Throw e, w')
    ∧ tables w' = tables w ∧ files w' = files w ∧ journal w' = journal w
    ∧ select_unsummarized sessionId (tables w') = batch
    ∧ ∀ resp c cs,
        (∀ r, backend E (length (calls w')) r = Ok resp) →
        choices resp = c :: cs →
        fresh_uuid E (S (uuids w')) ∉ sum_id <$> summaries (tables w') →
        sessionId ∈ sess_id <$> sessions (tables w') →
        ∃ w'' content,
          SummarizerService.generateSummary config sessionId E w'
            = (Ok (Some (SummarizerService.mkSummaryResult c
                           (Z.of_nat (length batch)) (default 0 (usage resp)))), w'')
          ∧ summary_files (files w'') !! (sessionId, fresh_uuid E (uuids w'))
            = Some content
          ∧ sf_covered_message_ids content = msg_id <$> batch
          ∧ (∀ m, m ∈ batch →
                  ∃ m', m' ∈ messages (tables w'') ∧ msg_id m' = msg_id m
                        ∧ msg_is_summarized m' = true)
          ∧ select_unsummarized sessionId (tables w'') = [].
Proof.
  intros batch Hlast Hfiles Hback.
  destruct (mapM_loadMessage_Ok sessionId batch E w Hfiles) as [contents Hload].
  destruct (previous_summary_run sessionId
              (head (select_current_summary sessionId (tables w))) E w) as [text Htext].
  eexists. split.
  { unfold SummarizerService.generateSummary.
    step. step_with Htext. step.
    fold batch. rewrite bool_decide_eq_false_2; last first.
    { destruct batch; [discriminate Hlast | discriminate]. }
    step_with Hload.
    erewrite bind_Throw; [reflexivity|].
    unfold chat_completions_create. rewrite Hback. reflexivity. }
  world_fields. do 4 (split; [reflexivity|]).
  intros resp c cs Hback' Hchoices Hfresh Hsess.
  match goal with
  | |- context [SummarizerService.generateSummary _ _ _ ?w0] =>
      destruct (generateSummary_success config sessionId E w0 resp c cs lastm)
        as (content & now & t1 & t2 & t3 & w'' & req & Htxt & Hcov & Hrun & Hins
            & Hupd & Hmark & Htab & Hfs & _ & _)
  end; world_fields; try assumption.
  exists w'', content.
  split; [exact Hrun|].
  split; [rewrite Hfs; apply lookup_insert_eq|].
  split; [exact Hcov|].
  unfold insert_summary in Hins. repeat case_bool_decide; try discriminate.
  injection Hins as <-. injection Hupd as <-. injection Hmark as <-.
  rewrite Htab. split.
  - intros m Hm. apply (batch_marked sessionId (tables w) m Hm).
  - apply select_unsummarized_marked.
Qed.

Lemma backend_failure_writes_nothing_witness :
  let E := sample_env (6 * 60 * 1000)
             (λ n, if decide (n = 0%nat) then Throw BackendError else sample_reply) in
  let w := sample_world 2 false in
  let batch := select_unsummarized "s" (tables w) in
  last batch = Some (sample_row "assistant" false 1)
  ∧ Forall (λ m, is_Some (message_files (files w) !! ("s", msg_id m))) batch
  ∧ (∀ r, backend E (length (calls w)) r = Throw BackendError)
  ∧ ∃ w', SummarizerService.generateSummary dbConfig_session "s" E w
          = (Throw BackendError, w')
          ∧ tables w' = tables w ∧ files w' = files w ∧ journal w' = journal w.
Proof.
  intros E w batch.
  assert (Hlast : last batch = Some (sample_row "assistant" false 1))
    by (vm_compute; reflexivity).
  assert (Hfiles : Forall (λ m, is_Some (message_files (files w) !! ("s", msg_id m)))
                          batch).
  { apply (bool_decide_unpack _). vm_compute. exact I. }
  assert (Hback : ∀ r, backend E (length (calls w)) r = Throw BackendError)
    by (intros r; reflexivity).
  split; [exact Hlast|]. split; [exact Hfiles|]. split; [exact Hback|].
  destruct (backend_failure_writes_nothing dbConfig_session "s" E w BackendError
              (sample_row "assistant" false 1) Hlast
              (proj1 (Forall_forall _ _) Hfiles) Hback)
    as (w' & Hrun & Ht & Hf & Hj & _).
  exists w'. repeat split; assumption.
Defined.

(** C2, as the code has it.  The summary row, the repointing of the
    session and the marking of the batch are three statements, each
    committed on its own and in this order, after the summary content is
    written.  After the first the row exists, the session still has its
    old [current_summary_id] and no message of the batch is marked; after
    the second the session points at the row and the batch is still
    unmarked; after the third no unsummarized message is left in the
    session. *)
Theorem summary_committed_in_three_statements config sessionId E w resp c cs lastm :
  let batch := select_unsummarized sessionId (tables w) in
  last batch = Some lastm →
  (∀ m, m ∈ batch → is_Some (message_files (files w) !! (sessionId, msg_id m))) →
  (∀ r, backend E (length (calls w)) r = Ok resp) →
  choices resp = c :: cs →
  fresh_uuid E (S (uuids w)) ∉ sum_id <$> summaries (tables w) →
  sessionId ∈ sess_id <$> sessions (tables w) →
  ∃ result w' row t1 t2 t3 f1,
    SummarizerService.generateSummary config sessionId E w = (Ok (Some result), w')
    ∧ journal w' = (t3, f1) :: (t2, f1) :: (t1, f1) :: (tables w, f1) :: journal w
    ∧ tables w' = t3 ∧ files w' = f1
    ∧ sum_session_id row = sessionId
    ∧ sum_covers_until_message_id row = Some (msg_id lastm)
    (* INSERT INTO summaries *)
    ∧ summaries t1 = summaries (tables w) ++ [row]
    ∧ sessions t1 = sessions (tables w)
    ∧ messages t1 = messages (tables w)
    (* UPDATE sessions SET current_summary_id *)
    ∧ summaries t2 = summaries t1
    ∧ sessions t2
      = (repoint_session (sum_id row) (sum_created_at row) sessionId
           <$> sessions (tables w))
    ∧ messages t2 = messages (tables w)
    (* UPDATE messages SET is_summarized *)
    ∧ summaries t3 = summaries t1
    ∧ sessions t3 = sessions t2
    ∧ messages t3 = (mark_summarized (msg_id <$> batch) <$> messages (tables w))
    ∧ select_unsummarized sessionId t3 = [].
Proof.
  intros batch Hlast Hfiles Hback Hchoices Hfresh Hsess.
  destruct (generateSummary_success config sessionId E w resp c cs lastm
              Hlast Hfiles Hback Hchoices Hfresh Hsess)
    as (content & now & t1 & t2 & t3 & w' & req & _ & _ & Hrun & Hins
        & Hupd & Hmark & Htab & Hfs & _ & Hj).
  rewrite insert_summary_Ok in Hins by assumption.
  injection Hins as <-. injection Hupd as <-. injection Hmark as <-.
  do 7 eexists. split; [exact Hrun|]. split; [exact Hj|].
  split; [exact Htab|]. split; [exact Hfs|].
  cbn [sessions messages summaries].
  split; [|split; [|split; [reflexivity|]]]; [reflexivity..|].
  do 8 (split; [reflexivity|]).
  apply select_unsummarized_marked.
Qed.

Lemma summary_committed_in_three_statements_witness :
  let E := sample_env (6 * 60 * 1000) (λ _, sample_reply) in
  let w := sample_world 2 false in
  let batch := select_unsummarized "s" (tables w) in
  last batch = Some (sample_row "assistant" false 1)
  ∧ Forall (λ m, is_Some (message_files (files w) !! ("s", msg_id m))) batch
  ∧ (fresh_uuid E (S (uuids w)) ∉ sum_id <$> summaries (tables w))
  ∧ ("s" ∈ sess_id <$> sessions (tables w))
  ∧ ∃ result w',
      SummarizerService.generateSummary dbConfig_session "s" E w
      = (Ok (Some result), w')
      ∧ length (journal w') = 4%nat
      ∧ select_unsummarized "s" (tables w') = [].
Proof.
  intros E w batch.
  assert (Hlast : last batch = Some (sample_row "assistant" false 1))
    by (vm_compute; reflexivity).
  assert (Hfiles : Forall (λ m, is_Some (message_files (files w) !! ("s", msg_id m)))
                          batch).
  { apply (bool_decide_unpack _). vm_compute. exact I. }
  assert (Hfresh : fresh_uuid E (S (uuids w)) ∉ sum_id <$> summaries (tables w)).
  { apply (bool_decide_unpack _). vm_compute. exact I. }
  assert (Hsess : "s" ∈ sess_id <$> sessions (tables w)).
  { apply (bool_decide_unpack _). vm_compute. exact I. }
  split; [exact Hlast|]. split; [exact Hfiles|].
  split; [exact Hfresh|]. split; [exact Hsess|].
  destruct (summary_committed_in_three_statements dbConfig_session "s" E w
              (mkResponse ["The user greeted the assistant."] (Some 42))
              "The user greeted the assistant." [] (sample_row "assistant" false 1)
              Hlast (proj1 (Forall_forall _ _) Hfiles)
              (λ _, eq_refl) eq_refl Hfresh Hsess)
    as (result & w' & row & t1 & t2 & t3 & f1 & Hrun & Hj & Ht & _ & _ & _ & _ & _
        & _ & _ & _ & _ & _ & _ & _ & Hnone).
  exists result, w'. split; [exact Hrun|].
  split; [by rewrite Hj|]. by rewrite Ht.
Defined.

(** C2, as the specification words it, fails: between two of the
    statements a reader sees the summary row while the message it covers
    up to is not marked. *)
Lemma summary_not_atomic_counterexample :
  let E := sample_env (6 * 60 * 1000) (λ _, sample_reply) in
  let w' := (SummarizerService.generateSummary dbConfig_session "s" E
               (sample_world 2 false)).2 in
  ¬ (∀ st, st ∈ journal w' → summaries_marked st.1).
Proof.
  intros E w' Hall.
  destruct (journal w' !! 1%nat) as [st|] eqn:Hst; [|vm_compute in Hst; discriminate].
  pose proof (Hall st (list_elem_of_lookup_2 _ _ _ Hst)) as Hmarked.
  vm_compute in Hst. injection Hst as <-.
  specialize (Hmarked
    (mkSummaryRow "uuid-1" "s" "s/summaries/uuid-0.json" 42 (Some "m1") 360000)
    (sample_row "assistant" false 1)).
  assert (Hflag : msg_is_summarized (sample_row "assistant" false 1) = true);
    [|discriminate Hflag].
  apply Hmarked; [| |reflexivity]; vm_compute; repeat constructor.
Qed.

(** * Building the context *)

Lemma omap_id_fmap {A B} (f : A → option B) (l : list A) :
  omap id (f <$> l) = omap f l.
Proof.
  induction l as [|x l IH]; [reflexivity|].
  cbn. rewrite IH. reflexivity.
Qed.


Lemma assembleContext_run sessionId E w :
  ∃ ctx,
    SummarizerService.assembleContext sessionId E w = (Ok ctx, w)
    ∧ SummarizerService.ctx_messages ctx
      = omap (active_entry sessionId (files w))
             (select_unsummarized sessionId (tables w))
    ∧ SummarizerService.ctx_activeMessageCount ctx
      = Z.of_nat (length (SummarizerService.ctx_messages ctx)).
Proof.
  destruct (previous_summary_run sessionId
              (head (select_current_summary sessionId (tables w))) E w) as [text Htext].
  eexists. split.
  - unfold SummarizerService.assembleContext.
    step. step_with Htext. step.
    erewrite bind_Ok; [|apply mapM_loadActive_run]. reflexivity.
  - cbn. rewrite omap_id_fmap. split; reflexivity.
Qed.

(** The context that is returned was assembled in the final world. *)
Lemma getSessionContext_Ok_inv config sessionId E w ctx w' :
  SummarizerService.getSessionContext config sessionId E w = (Ok ctx, w') →
  SummarizerService.assembleContext sessionId E w' = (Ok ctx, w').
Proof.
  unfold SummarizerService.getSessionContext. rewrite bind_run.
  destruct (SummarizerService.checkSummarizationNeeded config sessionId E w)
    as [[check|e] w1]; [|discriminate].
  rewrite bind_run.
  assert (Hasm : ∀ w2,
    SummarizerService.assembleContext sessionId E w2 = (Ok ctx, w') →
    SummarizerService.assembleContext sessionId E w' = (Ok ctx, w')).
  { intros w2 Hrun.
    destruct (assembleContext_run sessionId E w2) as (ctx2 & Hrun2 & _).
    rewrite Hrun2 in Hrun. injection Hrun as -> ->. exact Hrun2. }
  destruct (SummarizerService.needsSummary check).
  - rewrite bind_run.
    destruct (SummarizerService.generateSummary config sessionId E w1)
      as [[r|e] w2]; [|discriminate].
    apply Hasm.
  - apply Hasm.
Qed.

(** C5. Whatever context package is returned, its active messages are
    the stored contents of rows of this session whose [is_summarized] flag
    is false in the tables as they are when the package is returned. *)
Theorem context_excludes_summarized config sessionId E w ctx w' :
  SummarizerService.getSessionContext config sessionId E w = (Ok ctx, w') →
  ∃ rows,
    SummarizerService.ctx_messages ctx
      = omap (active_entry sessionId (files w')) rows
    ∧ Forall (λ m, m ∈ messages (tables w')
                   ∧ msg_session_id m = sessionId
                   ∧ msg_is_summarized m = false) rows
    ∧ ∀ entry, entry ∈ SummarizerService.ctx_messages ctx →
        ∃ m, m ∈ messages (tables w')
             ∧ msg_session_id m = sessionId
             ∧ msg_is_summarized m = false
             ∧ active_entry sessionId (files w') m = Some entry.
Proof.
  intros Hrun. apply getSessionContext_Ok_inv in Hrun.
  destruct (assembleContext_run sessionId E w') as (ctx' & Hrun' & Hmsgs & _).
  rewrite Hrun' in Hrun. injection Hrun as ->.
  exists (select_unsummarized sessionId (tables w')).
  split; [exact Hmsgs|]. split.
  - apply Forall_forall. intros m Hm.
    by apply elem_of_select_unsummarized in Hm.
  - intros entry Hentry. rewrite Hmsgs in Hentry.
    apply list_elem_of_omap in Hentry as (m & Hm & Hsome).
    exists m. apply elem_of_select_unsummarized in Hm as (? & ? & ?). done.
Qed.

Lemma context_excludes_summarized_witness :
  let E := sample_env (60 * 1000) (λ _, sample_reply) in
  let w := sample_world 2 false in
  ∃ ctx w',
    SummarizerService.getSessionContext dbConfig_session "s" E w = (Ok ctx, w')
    ∧ length (SummarizerService.ctx_messages ctx) = 2%nat
    ∧ Forall (λ entry, ∃ m, m ∈ messages (tables w')
                           ∧ msg_is_summarized m = false
                           ∧ active_entry "s" (files w') m = Some entry)
             (SummarizerService.ctx_messages ctx).
Proof.
  intros E w.
  assert (Hrun : ∃ ctx w',
    SummarizerService.getSessionContext dbConfig_session "s" E w = (Ok ctx, w')).
  { vm_compute. do 2 eexists. reflexivity. }
  destruct Hrun as (ctx & w' & Hrun).
  exists ctx, w'. split; [exact Hrun|].
  split; [injection Hrun as <- _; reflexivity|].
  destruct (context_excludes_summarized dbConfig_session "s" E w ctx w' Hrun)
    as (rows & _ & _ & Hall).
  apply Forall_forall. intros entry Hentry.
  destruct (Hall entry Hentry) as (m & Hin & _ & Hflag & Hentry').
  exists m. split; [exact Hin|]. split; [exact Hflag | exact Hentry'].
Defined.

Lemma getMessages_run sessionId limit beforeId E w :
  0 ≤ limit →
  ∃ refs, Database.getMessages sessionId limit beforeId E w = (Ok refs, w).
Proof.
  intros Hlimit. unfold Database.getMessages.
  eexists. erewrite bind_Ok; [reflexivity|].
  unfold pool_query_read, select_messages_page.
  rewrite (proj2 (Z.ltb_ge limit 0) Hlimit). reflexivity.
Qed.




(** A summarization run over a batch with a message whose content is
    absent throws before it reaches the backend: [generateSummary] reads
    [content.role] of the missing file. *)
Lemma generateSummary_missing_content config sessionId E w m :
  m ∈ select_unsummarized sessionId (tables w) →
  message_files (files w) !! (sessionId, msg_id m) = None →
  SummarizerService.generateSummary config sessionId E w = (Throw TypeError, w).
Proof.
  intros Hin Hnone.
  destruct (previous_summary_run sessionId
              (head (select_current_summary sessionId (tables w))) E w) as [text Htext].
  unfold SummarizerService.generateSummary.
  step. step_with Htext. step.
  rewrite bool_decide_eq_false_2; last first.
  { intros Hlen. destruct (select_unsummarized sessionId (tables w));
      [by apply elem_of_nil in Hin | discriminate Hlen]. }
  erewrite bind_Throw; [reflexivity|].
  exact (mapM_loadMessage_missing _ _ _ _ _ Hin Hnone).
Qed.

(** So when a summarization is due, the same absence makes the context
    build throw. *)
Lemma context_build_throws_on_missing_content :
  let E := sample_env (6 * 60 * 1000) (λ _, sample_reply) in
  SummarizerService.getSessionContext dbConfig_session "s" E half_stored_world
  = (Throw TypeError,
     mkWorld (tables half_stored_world) (files half_stored_world) 1 0 [] []).
Proof. vm_compute. reflexivity. Qed.

(** * Appending a message *)

Lemma saveMessage_run sessionId messageId data created E w :
  FileStorage.data_createdAt data = Some created →
  ∃ file n,
    FileStorage.saveMessage sessionId messageId data E w =
    (Ok (MessagePath sessionId messageId),
     let f := FileStorage.write_message_file sessionId messageId file (files w) in
     mkWorld (tables w) f n (uuids w) (calls w) ((tables w, f) :: journal w))
    ∧ mf_role file = FileStorage.data_role data
    ∧ mf_content file = FileStorage.data_content data.
Proof.
  intros Hc. unfold FileStorage.saveMessage, FileStorage.createdAt_or_now.
  rewrite Hc.
  destruct (created =? 0); do 2 eexists; (split; [reflexivity|]); split; reflexivity.
Qed.

Lemma createMessage_run sessionId id role filePath tokens E w :
  truthy id = true →
  let data := Database.mkMessageData (Some id) role filePath tokens in
  let now := clock E (ticks w) in
  let w0 := mkWorld (tables w) (files w) (S (ticks w)) (uuids w) (calls w) (journal w) in
  match insert_message id sessionId role filePath tokens now (tables w) with
  | Ok t1 =>
      ∃ t2 ref,
        update_session_activity now sessionId t1 = Ok t2
        ∧ Database.createMessage sessionId data E w =
          (Ok ref,
           mkWorld t2 (files w) (S (ticks w)) (uuids w) (calls w)
                   ((t2, files w) :: (t1, files w) :: journal w))
  | Throw e => Database.createMessage sessionId data E w = (Throw e, w0)
  end.
Proof.
  intros Hid data now w0. subst data now w0.
  destruct (insert_message id sessionId role filePath tokens (clock E (ticks w))
              (tables w)) as [t1|e] eqn:Hins.
  - do 2 eexists. split; [reflexivity|].
    unfold Database.createMessage. cbn [Database.data_id]. rewrite Hid.
    step. step.
    erewrite bind_Ok; last first.
    { unfold pool_query_write. world_fields.
      cbn [Database.data_role Database.data_filePath Database.data_tokens].
      rewrite Hins. reflexivity. }
    step. reflexivity.
  - unfold Database.createMessage. cbn [Database.data_id]. rewrite Hid.
    step. step.
    erewrite bind_Throw; [reflexivity|].
    unfold pool_query_write. world_fields.
    cbn [Database.data_role Database.data_filePath Database.data_tokens].
    rewrite Hins. reflexivity.
Qed.

Lemma content_present_write sessionId messageId file t fs :
  content_present (t, fs) →
  content_present (t, FileStorage.write_message_file sessionId messageId file fs).
Proof.
  intros [Hmsg Hsum]. split; cbn in *.
  - intros m Hm. rewrite lookup_insert_is_Some. 
    destruct (decide ((sessionId, messageId) = (msg_session_id m, msg_id m)));
      [by left | right; split; [done | by apply Hmsg]].
  - exact Hsum.
Qed.

Lemma content_present_insert id sessionId role filePath tokens now t t1 file fs :
  insert_message id sessionId role filePath tokens now t = Ok t1 →
  content_present (t, FileStorage.write_message_file sessionId id file fs) →
  content_present (t1, FileStorage.write_message_file sessionId id file fs).
Proof.
  unfold insert_message. intros Hins [Hmsg Hsum].
  destruct (negb (role_check role)); [discriminate|].
  repeat case_bool_decide; try discriminate. injection Hins as <-.
  split; cbn in *; [|exact Hsum].
  intros m Hm. apply elem_of_app in Hm as [Hm|Hm]; [by apply Hmsg|].
  apply list_elem_of_singleton in Hm as ->. cbn. rewrite lookup_insert_eq. by eexists.
Qed.

Lemma content_present_touch now sessionId t t2 fs :
  update_session_activity now sessionId t = Ok t2 →
  content_present (t, fs) → content_present (t2, fs).
Proof. intros [= <-] [Hmsg Hsum]. split; assumption. Qed.

Lemma truthy_nonempty (s : string) : s ≠ "" → truthy s = true.
Proof.
  intros Hne. unfold truthy. destruct (String.eqb_spec s ""); [contradiction|reflexivity].
Qed.

(** C4. [addMessage] writes the content first and the row after it.
    Starting from stores in which every row has its content, every state
    committed on the way and the final state have that property too: the
    first write adds the content and leaves the tables alone, the next two
    add the row and touch the session.  When the row is refused, the
    content stays behind without a row and the tables are as before. *)
Theorem content_before_metadata sessionId role content metadata E w :
  fresh_uuid E (uuids w) ≠ "" →
  content_present (tables w, files w) →
  let messageId := fresh_uuid E (uuids w) in
  ∃ file result w' written,
    SessionService.addMessage sessionId role content metadata E w = (result, w')
    ∧ mf_role file = role ∧ mf_content file = content
    ∧ let f1 := FileStorage.write_message_file sessionId messageId file (files w) in
      journal w' = written ++ journal w
      ∧ last written = Some (tables w, f1)
      ∧ Forall content_present written
      ∧ content_present (tables w', files w')
      ∧ files w' = f1
      ∧ match result with
        | Ok added =>
            SessionService.added_id added = messageId
            ∧ length written = 3%nat
            ∧ ∃ m, m ∈ messages (tables w')
                   ∧ msg_id m = messageId ∧ msg_session_id m = sessionId
        | Throw _ => written = [(tables w, f1)] ∧ tables w' = tables w
        end.
Proof.
  intros Hid Hinv messageId.
  apply truthy_nonempty in Hid. fold messageId in Hid.
  unfold SessionService.addMessage.
  erewrite bind_Ok; [|reflexivity]. fold messageId. world_fields.
  erewrite bind_Ok; [|reflexivity]. world_fields.
  match goal with
  | |- context [(FileStorage.saveMessage ?s ?i ?d ≫= _) _ ?w0] =>
      destruct (saveMessage_run s i d _ E w0 eq_refl)
        as (file & n & Hsave & Hrole & Hcontent)
  end.
  cbn [FileStorage.data_role FileStorage.data_content] in Hrole, Hcontent.
  exists file.
  set (f1 := FileStorage.write_message_file sessionId messageId file (files w)) in *.
  assert (Hinv1 : content_present (tables w, f1))
    by (by apply content_present_write).
  step_with Hsave.
  match goal with
  | |- context [(Database.createMessage ?s
                   (Database.mkMessageData (Some ?i) ?r ?p ?t) ≫= _) _ ?w0] =>
      pose proof (createMessage_run s i r p t E w0 Hid) as Hcreate
  end.
  cbv zeta in Hcreate. cbn [tables files ticks uuids calls journal] in Hcreate.
  match type of Hcreate with
  | match ?ins with _ => _ end => destruct ins as [t1|e] eqn:Hins
  end.
  - destruct Hcreate as (t2 & ref & Hupd & Hcreate).
    erewrite bind_Ok; [|exact Hcreate].
    pose proof (content_present_insert _ _ _ _ _ _ _ _ _ _ Hins Hinv1) as Hinv2.
    pose proof (content_present_touch _ _ _ _ _ Hupd Hinv2) as Hinv3.
    eexists _, _, [_; _; _]. split; [reflexivity|].
    split; [exact Hrole|]. split; [exact Hcontent|].
    cbv zeta. world_fields.
    split; [reflexivity|]. split; [reflexivity|].
    split; [repeat (apply Forall_cons_2; [assumption|]); apply Forall_nil_2|].
    split; [exact Hinv3|]. split; [reflexivity|].
    cbn [SessionService.added_id].
    split; [reflexivity|]. split; [reflexivity|].
    injection Hupd as <-. cbn [messages].
    unfold insert_message in Hins.
    destruct (negb (role_check role)); [discriminate|].
    repeat case_bool_decide; try discriminate. injection Hins as <-.
    eexists. cbn [messages]. split; [apply elem_of_app; right; left|].
    split; reflexivity.
  - erewrite bind_Throw; [|exact Hcreate].
    eexists _, _, [_]. split; [reflexivity|].
    split; [exact Hrole|]. split; [exact Hcontent|].
    cbv zeta. world_fields.
    split; [reflexivity|]. split; [reflexivity|].
    split; [repeat (apply Forall_cons_2; [assumption|]); apply Forall_nil_2|].
    split; [exact Hinv1|]. repeat split.
Qed.

Lemma content_before_metadata_witness :
  let E := sample_env 1000 (λ _, sample_reply) in
  let w := sample_world 2 false in
  fresh_uuid E (uuids w) ≠ ""
  ∧ content_present (tables w, files w)
  ∧ ∃ added w',
      SessionService.addMessage "s" "user" "hi there"
        (SessionService.mkMetadata None None None) E w = (Ok added, w')
      ∧ content_present (tables w', files w')
      ∧ length (journal w') = 3%nat.
Proof.
  intros E w.
  assert (Hid : fresh_uuid E (uuids w) ≠ "") by discriminate.
  assert (Hinv : content_present (tables w, files w)).
  { split.
    - apply Forall_forall. apply (bool_decide_unpack _). vm_compute. exact I.
    - intros s Hs. apply elem_of_nil in Hs. destruct Hs. }
  split; [exact Hid|]. split; [exact Hinv|].
  destruct (content_before_metadata "s" "user" "hi there"
              (SessionService.mkMetadata None None None) E w Hid Hinv)
    as (file & result & w' & written & Hrun & _ & _ & Hj & _ & _ & Hinv' & _ & Hres).
  destruct result as [added|e].
  - exists added, w'. split; [exact Hrun|]. split; [exact Hinv'|].
    destruct Hres as (_ & Hlen & _). rewrite Hj, length_app, Hlen. reflexivity.
  - exfalso. vm_compute in Hrun. discriminate Hrun.
Defined.

(** The reverse of the invariant may fail: a message for a session that
    does not exist leaves its content behind without any row. *)
Lemma refused_row_leaves_orphan :
  let E := sample_env 1000 (λ _, sample_reply) in
  let run := SessionService.addMessage "ghost" "user" "hi there"
               (SessionService.mkMetadata None None None) E empty_world in
  run.1 = Throw ForeignKeyViolation
  ∧ is_Some (message_files (files run.2) !! ("ghost", "uuid-0"))
  ∧ messages (tables run.2) = [].
Proof.
  intros E run. split; [vm_compute; reflexivity|].
  split; [|vm_compute; reflexivity].
  apply (bool_decide_unpack _). vm_compute. exact I.
Qed.

(** ** The same order for summaries *)

Lemma content_present_write_summary sessionId summaryId file t fs :
  content_present (t, fs) →
  content_present (t, FileStorage.write_summary_file sessionId summaryId file fs).
Proof.
  intros [Hmsg Hsum]. split; cbn in *; [exact Hmsg|].
  intros s Hs. destruct (Hsum s Hs) as (contentId & Hfile & Hpath).
  exists contentId. split; [|exact Hpath].
  rewrite lookup_insert_is_Some.
  destruct (decide ((sessionId, summaryId) = (sum_session_id s, contentId)));
    [by left | right; split; [done | exact Hfile]].
Qed.

Lemma content_present_insert_summary id sessionId contentId tokens covers now
    t t1 file fs :
  insert_summary id sessionId
    (FileStorage.getRelativePath (SummaryPath sessionId contentId))
    tokens covers now t = Ok t1 →
  content_present (t, FileStorage.write_summary_file sessionId contentId file fs) →
  content_present (t1, FileStorage.write_summary_file sessionId contentId file fs).
Proof.
  unfold insert_summary. intros Hins [Hmsg Hsum].
  repeat case_bool_decide; try discriminate. injection Hins as <-.
  split; cbn in *; [exact Hmsg|].
  intros s Hs. apply elem_of_app in Hs as [Hs|Hs]; [by apply Hsum|].
  apply list_elem_of_singleton in Hs as ->. cbn.
  exists contentId. split; [|reflexivity].
  rewrite lookup_insert_eq. by eexists.
Qed.

Lemma content_present_marked ids sess t fs :
  content_present (t, fs) →
  content_present
    (mkTables sess (mark_summarized ids <$> messages t) (summaries t), fs).
Proof.
  intros [Hmsg Hsum]. split; cbn in *; [|exact Hsum].
  intros m Hm. apply list_elem_of_fmap in Hm as (m0 & -> & Hm0).
  unfold mark_summarized. case_bool_decide; cbn; by apply Hmsg.
Qed.

(** The summary content is written before the summary row as well: a
    summarization run keeps [content_present] in every state it commits. *)
Lemma summary_content_before_row config sessionId E w resp c cs lastm :
  let batch := select_unsummarized sessionId (tables w) in
  last batch = Some lastm →
  (∀ m, m ∈ batch → is_Some (message_files (files w) !! (sessionId, msg_id m))) →
  (∀ r, backend E (length (calls w)) r = Ok resp) →
  choices resp = c :: cs →
  fresh_uuid E (S (uuids w)) ∉ sum_id <$> summaries (tables w) →
  sessionId ∈ sess_id <$> sessions (tables w) →
  content_present (tables w, files w) →
  ∃ result w' written,
    SummarizerService.generateSummary config sessionId E w = (Ok (Some result), w')
    ∧ journal w' = written ++ journal w
    ∧ Forall content_present written
    ∧ content_present (tables w', files w').
Proof.
  intros batch Hlast Hfiles Hback Hchoices Hfresh Hsess Hinv.
  destruct (generateSummary_success config sessionId E w resp c cs lastm
              Hlast Hfiles Hback Hchoices Hfresh Hsess)
    as (file & now & t1 & t2 & t3 & w' & req & _ & _ & Hrun & Hins
        & Hupd & Hmark & Htab & Hfs & _ & Hj).
  cbv zeta in Hfs, Hj.
  pose proof (content_present_write_summary sessionId (fresh_uuid E (uuids w))
                file _ _ Hinv) as Hinv0.
  pose proof (content_present_insert_summary _ _ _ _ _ _ _ _ _ _ Hins Hinv0)
    as Hinv1.
  injection Hupd as <-. injection Hmark as <-.
  assert (Hinv2 : content_present
    (mkTables (repoint_session (fresh_uuid E (S (uuids w))) now sessionId
                 <$> sessions t1) (messages t1) (summaries t1),
     FileStorage.write_summary_file sessionId (fresh_uuid E (uuids w)) file (files w))).
  { destruct Hinv1 as [Hmsg Hsum]. split; assumption. }
  pose proof (content_present_marked (msg_id <$> batch)
                (repoint_session (fresh_uuid E (S (uuids w))) now sessionId
                   <$> sessions t1) _ _ Hinv1) as Hinv3.
  eexists _, w', [_; _; _; _]. split; [exact Hrun|].
  split; [exact Hj|].
  split; [|rewrite Htab, Hfs; exact Hinv3].
  repeat (apply Forall_cons_2; [assumption|]). apply Forall_nil_2.
Qed.

(** The row of a summary and its document carry different ids (each is
    drawn by its own [uuidv4()]), and the context is built by looking the
    document up under the id of the row: after a summarization the text
    of the current summary is not found. *)
Lemma summary_text_not_read_back :
  let E := sample_env (6 * 60 * 1000) (λ _, sample_reply) in
  let run := SummarizerService.getSessionContext dbConfig_session "s" E
               (sample_world 5 false) in
  sess_current_summary_id <$> sessions (tables run.2) = [Some "uuid-1"]
  ∧ is_Some (summary_files (files run.2) !! ("s", "uuid-0"))
  ∧ SummarizerService.ctx_hasSummary <$> (match run.1 with
                                          | Ok ctx => Some ctx
                                          | Throw _ => None
                                          end) = Some false.
Proof.
  intros E run. split; [vm_compute; reflexivity|].
  split; [|vm_compute; reflexivity].
  apply (bool_decide_unpack _). vm_compute. exact I.
Qed.

(** * Paging through the messages of a session *)

Global Instance created_desc_total : Total created_desc.
Proof. intros a b. unfold created_desc. lia. Qed.

Global Instance created_desc_trans : Transitive created_desc.
Proof. intros a b c. unfold created_desc. lia. Qed.

Global Instance created_asc_total : Total created_asc.
Proof. intros a b. unfold created_asc. lia. Qed.

Global Instance created_asc_trans : Transitive created_asc.
Proof. intros a b c. unfold created_asc. lia. Qed.

(** Under the primary key, the cursor subquery finds the one row with
    the given id. *)
Lemma cursor_created_at_unique b mb t :
  NoDup (msg_id <$> messages t) →
  mb ∈ messages t → msg_id mb = b →
  cursor_created_at b t = Some (msg_created_at mb).
Proof.
  unfold cursor_created_at. generalize (messages t) as l.
  induction l as [|x l IH]; intros Hnd Hin Hid.
  - by apply elem_of_nil in Hin.
  - rewrite fmap_cons in Hnd. apply NoDup_cons in Hnd as [Hx Hnd].
    rewrite filter_cons. destruct (decide (msg_id x = b)) as [Hxb|Hxb].
    + apply elem_of_cons in Hin as [->|Hin]; [reflexivity|].
      exfalso. apply Hx. rewrite Hxb, <- Hid. by apply list_elem_of_fmap_2.
    + apply elem_of_cons in Hin as [->|Hin]; [contradiction|].
      by apply IH.
Qed.



(** * Operations on a session that does not exist *)







(** * Session titles *)

Lemma session_getMessages_run sessionId limit beforeId E w :
  0 ≤ limit →
  ∃ loaded, SessionService.getMessages sessionId limit beforeId E w = (Ok loaded, w).
Proof.
  intros Hlimit.
  destruct (getMessages_run sessionId limit beforeId E w Hlimit) as [refs Hrefs].
  destruct (mapM_session_loadMessage_run sessionId refs E w) as (loaded & Hload & _).
  exists loaded. unfold SessionService.getMessages.
  erewrite bind_Ok; [|exact Hrefs]. exact Hload.
Qed.

Lemma updateSession_run sessionId updates E w :
  Database.upd_updateActivity updates = Some false →
  Database.updateSession sessionId updates E w =
  (Ok (),
   let t := mkTables
              (set_session_fields sessionId (Database.upd_title updates)
                 (Database.upd_currentSummaryId updates)
                 (Database.upd_metadata updates) (clock E (ticks w)) None
               <$> sessions (tables w))
              (messages (tables w)) (summaries (tables w)) in
   mkWorld t (files w) (S (ticks w)) (uuids w) (calls w) ((t, files w) :: journal w)).
Proof.
  intros Hact. unfold Database.updateSession. rewrite Hact.
  step. step. reflexivity.
Qed.



(** * Further properties of the stores and the services *)

(** ** Content store: what is saved is what is read *)

(** X1. A message document saved under (session, id) is what [getMessage]
    returns for that pair afterwards, whatever was stored there before;
    every other document and the tables are left alone. *)
Theorem saved_message_is_read_back sessionId messageId data E w :
  ∃ w' file,
    FileStorage.saveMessage sessionId messageId data E w
      = (Ok (MessagePath sessionId messageId), w')
    ∧ FileStorage.getMessage sessionId messageId E w' = (Ok (Some file), w')
    ∧ mf_id file = messageId
    ∧ mf_session_id file = sessionId
    ∧ mf_role file = FileStorage.data_role data
    ∧ mf_content file = FileStorage.data_content data
    ∧ mf_sources file = FileStorage.data_sources data
    ∧ mf_metadata file = FileStorage.data_metadata data
    ∧ (∀ t, FileStorage.data_createdAt data = Some t → t ≠ 0 →
            mf_created_at file = t)
    ∧ (∀ s m, (s, m) ≠ (sessionId, messageId) →
              FileStorage.getMessage s m E w'
              = (Ok (message_files (files w) !! (s, m)), w'))
    ∧ summary_files (files w') = summary_files (files w)
    ∧ tables w' = tables w.
Proof.
  assert (Hcreated : ∃ created w0,
    FileStorage.createdAt_or_now (FileStorage.data_createdAt data) E w
      = (Ok created, w0)
    ∧ tables w0 = tables w ∧ files w0 = files w
    ∧ ∀ t, FileStorage.data_createdAt data = Some t → t ≠ 0 → created = t).
  { unfold FileStorage.createdAt_or_now.
    destruct (FileStorage.data_createdAt data) as [t|].
    - destruct (t =? 0) eqn:Ht.
      + do 2 eexists. split; [reflexivity|]. do 2 (split; [reflexivity|]).
        intros t' [= <-] Hne. apply Z.eqb_eq in Ht. contradiction.
      + do 2 eexists. split; [reflexivity|]. do 2 (split; [reflexivity|]).
        by intros t' [= <-].
    - do 2 eexists. split; [reflexivity|]. do 2 (split; [reflexivity|]).
      discriminate. }
  destruct Hcreated as (created & w0 & Hcreated & Ht & Hf & Hgiven).
  eexists _, _. split.
  { unfold FileStorage.saveMessage. step.
    erewrite bind_Ok; [|exact Hcreated]. step. reflexivity. }
  unfold FileStorage.getMessage, fs_read. world_fields.
  unfold FileStorage.write_message_file at 1. cbn [message_files].
  rewrite lookup_insert_eq. split; [reflexivity|].
  cbn [mf_id mf_session_id mf_role mf_content mf_sources mf_metadata mf_created_at].
  do 6 (split; [reflexivity|]). split; [exact Hgiven|].
  split; [|split; [cbn; by rewrite Hf | exact Ht]].
  intros s m Hne. unfold FileStorage.write_message_file. cbn [message_files].
  rewrite lookup_insert_ne by congruence. by rewrite Hf.
Qed.

(** X2. The same for a summary document: saved under (session, id), it
    is what [getSummary] returns for that pair, with the text and the
    covered ids as given. *)
Theorem saved_summary_is_read_back sessionId summaryId data E w :
  ∃ w' file,
    FileStorage.saveSummary sessionId summaryId data E w
      = (Ok (SummaryPath sessionId summaryId), w')
    ∧ FileStorage.getSummary sessionId summaryId E w' = (Ok (Some file), w')
    ∧ sf_id file = summaryId
    ∧ sf_session_id file = sessionId
    ∧ sf_summary file = FileStorage.data_summary data
    ∧ sf_covered_message_ids file = FileStorage.data_coveredMessageIds data
    ∧ sf_tokens file = FileStorage.data_tokens data
    ∧ (∀ s m, (s, m) ≠ (sessionId, summaryId) →
              FileStorage.getSummary s m E w'
              = (Ok (summary_files (files w) !! (s, m)), w'))
    ∧ message_files (files w') = message_files (files w)
    ∧ tables w' = tables w.
Proof.
  assert (Hcreated : ∃ created w0,
    FileStorage.createdAt_or_now (FileStorage.data_summary_createdAt data) E w
      = (Ok created, w0)
    ∧ tables w0 = tables w ∧ files w0 = files w).
  { unfold FileStorage.createdAt_or_now.
    destruct (FileStorage.data_summary_createdAt data) as [t|];
      [destruct (t =? 0)|]; do 2 eexists; (split; [reflexivity|]);
      split; reflexivity. }
  destruct Hcreated as (created & w0 & Hcreated & Ht & Hf).
  eexists _, _. split.
  { unfold FileStorage.saveSummary. step.
    erewrite bind_Ok; [|exact Hcreated]. step. reflexivity. }
  unfold FileStorage.getSummary, fs_read. world_fields.
  unfold FileStorage.write_summary_file at 1. cbn [summary_files].
  rewrite lookup_insert_eq. split; [reflexivity|].
  cbn [sf_id sf_session_id sf_summary sf_covered_message_ids sf_tokens].
  do 5 (split; [reflexivity|]).
  split; [|split; [cbn; by rewrite Hf | exact Ht]].
  intros s m Hne. unfold FileStorage.write_summary_file. cbn [summary_files].
  rewrite lookup_insert_ne by congruence. by rewrite Hf.
Qed.

(** ** Sessions: create, find, delete *)

(** X3. A session created under an id that is not in use is found by
    [getSession] afterwards, untitled or with the given title, without
    summary, and with its three timestamps equal to the time of creation;
    the sessions, messages and summaries that existed stay.  Under an id
    in use the creation fails and the tables stay as they are. *)
Theorem created_session_is_found title E w :
  let id := fresh_uuid E (uuids w) in
  let now := clock E (ticks w) in
  let row := mkSessionRow id title now now now None "{}" in
  (id ∉ sess_id <$> sessions (tables w) →
   ∃ w',
     SessionService.createSession title E w
       = (Ok (Database.mkCreatedSession id title now now now), w')
     ∧ Database.getSession id E w' = (Ok (Some row), w')
     ∧ sessions (tables w') = sessions (tables w) ++ [row]
     ∧ messages (tables w') = messages (tables w)
     ∧ summaries (tables w') = summaries (tables w)
     ∧ files w' = files w)
  ∧ (id ∈ sess_id <$> sessions (tables w) →
     ∃ w',
       SessionService.createSession title E w = (Throw UniqueViolation, w')
       ∧ tables w' = tables w ∧ files w' = files w ∧ journal w' = journal w).
Proof.
  intros id now row. split; intros Hid.
  - eexists. split.
    { unfold SessionService.createSession, Database.createSession.
      step. step.
      erewrite bind_Ok; last first.
      { unfold pool_query_write, insert_session. world_fields.
        rewrite bool_decide_eq_false_2 by exact Hid. reflexivity. }
      reflexivity. }
    world_fields. cbn [sessions messages summaries].
    split; [|repeat split].
    unfold Database.getSession, pool_query_read, select_session.
    world_fields. cbn [sessions].
    rewrite filter_app, filter_cons_True, filter_nil by reflexivity.
    match goal with
    | |- context [filter ?P (sessions (tables w))] =>
        assert (Hnone : filter P (sessions (tables w)) = [])
    end.
    { apply elem_of_nil_inv. intros s Hs.
      apply list_elem_of_filter in Hs as [Hs Hin].
      apply Hid. fold id. rewrite <- Hs. by apply list_elem_of_fmap_2. }
    rewrite Hnone. reflexivity.
  - eexists. split.
    { unfold SessionService.createSession, Database.createSession.
      step. step.
      erewrite bind_Throw; [reflexivity|].
      unfold pool_query_write, insert_session. world_fields.
      rewrite bool_decide_eq_true_2 by exact Hid. reflexivity. }
    repeat split.
Qed.

Lemma created_session_is_found_witness :
  let E := sample_env 1000 (λ _, sample_reply) in
  let w := sample_world 2 false in
  (fresh_uuid E (uuids w) ∉ sess_id <$> sessions (tables w))
  ∧ ∃ w', SessionService.createSession (Some "Weekend plans") E w
          = (Ok (Database.mkCreatedSession "uuid-0" (Some "Weekend plans")
                   1000 1000 1000), w')
          ∧ sess_id <$> sessions (tables w') = ["s"; "uuid-0"].
Proof.
  intros E w.
  assert (Hid : fresh_uuid E (uuids w) ∉ sess_id <$> sessions (tables w)).
  { apply (bool_decide_unpack _). vm_compute. exact I. }
  split; [exact Hid|].
  destruct (created_session_is_found (Some "Weekend plans") E w) as [Hnew _].
  destruct (Hnew Hid) as (w' & Hrun & _ & Hsessions & _).
  exists w'. split; [exact Hrun|]. rewrite Hsessions. reflexivity.
Defined.

Lemma deleteSession_run sessionId E w :
  ∃ t2,
    delete_session_rows sessionId (tables w) = Ok t2
    ∧ SessionService.deleteSession sessionId E w
      = (Ok (),
         let f1 := FileStorage.remove_session_files sessionId (files w) in
         mkWorld t2 f1 (ticks w) (uuids w) (calls w)
                 ((t2, f1) :: (tables w, f1) :: journal w)).
Proof.
  assert (Hrows : ∃ t2, delete_session_rows sessionId (tables w) = Ok t2).
  { unfold delete_session_rows. case_bool_decide; eexists; reflexivity. }
  destruct Hrows as [t2 Hrows]. exists t2. split; [exact Hrows|].
  unfold SessionService.deleteSession. step.
  unfold Database.deleteSession, pool_query_write. world_fields.
  rewrite Hrows. reflexivity.
Qed.

Lemma delete_session_rows_spec sessionId t t2 :
  (∀ m, m ∈ messages t → msg_session_id m ∈ sess_id <$> sessions t) →
  (∀ s, s ∈ summaries t → sum_session_id s ∈ sess_id <$> sessions t) →
  delete_session_rows sessionId t = Ok t2 →
  sessions t2 = filter (λ s, sess_id s ≠ sessionId) (sessions t)
  ∧ messages t2 = filter (λ m, msg_session_id m ≠ sessionId) (messages t)
  ∧ summaries t2 = filter (λ s, sum_session_id s ≠ sessionId) (summaries t).
Proof.
  intros Hmsg Hsum. unfold delete_session_rows.
  case_bool_decide as Hin; intros [= <-]; [repeat split|].
  assert (Hkeep : ∀ {A} (key : A → string) (l : list A),
            (∀ x, x ∈ l → key x ≠ sessionId) →
            l = filter (λ x, key x ≠ sessionId) l).
  { intros A key l Hall. induction l as [|x l IH]; [reflexivity|].
    rewrite filter_cons_True by (apply Hall; by left).
    f_equal. apply IH. intros y Hy. apply Hall. by right. }
  split; [|split].
  - apply Hkeep. intros s Hs Heq. apply Hin. rewrite <- Heq.
    by apply list_elem_of_fmap_2.
  - apply Hkeep. intros m Hm Heq. apply Hin. rewrite <- Heq. by apply Hmsg.
  - apply Hkeep. intros s Hs Heq. apply Hin. rewrite <- Heq. by apply Hsum.
Qed.

Lemma remove_session_files_lookup sessionId fs s m :
  message_files (FileStorage.remove_session_files sessionId fs) !! (s, m)
  = (if decide (s = sessionId) then None else message_files fs !! (s, m))
  ∧ summary_files (FileStorage.remove_session_files sessionId fs) !! (s, m)
    = (if decide (s = sessionId) then None else summary_files fs !! (s, m)).
Proof.
  unfold FileStorage.remove_session_files. cbn [message_files summary_files].
  split.
  - destruct (decide (s = sessionId)) as [->|Hne].
    + apply map_lookup_filter_None. right. intros x _ Hkeep. by apply Hkeep.
    + destruct (message_files fs !! (s, m)) as [x|] eqn:Hx.
      * apply map_lookup_filter_Some. split; [exact Hx | exact Hne].
      * apply map_lookup_filter_None. by left.
  - destruct (decide (s = sessionId)) as [->|Hne].
    + apply map_lookup_filter_None. right. intros x _ Hkeep. by apply Hkeep.
    + destruct (summary_files fs !! (s, m)) as [x|] eqn:Hx.
      * apply map_lookup_filter_Some. split; [exact Hx | exact Hne].
      * apply map_lookup_filter_None. by left.
Qed.

(** X4. Deleting a session that exists succeeds and removes exactly
    what belongs to it: its session row, its message and summary rows and
    the documents filed under its id.  The rows and documents of every
    other session are as before. *)
Theorem deleted_session_is_gone sessionId E w :
  schema_holds (tables w) →
  sessionId ∈ sess_id <$> sessions (tables w) →
  ∃ w',
    SessionService.deleteSession sessionId E w = (Ok (), w')
    ∧ (∀ s, s ∈ sessions (tables w')
            ↔ s ∈ sessions (tables w) ∧ sess_id s ≠ sessionId)
    ∧ (∀ m, m ∈ messages (tables w')
            ↔ m ∈ messages (tables w) ∧ msg_session_id m ≠ sessionId)
    ∧ (∀ s, s ∈ summaries (tables w')
            ↔ s ∈ summaries (tables w) ∧ sum_session_id s ≠ sessionId)
    ∧ (∀ s m, message_files (files w') !! (s, m)
              = if decide (s = sessionId) then None
                else message_files (files w) !! (s, m))
    ∧ (∀ s m, summary_files (files w') !! (s, m)
              = if decide (s = sessionId) then None
                else summary_files (files w) !! (s, m))
    ∧ Database.getSession sessionId E w' = (Ok None, w')
    ∧ Database.getUnsummarizedMessages sessionId E w' = (Ok [], w').
Proof.
  intros (_ & _ & _ & Hmsg & Hsum) _.
  destruct (deleteSession_run sessionId E w) as (t2 & Hrows & Hrun).
  destruct (delete_session_rows_spec sessionId _ _ Hmsg Hsum Hrows)
    as (Hs2 & Hm2 & Hsum2).
  eexists. split; [exact Hrun|]. cbv zeta. world_fields.
  split; [intros s; rewrite Hs2, list_elem_of_filter; tauto|].
  split; [intros m; rewrite Hm2, list_elem_of_filter; tauto|].
  split; [intros s; rewrite Hsum2, list_elem_of_filter; tauto|].
  split; [intros s m; apply remove_session_files_lookup|].
  split; [intros s m; apply remove_session_files_lookup|].
  split.
  - unfold Database.getSession, pool_query_read, select_session. world_fields.
    match goal with
    | |- context [filter ?P (sessions t2)] =>
        assert (Hnone : filter P (sessions t2) = [])
    end; [|by rewrite Hnone].
    apply elem_of_nil_inv. intros s Hs.
    apply list_elem_of_filter in Hs as [Hid Hs].
    rewrite Hs2 in Hs. apply list_elem_of_filter in Hs as [Hne _]. contradiction.
  - unfold Database.getUnsummarizedMessages, pool_query_read. world_fields.
    assert (Hnone : select_unsummarized sessionId t2 = []); [|by rewrite Hnone].
    apply elem_of_nil_inv. intros m Hm.
    apply elem_of_select_unsummarized in Hm as (Hin & Hid & _).
    rewrite Hm2 in Hin. apply list_elem_of_filter in Hin as [Hne _]. contradiction.
Qed.

Lemma sample_schema_holds n flag : (n ≤ 10)%nat → schema_holds (tables (sample_world n flag)).
Proof.
  intros Hn. do 11 (destruct n as [|n]; [repeat split; try (intros x Hx;
    apply elem_of_nil in Hx; destruct Hx);
    try (apply (bool_decide_unpack _); vm_compute; exact I);
    try (apply Forall_forall; apply (bool_decide_unpack _); vm_compute; exact I)|]).
  lia.
Qed.

Lemma deleted_session_is_gone_witness :
  let E := sample_env 1000 (λ _, sample_reply) in
  let w := sample_world 2 false in
  schema_holds (tables w)
  ∧ ("s" ∈ sess_id <$> sessions (tables w))
  ∧ ∃ w', SessionService.deleteSession "s" E w = (Ok (), w')
          ∧ messages (tables w') = []
          ∧ message_files (files w') !! ("s", "m0") = None.
Proof.
  intros E w.
  assert (Hschema : schema_holds (tables w)) by (apply sample_schema_holds; lia).
  assert (Hsess : "s" ∈ sess_id <$> sessions (tables w)).
  { apply (bool_decide_unpack _). vm_compute. exact I. }
  split; [exact Hschema|]. split; [exact Hsess|].
  destruct (deleted_session_is_gone "s" E w Hschema Hsess)
    as (w' & Hrun & _ & _ & _ & Hfiles & _).
  exists w'. split; [exact Hrun|]. split.
  - vm_compute in Hrun. injection Hrun as <-. reflexivity.
  - rewrite (Hfiles "s" "m0"). reflexivity.
Defined.

(** X5. Deleting a session that exists a second time succeeds as well
    and changes neither the tables nor the documents. *)
Theorem delete_twice_is_delete_once sessionId E w :
  sessionId ∈ sess_id <$> sessions (tables w) →
  ∃ w1 w2,
    SessionService.deleteSession sessionId E w = (Ok (), w1)
    ∧ SessionService.deleteSession sessionId E w1 = (Ok (), w2)
    ∧ tables w2 = tables w1
    ∧ files w2 = files w1.
Proof.
  intros _.
  destruct (deleteSession_run sessionId E w) as (t1 & Hrows1 & Hrun1).
  eexists. 
  match type of Hrun1 with _ = (_, ?w1) =>
    destruct (deleteSession_run sessionId E w1) as (t2 & Hrows2 & Hrun2)
  end.
  eexists. split; [exact Hrun1|]. split; [exact Hrun2|].
  cbv zeta in *. world_fields. cbn [tables files] in Hrows2.
  split.
  - revert Hrows1 Hrows2. unfold delete_session_rows.
    case_bool_decide as Hin.
    + intros [= <-]. cbn [sessions].
      rewrite bool_decide_eq_false_2; [by intros [= <-]|].
      intros Hs. apply list_elem_of_fmap in Hs as (s & Hid & Hs).
      apply list_elem_of_filter in Hs as [Hne _]. by apply Hne.
    + intros [= <-]. rewrite bool_decide_eq_false_2 by exact Hin. by intros [= <-].
  - destruct (files w) as [mf sf]. unfold FileStorage.remove_session_files.
    cbn [message_files summary_files]. f_equal.
    + apply map_eq. intros [s m].
      destruct (filter _ mf !! (s, m)) as [x|] eqn:Hx.
      * apply map_lookup_filter_Some. split; [exact Hx|].
        apply map_lookup_filter_Some in Hx as [_ Hne]. exact Hne.
      * apply map_lookup_filter_None. by left.
    + apply map_eq. intros [s m].
      destruct (filter _ sf !! (s, m)) as [x|] eqn:Hx.
      * apply map_lookup_filter_Some. split; [exact Hx|].
        apply map_lookup_filter_Some in Hx as [_ Hne]. exact Hne.
      * apply map_lookup_filter_None. by left.
Qed.

Lemma delete_twice_is_delete_once_witness :
  let E := sample_env 1000 (λ _, sample_reply) in
  let w := sample_world 2 false in
  ("s" ∈ sess_id <$> sessions (tables w))
  ∧ ∃ w1 w2,
      SessionService.deleteSession "s" E w = (Ok (), w1)
      ∧ SessionService.deleteSession "s" E w1 = (Ok (), w2)
      ∧ tables w2 = tables w1
      ∧ sessions (tables w1) = [].
Proof.
  intros E w.
  assert (Hsess : "s" ∈ sess_id <$> sessions (tables w)).
  { apply (bool_decide_unpack _). vm_compute. exact I. }
  split; [exact Hsess|].
  destruct (delete_twice_is_delete_once "s" E w Hsess)
    as (w1 & w2 & Hrun1 & Hrun2 & Ht & _).
  exists w1, w2. split; [exact Hrun1|]. split; [exact Hrun2|].
  split; [exact Ht|].
  vm_compute in Hrun1. injection Hrun1 as <-. reflexivity.
Defined.

(** X6. The deletion removes the documents before the rows.  When the
    session has a message whose content is stored, the state committed
    in between has that row without its content; once the rows are gone
    every row that is left has its content again. *)
Theorem delete_removes_content_first sessionId E w m :
  schema_holds (tables w) →
  content_present (tables w, files w) →
  m ∈ messages (tables w) → msg_session_id m = sessionId →
  ∃ w' between,
    SessionService.deleteSession sessionId E w = (Ok (), w')
    ∧ journal w' = (tables w', files w') :: between :: journal w
    ∧ between.1 = tables w
    ∧ between.2 = files w'
    ∧ message_files between.2 !! (msg_session_id m, msg_id m) = None
    ∧ ¬ content_present between
    ∧ content_present (tables w', files w').
Proof.
  intros (_ & _ & _ & Hmsg & Hsum) [Hcm Hcs] Hm Hsid.
  destruct (deleteSession_run sessionId E w) as (t2 & Hrows & Hrun).
  destruct (delete_session_rows_spec sessionId _ _ Hmsg Hsum Hrows)
    as (Hs2 & Hm2 & Hsum2).
  eexists _, _. split; [exact Hrun|]. cbv zeta. world_fields.
  split; [reflexivity|]. cbn [fst snd].
  split; [reflexivity|]. split; [reflexivity|].
  assert (Hgone : message_files (FileStorage.remove_session_files sessionId (files w))
                    !! (msg_session_id m, msg_id m) = None).
  { rewrite (proj1 (remove_session_files_lookup _ _ _ _)).
    by rewrite decide_True. }
  split; [exact Hgone|]. split.
  - intros [Hbad _]. specialize (Hbad m Hm). cbn [fst snd] in Hbad.
    rewrite Hgone in Hbad. by destruct Hbad.
  - split; cbn [fst snd].
    + intros x Hx. rewrite Hm2 in Hx. apply list_elem_of_filter in Hx as [Hne Hx].
      rewrite (proj1 (remove_session_files_lookup _ _ _ _)).
      rewrite decide_False by exact Hne. by apply Hcm.
    + intros s Hs. rewrite Hsum2 in Hs. apply list_elem_of_filter in Hs as [Hne Hs].
      destruct (Hcs s Hs) as (contentId & Hfile & Hpath). cbn in Hfile, Hpath.
      exists contentId. split; [|exact Hpath].
      rewrite (proj2 (remove_session_files_lookup _ _ _ _)).
      rewrite decide_False by exact Hne. exact Hfile.
Qed.

Lemma sample_content_present n flag :
  (n ≤ 10)%nat →
  content_present (tables (sample_world n flag), files (sample_world n flag)).
Proof.
  intros Hn. split.
  - do 11 (destruct n as [|n];
      [apply Forall_forall; apply (bool_decide_unpack _); vm_compute; exact I|]).
    lia.
  - intros s Hs. apply elem_of_nil in Hs. destruct Hs.
Qed.

Lemma delete_removes_content_first_witness :
  let E := sample_env 1000 (λ _, sample_reply) in
  let w := sample_world 2 false in
  let m := sample_row "assistant" false 1 in
  schema_holds (tables w)
  ∧ content_present (tables w, files w)
  ∧ m ∈ messages (tables w)
  ∧ msg_session_id m = "s"
  ∧ ∃ w' between,
      SessionService.deleteSession "s" E w = (Ok (), w')
      ∧ journal w' = [(tables w', files w'); between]
      ∧ ¬ content_present between.
Proof.
  intros E w m.
  assert (Hschema : schema_holds (tables w)) by (apply sample_schema_holds; lia).
  assert (Hcontent : content_present (tables w, files w))
    by (apply sample_content_present; lia).
  assert (Hm : m ∈ messages (tables w)) by (right; left).
  assert (Hsid : msg_session_id m = "s") by reflexivity.
  split; [exact Hschema|]. split; [exact Hcontent|].
  split; [exact Hm|]. split; [exact Hsid|].
  destruct (delete_removes_content_first "s" E w m Hschema Hcontent Hm Hsid)
    as (w' & between & Hrun & Hj & _ & _ & _ & Hbroken & _).
  exists w', between. split; [exact Hrun|]. split; [exact Hj | exact Hbroken].
Defined.

(** ** The schema constraints are kept *)

Lemma keeps_ret {A} (a : A) : keeps_schema (mret a).
Proof. intros E w H. exact H. Qed.

Lemma keeps_throw {A} e : keeps_schema (@throw A e).
Proof. intros E w H. exact H. Qed.

Lemma keeps_bind {A B} (m : M A) (k : A → M B) :
  keeps_schema m → (∀ a, keeps_schema (k a)) → keeps_schema (m ≫= k).
Proof.
  intros Hm Hk E w H. rewrite bind_run. specialize (Hm E w H).
  destruct (m E w) as [[a|e] w1]; [apply Hk; exact Hm | exact Hm].
Qed.

Lemma keeps_try_catch {A} (m : M A) (h : error → M A) :
  keeps_schema m → (∀ e, keeps_schema (h e)) → keeps_schema (try_catch m h).
Proof.
  intros Hm Hh E w H. unfold try_catch. specialize (Hm E w H).
  destruct (m E w) as [[a|e] w1]; [exact Hm | apply Hh; exact Hm].
Qed.

Lemma keeps_mapM {A B} (f : A → M B) l :
  (∀ x, keeps_schema (f x)) → keeps_schema (mapM f l).
Proof.
  intros Hf. induction l as [|x l IH]; [apply keeps_ret|].
  cbn [mapM]. apply keeps_bind; [apply Hf|]. intros y.
  apply keeps_bind; [exact IH|]. intros ys. apply keeps_ret.
Qed.

Lemma keeps_Date_now : keeps_schema Date_now.
Proof. intros E w H. exact H. Qed.

Lemma keeps_uuidv4 : keeps_schema uuidv4.
Proof. intros E w H. exact H. Qed.

Lemma keeps_backend r : keeps_schema (chat_completions_create r).
Proof. intros E w H. exact H. Qed.

Lemma keeps_read {A} (q : Tables → outcome A) : keeps_schema (pool_query_read q).
Proof. intros E w H. exact H. Qed.

Lemma keeps_fs_read {A} (f : Files → A) : keeps_schema (fs_read f).
Proof. intros E w H. exact H. Qed.

Lemma keeps_fs_write f : keeps_schema (fs_write f).
Proof. intros E w H. exact H. Qed.

Lemma keeps_write (q : Tables → outcome Tables) :
  (∀ t t', schema_holds t → q t = Ok t' → schema_holds t') →
  keeps_schema (pool_query_write q).
Proof.
  intros Hq E w H. unfold pool_query_write.
  destruct (q (tables w)) as [t'|e] eqn:Hrun; [|exact H].
  exact (Hq _ _ H Hrun).
Qed.

Lemma NoDup_fmap_filter {A} (key : A → string) (P : A → Prop)
    `{∀ x, Decision (P x)} (l : list A) :
  NoDup (key <$> l) → NoDup (key <$> filter P l).
Proof.
  induction l as [|x l IH]; [done|].
  rewrite fmap_cons. intros [Hx Hl]%NoDup_cons.
  rewrite filter_cons. destruct (decide (P x)); [|by apply IH].
  rewrite fmap_cons. apply NoDup_cons. split; [|by apply IH].
  intros Hin. apply Hx. apply list_elem_of_fmap in Hin as (y & Hy & Hin).
  apply list_elem_of_filter in Hin as [_ Hin].
  rewrite Hy. by apply list_elem_of_fmap_2.
Qed.

Lemma schema_sessions_mapped (f : SessionRow → SessionRow) t :
  (∀ s, sess_id (f s) = sess_id s) →
  schema_holds t →
  schema_holds (mkTables (f <$> sessions t) (messages t) (summaries t)).
Proof.
  intros Hf (Hs & Hm & Hsum & Hrm & Hrs).
  assert (Hids : sess_id <$> (f <$> sessions t) = sess_id <$> sessions t).
  { rewrite <- list_fmap_compose. apply list_fmap_ext. intros i s _. apply Hf. }
  unfold schema_holds. cbn [sessions messages summaries]. rewrite Hids.
  repeat split; assumption.
Qed.

Lemma schema_insert_session id title now t t' :
  schema_holds t → insert_session id title now t = Ok t' → schema_holds t'.
Proof.
  intros (Hs & Hm & Hsum & Hrm & Hrs). unfold insert_session.
  case_bool_decide as Hid; [discriminate|]. intros [= <-].
  unfold schema_holds. cbn [sessions messages summaries]. rewrite fmap_app.
  split; [|split; [exact Hm|split; [exact Hsum|split]]].
  - apply NoDup_app. split; [exact Hs|]. split; [|apply NoDup_singleton].
    intros x Hx Hx'. apply list_elem_of_singleton in Hx'. cbn in Hx'. congruence.
  - intros m Hin. apply elem_of_app. left. by apply Hrm.
  - intros s Hin. apply elem_of_app. left. by apply Hrs.
Qed.

Lemma schema_delete_session sessionId t t' :
  schema_holds t → delete_session_rows sessionId t = Ok t' → schema_holds t'.
Proof.
  intros (Hs & Hm & Hsum & Hrm & Hrs). unfold delete_session_rows.
  case_bool_decide; intros [= <-]; [|by repeat split].
  unfold schema_holds. cbn [sessions messages summaries].
  split; [by apply NoDup_fmap_filter|].
  split; [by apply NoDup_fmap_filter|].
  split; [by apply NoDup_fmap_filter|].
  split.
  - intros m Hin. apply list_elem_of_filter in Hin as [Hne Hin].
    specialize (Hrm m Hin). apply list_elem_of_fmap in Hrm as (s & Hid & Hs').
    apply list_elem_of_fmap. exists s. split; [exact Hid|].
    apply list_elem_of_filter. split; [congruence | exact Hs'].
  - intros s0 Hin. apply list_elem_of_filter in Hin as [Hne Hin].
    specialize (Hrs s0 Hin). apply list_elem_of_fmap in Hrs as (s & Hid & Hs').
    apply list_elem_of_fmap. exists s. split; [exact Hid|].
    apply list_elem_of_filter. split; [congruence | exact Hs'].
Qed.

Lemma schema_insert_message id sessionId role filePath tokens now t t' :
  schema_holds t →
  insert_message id sessionId role filePath tokens now t = Ok t' →
  schema_holds t'.
Proof.
  intros (Hs & Hm & Hsum & Hrm & Hrs). unfold insert_message.
  destruct (negb (role_check role)); [discriminate|].
  case_bool_decide as Hid; [discriminate|].
  case_bool_decide as Hsess; [|discriminate]. intros [= <-].
  unfold schema_holds. cbn [sessions messages summaries]. rewrite fmap_app.
  split; [exact Hs|]. split; [|split; [exact Hsum|split; [|exact Hrs]]].
  - apply NoDup_app. split; [exact Hm|]. split; [|apply NoDup_singleton].
    intros x Hx Hx'. apply list_elem_of_singleton in Hx'. cbn in Hx'. congruence.
  - intros m Hin. apply elem_of_app in Hin as [Hin|Hin]; [by apply Hrm|].
    apply list_elem_of_singleton in Hin as ->. exact Hsess.
Qed.

Lemma schema_insert_summary id sessionId filePath tokens covers now t t' :
  schema_holds t →
  insert_summary id sessionId filePath tokens covers now t = Ok t' →
  schema_holds t'.
Proof.
  intros (Hs & Hm & Hsum & Hrm & Hrs). unfold insert_summary.
  case_bool_decide as Hid; [discriminate|].
  case_bool_decide as Hsess; [|discriminate]. intros [= <-].
  unfold schema_holds. cbn [sessions messages summaries]. rewrite fmap_app.
  split; [exact Hs|]. split; [exact Hm|]. split; [|split; [exact Hrm|]].
  - apply NoDup_app. split; [exact Hsum|]. split; [|apply NoDup_singleton].
    intros x Hx Hx'. apply list_elem_of_singleton in Hx'. cbn in Hx'. congruence.
  - intros s Hin. apply elem_of_app in Hin as [Hin|Hin]; [by apply Hrs|].
    apply list_elem_of_singleton in Hin as ->. exact Hsess.
Qed.

Lemma schema_mark_summarized ids t t' :
  schema_holds t → update_messages_summarized ids t = Ok t' → schema_holds t'.
Proof.
  intros (Hs & Hm & Hsum & Hrm & Hrs) [= <-].
  assert (Hids : msg_id <$> (mark_summarized ids <$> messages t)
                 = msg_id <$> messages t).
  { rewrite <- list_fmap_compose. apply list_fmap_ext. intros i m _.
    unfold compose, mark_summarized. by case_bool_decide. }
  unfold schema_holds. cbn [sessions messages summaries]. rewrite Hids.
  split; [exact Hs|]. split; [exact Hm|]. split; [exact Hsum|].
  split; [|exact Hrs].
  intros m Hin. apply list_elem_of_fmap in Hin as (m0 & -> & Hin).
  unfold mark_summarized. case_bool_decide; cbn [msg_session_id]; by apply Hrm.
Qed.

(** X7. Every writing method of the metadata index leaves the schema
    constraints in force (primary keys, references to sessions), whether
    it succeeds or throws, and so do the operations of the services that
    are built from them. *)
Theorem schema_is_kept config sessionId :
  (∀ title, keeps_schema (Database.createSession title))
  ∧ (∀ updates, keeps_schema (Database.updateSession sessionId updates))
  ∧ keeps_schema (Database.deleteSession sessionId)
  ∧ (∀ data, keeps_schema (Database.createMessage sessionId data))
  ∧ (∀ ids, keeps_schema (Database.markMessagesSummarized ids))
  ∧ (∀ data, keeps_schema (Database.createSummary sessionId data))
  ∧ (∀ role content metadata,
       keeps_schema (SessionService.addMessage sessionId role content metadata))
  ∧ keeps_schema (SessionService.deleteSession sessionId)
  ∧ keeps_schema (SessionService.generateTitle config sessionId)
  ∧ keeps_schema (SummarizerService.generateSummary config sessionId)
  ∧ keeps_schema (SummarizerService.getSessionContext config sessionId)
  ∧ (∀ message, keeps_schema (chat_session_context config sessionId message)).
Proof.
  assert (HcreateSession : ∀ title, keeps_schema (Database.createSession title)).
  { intros title. unfold Database.createSession.
    apply keeps_bind; [apply keeps_uuidv4|]. intros id.
    apply keeps_bind; [apply keeps_Date_now|]. intros now.
    apply keeps_bind; [|intros; apply keeps_ret].
    apply keeps_write. intros t t'. apply schema_insert_session. }
  assert (Hupdate : ∀ sid updates, keeps_schema (Database.updateSession sid updates)).
  { intros sid updates. unfold Database.updateSession.
    apply keeps_bind; [apply keeps_Date_now|]. intros updated.
    apply keeps_bind.
    { destruct (Database.upd_updateActivity updates) as [[|]|];
        try apply keeps_ret;
        (apply keeps_bind; [apply keeps_Date_now | intros; apply keeps_ret]). }
    intros activity. apply keeps_write. intros t t' H [= <-].
    apply schema_sessions_mapped; [|exact H].
    intros s. unfold set_session_fields. by case_bool_decide. }
  assert (Hdelete : keeps_schema (Database.deleteSession sessionId)).
  { apply keeps_write. intros t t'. apply schema_delete_session. }
  assert (HcreateMessage : ∀ data,
            keeps_schema (Database.createMessage sessionId data)).
  { intros data. unfold Database.createMessage.
    apply keeps_bind.
    { destruct (Database.data_id data) as [i|]; [destruct (truthy i)|];
        first [apply keeps_ret | apply keeps_uuidv4]. }
    intros id. apply keeps_bind; [apply keeps_Date_now|]. intros now.
    apply keeps_bind; [apply keeps_write; intros t t'; apply schema_insert_message|].
    intros _. apply keeps_bind; [|intros; apply keeps_ret].
    apply keeps_write. intros t t' H [= <-].
    apply schema_sessions_mapped; [|exact H].
    intros s. unfold touch_session. by case_bool_decide. }
  assert (Hmark : ∀ ids, keeps_schema (Database.markMessagesSummarized ids)).
  { intros ids. unfold Database.markMessagesSummarized.
    case_bool_decide; [apply keeps_ret|].
    apply keeps_write. intros t t'. apply schema_mark_summarized. }
  assert (HcreateSummary : ∀ data,
            keeps_schema (Database.createSummary sessionId data)).
  { intros data. unfold Database.createSummary.
    apply keeps_bind; [apply keeps_uuidv4|]. intros id.
    apply keeps_bind; [apply keeps_Date_now|]. intros now.
    apply keeps_bind; [apply keeps_write; intros t t'; apply schema_insert_summary|].
    intros _. apply keeps_bind; [|intros; apply keeps_ret].
    apply keeps_write. intros t t' H [= <-].
    apply schema_sessions_mapped; [|exact H].
    intros s. unfold repoint_session. by case_bool_decide. }
  assert (Hcreated : ∀ t, keeps_schema (FileStorage.createdAt_or_now t)).
  { intros [t|]; unfold FileStorage.createdAt_or_now;
      [destruct (t =? 0)|]; first [apply keeps_ret | apply keeps_Date_now]. }
  assert (Hadd : ∀ role content metadata,
            keeps_schema (SessionService.addMessage sessionId role content metadata)).
  { intros role content metadata. unfold SessionService.addMessage.
    apply keeps_bind; [apply keeps_uuidv4|]. intros id.
    apply keeps_bind; [apply keeps_Date_now|]. intros now.
    apply keeps_bind.
    { unfold FileStorage.saveMessage.
      apply keeps_bind; [apply keeps_ret|]. intros _.
      apply keeps_bind; [apply Hcreated|]. intros created.
      apply keeps_bind; [apply keeps_fs_write | intros; apply keeps_ret]. }
    intros filePath.
    apply keeps_bind; [apply HcreateMessage | intros; apply keeps_ret]. }
  assert (Hprevious : ∀ cur : option SummaryRow, keeps_schema
            match cur with
            | Some cur =>
                summaryContent ← FileStorage.getSummary sessionId (sum_id cur);
                mret (sf_summary <$> summaryContent)
            | None => mret None
            end).
  { intros [cur|]; [|apply keeps_ret].
    apply keeps_bind; [apply keeps_fs_read | intros; apply keeps_ret]. }
  assert (Hsummary : keeps_schema
            (SummarizerService.generateSummary config sessionId)).
  { unfold SummarizerService.generateSummary.
    apply keeps_bind; [apply keeps_read|]. intros cur.
    apply keeps_bind; [apply Hprevious|]. intros text.
    apply keeps_bind; [apply keeps_read|]. intros msgs.
    case_bool_decide; [apply keeps_ret|].
    apply keeps_bind.
    { apply keeps_mapM. intros m. unfold SummarizerService.loadMessage.
      apply keeps_bind; [apply keeps_fs_read|].
      intros [c|]; [apply keeps_ret | apply keeps_throw]. }
    intros contents. apply keeps_bind; [apply keeps_backend|]. intros response.
    apply keeps_bind.
    { destruct (choices response); [apply keeps_throw | apply keeps_ret]. }
    intros text'. apply keeps_bind.
    { destruct (last msgs); [apply keeps_ret | apply keeps_throw]. }
    intros lastId. apply keeps_bind; [apply keeps_Date_now|]. intros created.
    apply keeps_bind; [apply keeps_uuidv4|]. intros summaryId.
    apply keeps_bind.
    { unfold FileStorage.saveSummary.
      apply keeps_bind; [apply keeps_ret|]. intros _.
      apply keeps_bind; [apply Hcreated|]. intros created'.
      apply keeps_bind; [apply keeps_fs_write | intros; apply keeps_ret]. }
    intros filePath. apply keeps_bind; [apply HcreateSummary|]. intros _.
    apply keeps_bind; [apply Hmark | intros; apply keeps_ret]. }
  assert (Hassemble : keeps_schema (SummarizerService.assembleContext sessionId)).
  { intros E w H. destruct (assembleContext_run sessionId E w) as (ctx & -> & _).
    exact H. }
  assert (Hcontext : keeps_schema
            (SummarizerService.getSessionContext config sessionId)).
  { unfold SummarizerService.getSessionContext.
    apply keeps_bind.
    { unfold SummarizerService.checkSummarizationNeeded.
      apply keeps_bind; [apply keeps_read|].
      intros [session|]; [|apply keeps_ret].
      apply keeps_bind; [apply keeps_Date_now|]. intros now.
      destruct (Qle_bool _ _); [apply keeps_ret|].
      apply keeps_bind; [apply keeps_read|]. intros count.
      destruct (count <? _); apply keeps_ret. }
    intros check. apply keeps_bind; [|intros; exact Hassemble].
    destruct (SummarizerService.needsSummary check); [|apply keeps_ret].
    apply keeps_bind; [exact Hsummary | intros; apply keeps_ret]. }
  assert (Hlist : ∀ limit beforeId,
            keeps_schema (SessionService.getMessages sessionId limit beforeId)).
  { intros limit beforeId. unfold SessionService.getMessages.
    apply keeps_bind.
    { unfold Database.getMessages.
      apply keeps_bind; [apply keeps_read | intros; apply keeps_ret]. }
    intros refs. apply keeps_mapM. intros ref.
    unfold SessionService.loadMessage.
    apply keeps_bind; [apply keeps_fs_read | intros; apply keeps_ret]. }
  split; [exact HcreateSession|]. split; [apply Hupdate|].
  split; [exact Hdelete|]. split; [exact HcreateMessage|].
  split; [exact Hmark|]. split; [exact HcreateSummary|].
  split; [exact Hadd|]. split.
  { unfold SessionService.deleteSession.
    apply keeps_bind; [apply keeps_fs_write | intros; exact Hdelete]. }
  split.
  { unfold SessionService.generateTitle.
    apply keeps_bind; [apply Hlist|]. intros msgs.
    case_bool_decide; [apply keeps_ret|].
    destruct (head _) as [first|]; [|apply keeps_ret].
    apply keeps_try_catch; [|intros; apply keeps_ret].
    apply keeps_bind; [apply keeps_backend|]. intros response.
    apply keeps_bind.
    { destruct (choices response); [apply keeps_throw | apply keeps_ret]. }
    intros raw. apply keeps_bind; [apply Hupdate | intros; apply keeps_ret]. }
  split; [exact Hsummary|]. split; [exact Hcontext|].
  intros message. unfold chat_session_context.
  apply keeps_bind; [apply Hadd|]. intros _.
  unfold SessionService.getContextForApiCall.
  apply keeps_bind; [exact Hcontext | intros; apply keeps_ret].
Qed.

Lemma schema_is_kept_witness :
  let E := sample_env 1000 (λ _, sample_reply) in
  let w := sample_world 2 false in
  schema_holds (tables w)
  ∧ schema_holds (tables (chat_session_context dbConfig_session "s" "hi there" E w).2).
Proof.
  intros E w.
  assert (Hschema : schema_holds (tables w)) by (apply sample_schema_holds; lia).
  split; [exact Hschema|].
  destruct (schema_is_kept dbConfig_session "s")
    as (_ & _ & _ & _ & _ & _ & _ & _ & _ & _ & _ & Hchat).
  exact (Hchat "hi there" E w Hschema).
Defined.

(** ** The chat path: append, then build the context *)

(** What a successful [addMessage] leaves behind: the document under the
    new id, the row appended by the INSERT, the session touched at the
    time [clock E n] of the row, and the clock read once more since. *)
Lemma addMessage_Ok_inv sessionId role content metadata E w added w1 :
  fresh_uuid E (uuids w) ≠ "" →
  SessionService.addMessage sessionId role content metadata E w = (Ok added, w1) →
  let id := fresh_uuid E (uuids w) in
  ∃ file n t1,
    added = SessionService.mkAddedMessage id role content (estimate_tokens content)
    ∧ mf_role file = role ∧ mf_content file = content
    ∧ files w1 = FileStorage.write_message_file sessionId id file (files w)
    ∧ insert_message id sessionId role
        (FileStorage.getRelativePath (MessagePath sessionId id))
        (estimate_tokens content) (clock E n) (tables w) = Ok t1
    ∧ update_session_activity (clock E n) sessionId t1 = Ok (tables w1)
    ∧ ticks w1 = S n
    ∧ calls w1 = calls w.
Proof.
  intros Hid Hrun id. apply truthy_nonempty in Hid. fold id in Hid.
  revert Hrun. unfold SessionService.addMessage.
  erewrite bind_Ok; [|reflexivity]. fold id. world_fields.
  erewrite bind_Ok; [|reflexivity]. world_fields.
  match goal with
  | |- context [(FileStorage.saveMessage ?s ?i ?d ≫= _) _ ?w0] =>
      destruct (saveMessage_run s i d _ E w0 eq_refl)
        as (file & n & Hsave & Hrole & Hcontent)
  end.
  cbn [FileStorage.data_role FileStorage.data_content] in Hrole, Hcontent.
  step_with Hsave.
  match goal with
  | |- context [(Database.createMessage ?s
                   (Database.mkMessageData (Some ?i) ?r ?p ?t) ≫= _) _ ?w0] =>
      pose proof (createMessage_run s i r p t E w0 Hid) as Hcreate
  end.
  cbv zeta in Hcreate. cbn [tables files ticks uuids calls journal] in Hcreate.
  match type of Hcreate with
  | match ?ins with _ => _ end => destruct ins as [t1|e] eqn:Hins
  end.
  - destruct Hcreate as (t2 & ref & Hupd & Hcreate).
    erewrite bind_Ok; [|exact Hcreate].
    intros [= <- <-]. exists file, n, t1. world_fields.
    repeat split; assumption.
  - erewrite bind_Throw; [|exact Hcreate]. discriminate.
Qed.

(** Right after an append the session counts as active: the check reads
    the clock one tick after the row was stamped. *)
Lemma check_after_append config sessionId role content metadata E w added w1 :
  fresh_uuid E (uuids w) ≠ "" →
  (∀ k, clock E (S k) - clock E k ≤ cacheExpiryMinutes config * 60 * 1000) →
  SessionService.addMessage sessionId role content metadata E w = (Ok added, w1) →
  SummarizerService.checkSummarizationNeeded config sessionId E w1
  = (Ok (SummarizerService.mkNeeded false "cache_still_valid" None None),
     mkWorld (tables w1) (files w1) (S (ticks w1)) (uuids w1) (calls w1)
             (journal w1)).
Proof.
  intros Hid Hclock Hadd.

  destruct (addMessage_Ok_inv _ _ _ _ _ _ _ _ Hid Hadd)
    as (file & n & t1 & _ & _ & _ & _ & Hins & Hupd & Hticks & _).
  injection Hupd as Hupd.
  assert (Hsess : sessionId ∈ sess_id <$> sessions t1).
  { revert Hins. unfold insert_message.
    destruct (negb _); [discriminate|].
    case_bool_decide; [discriminate|].
    case_bool_decide; [|discriminate]. by intros [= <-]. }
  assert (Hsessions : sessions (tables w1)
                      = touch_session (clock E n) sessionId <$> sessions t1)
    by (rewrite <- Hupd; reflexivity).
  unfold SummarizerService.checkSummarizationNeeded.
  erewrite bind_Ok; [|reflexivity]. unfold select_session.
  rewrite Hsessions.
  assert (Hhead : ∃ s, head (filter (λ s, sess_id s = sessionId)
                               (touch_session (clock E n) sessionId <$> sessions t1))
                       = Some s
                       ∧ sess_last_activity_at s = clock E n).
  { apply list_elem_of_fmap in Hsess as (s0 & Hs0 & Hin).
    assert (Hall : ∀ s, s ∈ filter (λ s, sess_id s = sessionId)
                            (touch_session (clock E n) sessionId <$> sessions t1) →
                        sess_last_activity_at s = clock E n).
    { intros s Hs. apply list_elem_of_filter in Hs as [Hsid Hs].
      apply list_elem_of_fmap in Hs as (s1 & -> & _).
      revert Hsid. unfold touch_session.
      case_bool_decide; [reflexivity | contradiction]. }
    destruct (filter _ _) as [|s l] eqn:Hf.
    - exfalso. eapply (elem_of_nil (touch_session (clock E n) sessionId s0)).
      rewrite <- Hf. apply list_elem_of_filter. split.
      + unfold touch_session. by case_bool_decide.
      + by apply list_elem_of_fmap_2.
    - exists s. split; [reflexivity|]. apply Hall. left. }
  destruct Hhead as (s & -> & Hlast).
  erewrite bind_Ok; [|reflexivity]. world_fields.
  rewrite Hlast, Hticks.
  assert (Hq : Qle_bool ((clock E (S n) - clock E n) # 1000 * 60)
                        (inject_Z (cacheExpiryMinutes config)) = true).
  { unfold Qle_bool. cbn [Qnum Qden inject_Z]. apply Z.leb_le.
    change (Z.pos (1000 * 60)) with 60000. specialize (Hclock n). lia. }
  rewrite Hq. reflexivity.
Qed.

(** X8. On the chat path the user message is appended before the context
    is built, and appending touches the session.  So as long as the clock
    does not advance by more than the expiry window between two
    consecutive readings, building the context there never summarizes,
    however long the session had been idle and however many replies are
    unsummarized: no summary row is added, the backend is not called and
    no message is marked. *)
Theorem chat_path_never_summarizes config sessionId message E w :
  fresh_uuid E (uuids w) ≠ "" →
  (∀ k, clock E (S k) - clock E k ≤ cacheExpiryMinutes config * 60 * 1000) →
  ∃ result w',
    chat_session_context config sessionId message E w = (result, w')
    ∧ summaries (tables w') = summaries (tables w)
    ∧ calls w' = calls w
    ∧ (∀ m, m ∈ messages (tables w) → m ∈ messages (tables w'))
    ∧ (∀ added w1,
         SessionService.addMessage sessionId "user" message
           (SessionService.mkMetadata None None None) E w = (Ok added, w1) →
         ∃ check w2,
           SummarizerService.checkSummarizationNeeded config sessionId E w1
             = (Ok check, w2)
           ∧ SummarizerService.needsSummary check = false
           ∧ SummarizerService.reason check = "cache_still_valid").
Proof.
  intros Hid Hclock.
  assert (Hcheck : ∀ added w1,
    SessionService.addMessage sessionId "user" message
      (SessionService.mkMetadata None None None) E w = (Ok added, w1) →
    SummarizerService.checkSummarizationNeeded config sessionId E w1
    = (Ok (SummarizerService.mkNeeded false "cache_still_valid" None None),
       mkWorld (tables w1) (files w1) (S (ticks w1)) (uuids w1) (calls w1)
               (journal w1))).
  { intros added w1 Hadd. exact (check_after_append _ _ _ _ _ _ _ _ _ Hid Hclock Hadd). }
  destruct (SessionService.addMessage sessionId "user" message
              (SessionService.mkMetadata None None None) E w)
    as [[added|e] w1] eqn:Hadd.
  - specialize (Hcheck added w1 eq_refl).
    destruct (addMessage_Ok_inv _ _ _ _ _ _ _ _ Hid Hadd)
      as (file & n & t1 & _ & _ & _ & _ & Hins & Hupd & _ & Hcalls).
    destruct (assembleContext_run sessionId E
                (mkWorld (tables w1) (files w1) (S (ticks w1)) (uuids w1) (calls w1)
                         (journal w1))) as (ctx & Hctx & _).
    eexists _, _. split.
    { unfold chat_session_context. erewrite bind_Ok; [|exact Hadd].
      unfold SessionService.getContextForApiCall.
      erewrite bind_Ok; [reflexivity|].
      rewrite (getSessionContext_run _ _ _ _ _ _ Hcheck). exact Hctx. }
    world_fields. injection Hupd as Hupd. rewrite <- Hupd. cbn [summaries messages].
    revert Hins. unfold insert_message.
    destruct (negb _); [discriminate|].
    case_bool_decide; [discriminate|].
    case_bool_decide; [|discriminate]. intros [= <-]. cbn [summaries messages].
    split; [reflexivity|]. split; [exact Hcalls|].
    split; [intros m Hm; apply elem_of_app; by left|].
    intros added' w1' [= <- <-]. eexists _, _. split; [exact Hcheck|]. by split.
  - eexists _, _. split.
    { unfold chat_session_context. erewrite bind_Throw; [reflexivity|exact Hadd]. }
    assert (Hsame : tables w1 = tables w ∧ calls w1 = calls w).
    { revert Hadd. unfold SessionService.addMessage.
      erewrite bind_Ok; [|reflexivity]. world_fields.
      erewrite bind_Ok; [|reflexivity]. world_fields.
      match goal with
      | |- context [(FileStorage.saveMessage ?s ?i ?d ≫= _) _ ?w0] =>
          destruct (saveMessage_run s i d _ E w0 eq_refl)
            as (file & n & Hsave & _ & _)
      end.
      step_with Hsave.
      match goal with
      | |- context [(Database.createMessage ?s
                       (Database.mkMessageData (Some ?i) ?r ?p ?t) ≫= _) _ ?w0] =>
          pose proof (createMessage_run s i r p t E w0
                        (truthy_nonempty _ Hid)) as Hcreate
      end.
      cbv zeta in Hcreate. cbn [tables files ticks uuids calls journal] in Hcreate.
      match type of Hcreate with
      | match ?ins with _ => _ end => destruct ins as [t1|e'] eqn:Hins
      end.
      - destruct Hcreate as (t2 & ref & Hupd & Hcreate).
        erewrite bind_Ok; [|exact Hcreate]. discriminate.
      - erewrite bind_Throw; [|exact Hcreate]. intros [= _ <-]. by split. }
    destruct Hsame as [-> ->]. split; [reflexivity|]. split; [reflexivity|].
    split; [by intros m Hm|]. intros added' w1' Hbad. discriminate Hbad.
Qed.

Lemma chat_path_never_summarizes_witness :
  let E := sample_env (6 * 60 * 1000) (λ _, sample_reply) in
  let w := sample_world 5 false in
  fresh_uuid E (uuids w) ≠ ""
  ∧ (∀ k, clock E (S k) - clock E k ≤ cacheExpiryMinutes dbConfig_session * 60 * 1000)
  ∧ (SummarizerService.checkSummarizationNeeded dbConfig_session "s" E w).1
    = Ok (SummarizerService.mkNeeded true "cache_expired_and_threshold_met"
            (Some (360000 # 60000)) (Some 5))
  ∧ ∃ result w',
      chat_session_context dbConfig_session "s" "hi there" E w = (result, w')
      ∧ summaries (tables w') = summaries (tables w)
      ∧ calls w' = calls w.
Proof.
  intros E w.
  assert (Hid : fresh_uuid E (uuids w) ≠ "") by discriminate.
  assert (Hclock : ∀ k, clock E (S k) - clock E k
                        ≤ cacheExpiryMinutes dbConfig_session * 60 * 1000).
  { intros k. cbn. lia. }
  split; [exact Hid|]. split; [exact Hclock|].
  split; [vm_compute; reflexivity|].
  destruct (chat_path_never_summarizes dbConfig_session "s" "hi there" E w Hid Hclock)
    as (result & w' & Hrun & Hsum & Hcalls & _).
  exists result, w'. split; [exact Hrun|]. split; [exact Hsum | exact Hcalls].
Defined.

(** X9. On the chat path, under the same conditions, the message just
    appended is part of the context that is handed on, with the role
    [user] and the content as given. *)
Theorem appended_message_reaches_context config sessionId message E w api w' :
  fresh_uuid E (uuids w) ≠ "" →
  (∀ k, clock E (S k) - clock E k ≤ cacheExpiryMinutes config * 60 * 1000) →
  chat_session_context config sessionId message E w = (Ok api, w') →
  mkChatMessage "user" message ∈ SessionService.api_messages api
  ∧ 1 ≤ SessionService.api_activeMessageCount api.
Proof.
  intros Hid Hclock. unfold chat_session_context. rewrite bind_run.
  destruct (SessionService.addMessage sessionId "user" message
              (SessionService.mkMetadata None None None) E w)
    as [[added|e] w1] eqn:Hadd; [|discriminate].
  pose proof (check_after_append _ _ _ _ _ _ _ _ _ Hid Hclock Hadd) as Hcheck.
  destruct (addMessage_Ok_inv _ _ _ _ _ _ _ _ Hid Hadd)
    as (file & n & t1 & _ & Hrole & Hcontent & Hfiles & Hins & Hupd & _ & _).
  set (w2 := mkWorld (tables w1) (files w1) (S (ticks w1)) (uuids w1) (calls w1)
                     (journal w1)) in *.
  destruct (assembleContext_run sessionId E w2) as (ctx & Hctx & Hmsgs & Hcount).
  unfold SessionService.getContextForApiCall.
  erewrite bind_Ok; last first.
  { rewrite (getSessionContext_run _ _ _ _ _ _ Hcheck). exact Hctx. }
  intros [= <- <-]. cbn [SessionService.api_messages SessionService.api_activeMessageCount].
  set (row := mkMessageRow (fresh_uuid E (uuids w)) sessionId "user"
                (FileStorage.getRelativePath
                   (MessagePath sessionId (fresh_uuid E (uuids w))))
                (estimate_tokens message) false (clock E n)).
  assert (Hrow : row ∈ select_unsummarized sessionId (tables w1)).
  { apply elem_of_select_unsummarized. split; [|by split].
    injection Hupd as <-. cbn [messages]. revert Hins. unfold insert_message.
    destruct (negb _); [discriminate|].
    case_bool_decide; [discriminate|].
    case_bool_decide; [|discriminate]. intros [= <-]. cbn [messages].
    apply elem_of_app. right. left. }
  assert (Hentry : active_entry sessionId (files w1) row
                   = Some (mkChatMessage "user" message)).
  { unfold active_entry. rewrite Hfiles. unfold FileStorage.write_message_file.
    cbn [message_files msg_id row]. rewrite lookup_insert_eq. cbn.
    by rewrite Hrole, Hcontent. }
  assert (Hin : mkChatMessage "user" message ∈ SummarizerService.ctx_messages ctx).
  { rewrite Hmsgs. apply list_elem_of_omap. exists row. split; assumption. }
  split.
  - apply elem_of_app. right. apply list_elem_of_fmap.
    exists (mkChatMessage "user" message). split; [reflexivity | exact Hin].
  - rewrite Hcount. destruct (SummarizerService.ctx_messages ctx);
      [by apply elem_of_nil in Hin | cbn [length]; lia].
Qed.

Lemma appended_message_reaches_context_witness :
  let E := sample_env (6 * 60 * 1000) (λ _, sample_reply) in
  let w := sample_world 2 false in
  fresh_uuid E (uuids w) ≠ ""
  ∧ (∀ k, clock E (S k) - clock E k ≤ cacheExpiryMinutes dbConfig_session * 60 * 1000)
  ∧ ∃ api w',
      chat_session_context dbConfig_session "s" "hi there" E w = (Ok api, w')
      ∧ mkChatMessage "user" "hi there" ∈ SessionService.api_messages api
      ∧ SessionService.api_activeMessageCount api = 3.
Proof.
  intros E w.
  assert (Hid : fresh_uuid E (uuids w) ≠ "") by discriminate.
  assert (Hclock : ∀ k, clock E (S k) - clock E k
                        ≤ cacheExpiryMinutes dbConfig_session * 60 * 1000).
  { intros k. cbn. lia. }
  split; [exact Hid|]. split; [exact Hclock|].
  assert (Hrun : ∃ api w',
    chat_session_context dbConfig_session "s" "hi there" E w = (Ok api, w')
    ∧ SessionService.api_activeMessageCount api = 3).
  { vm_compute. do 2 eexists. split; reflexivity. }
  destruct Hrun as (api & w' & Hrun & Hcount).
  exists api, w'. split; [exact Hrun|]. split; [|exact Hcount].
  exact (proj1 (appended_message_reaches_context dbConfig_session "s" "hi there"
                  E w api w' Hid Hclock Hrun)).
Defined.

(** ** Summaries: create, find, cover *)

Lemma head_constant {A} (x : A) (l : list A) :
  l ≠ [] → (∀ y, y ∈ l → y = x) → head l = Some x.
Proof.
  destruct l as [|y l]; [done|]. intros _ Hall. cbn. f_equal. apply Hall. left.
Qed.

(** The join behind [getCurrentSummary], once a fresh row has been
    appended and the session repointed to it. *)
Lemma select_current_summary_new sessionId now row sess msgs sums :
  sum_id row ∉ sum_id <$> sums →
  sessionId ∈ sess_id <$> sess →
  head (select_current_summary sessionId
          (mkTables (repoint_session (sum_id row) now sessionId <$> sess) msgs
                    (sums ++ [row])))
  = Some row.
Proof.
  intros Hfresh Hsess. apply head_constant.
  - apply list_elem_of_fmap in Hsess as (s0 & Hid & Hin).
    intros Hnil.
    eapply (elem_of_nil row). rewrite <- Hnil.
    unfold select_current_summary. cbn [sessions summaries].
    apply list_elem_of_bind. exists row. split; [|apply elem_of_app; right; left].
    apply list_elem_of_bind. exists (repoint_session (sum_id row) now sessionId s0).
    split; [|by apply list_elem_of_fmap_2].
    unfold repoint_session. rewrite (bool_decide_eq_true_2 _ (eq_sym Hid)).
    cbn [sess_current_summary_id sess_id].
    rewrite bool_decide_eq_true_2 by (by split). left.
  - intros y Hy. unfold select_current_summary in Hy. cbn [sessions summaries] in Hy.
    apply list_elem_of_bind in Hy as (s & Hy & Hs).
    apply list_elem_of_bind in Hy as (ss & Hy & Hss).
    case_bool_decide as Hcond; [|by apply elem_of_nil in Hy].
    apply list_elem_of_singleton in Hy as ->.
    destruct Hcond as [Hcur Hid].
    apply elem_of_app in Hs as [Hs|Hs]; [|by apply list_elem_of_singleton in Hs].
    exfalso. apply Hfresh.
    apply list_elem_of_fmap in Hss as (s1 & -> & _).
    revert Hcur Hid. unfold repoint_session.
    case_bool_decide; cbn [sess_current_summary_id sess_id]; [|contradiction].
    intros [= ->] _. by apply list_elem_of_fmap_2.
Qed.

(** X10. A summary row created for an existing session under an id that
    is not in use is the row that [getCurrentSummary] returns for this
    session afterwards, with the path, token count and covered message as
    given; the earlier current summary stays in the table. *)
Theorem created_summary_is_current sessionId data E w :
  fresh_uuid E (uuids w) ∉ sum_id <$> summaries (tables w) →
  sessionId ∈ sess_id <$> sessions (tables w) →
  let row := mkSummaryRow (fresh_uuid E (uuids w)) sessionId
               (Database.data_summary_filePath data)
               (Database.data_summary_tokens data)
               (Database.data_coversUntilMessageId data) (clock E (ticks w)) in
  ∃ ref w',
    Database.createSummary sessionId data E w = (Ok ref, w')
    ∧ Database.sref_id ref = sum_id row
    ∧ Database.getCurrentSummary sessionId E w' = (Ok (Some row), w')
    ∧ summaries (tables w') = summaries (tables w) ++ [row]
    ∧ messages (tables w') = messages (tables w).
Proof.
  intros Hfresh Hsess row.
  destruct (createSummary_run sessionId data E w _
              (insert_summary_Ok _ _ _ _ _ _ _ Hfresh Hsess))
    as (t2 & ref & Hupd & Hrun).
  injection Hupd as <-.
  exists ref. eexists. split; [exact Hrun|]. world_fields.
  split.
  { revert Hrun. unfold Database.createSummary. step. step.
    erewrite bind_Ok; last first.
    { unfold pool_query_write. world_fields.
      rewrite insert_summary_Ok by assumption. reflexivity. }
    step. by intros [= <-]. }
  split; [|by split].
  unfold Database.getCurrentSummary, pool_query_read. world_fields.
  cbn [sessions messages summaries].
  change (fresh_uuid E (uuids w)) with (sum_id row) at 1.
  rewrite (select_current_summary_new sessionId (clock E (ticks w)) row)
    by assumption.
  reflexivity.
Qed.

Lemma created_summary_is_current_witness :
  let E := sample_env 1000 (λ _, sample_reply) in
  let w := sample_world 2 false in
  let data := Database.mkSummaryData "s/summaries/x.json" 42 (Some "m1") in
  (fresh_uuid E (uuids w) ∉ sum_id <$> summaries (tables w))
  ∧ ("s" ∈ sess_id <$> sessions (tables w))
  ∧ ∃ ref w',
      Database.createSummary "s" data E w = (Ok ref, w')
      ∧ Database.getCurrentSummary "s" E w'
        = (Ok (Some (mkSummaryRow "uuid-0" "s" "s/summaries/x.json" 42
                       (Some "m1") 1000)), w').
Proof.
  intros E w data.
  assert (Hfresh : fresh_uuid E (uuids w) ∉ sum_id <$> summaries (tables w)).
  { apply (bool_decide_unpack _). vm_compute. exact I. }
  assert (Hsess : "s" ∈ sess_id <$> sessions (tables w)).
  { apply (bool_decide_unpack _). vm_compute. exact I. }
  split; [exact Hfresh|]. split; [exact Hsess|].
  destruct (created_summary_is_current "s" data E w Hfresh Hsess)
    as (ref & w' & Hrun & _ & Hcur & _).
  exists ref, w'. split; [exact Hrun | exact Hcur].
Defined.

Lemma assembleContext_full sessionId E w :
  ∃ ctx,
    SummarizerService.assembleContext sessionId E w = (Ok ctx, w)
    ∧ SummarizerService.ctx_summary ctx
      = (head (select_current_summary sessionId (tables w))
           ≫= λ cur, sf_summary <$> summary_files (files w) !! (sessionId, sum_id cur))
    ∧ SummarizerService.ctx_hasSummary ctx
      = match SummarizerService.ctx_summary ctx with
        | Some s => truthy s
        | None => false
        end
    ∧ SummarizerService.ctx_messages ctx
      = omap (active_entry sessionId (files w))
             (select_unsummarized sessionId (tables w))
    ∧ SummarizerService.ctx_activeMessageCount ctx
      = Z.of_nat (length (SummarizerService.ctx_messages ctx)).
Proof.
  eexists. split.
  - unfold SummarizerService.assembleContext. step.
    erewrite bind_Ok; last first.
    { instantiate (1 := w).
      instantiate (1 := head (select_current_summary sessionId (tables w))
           ≫= λ cur, sf_summary <$> summary_files (files w) !! (sessionId, sum_id cur)).
      destruct (head (select_current_summary sessionId (tables w))); reflexivity. }
    step. erewrite bind_Ok; [|apply mapM_loadActive_run]. reflexivity.
  - cbn. rewrite omap_id_fmap. repeat split.
Qed.

Lemma count_meaningful_nothing sessionId t :
  select_unsummarized sessionId t = [] → count_meaningful sessionId t = 0.
Proof.
  intros Hnone. unfold count_meaningful.
  match goal with
  | |- context [filter ?P ?l] => assert (Hnil : filter P l = [])
  end; [|by rewrite Hnil].
  apply elem_of_nil_inv. intros m Hm.
  apply list_elem_of_filter in Hm as [(Hs & _ & Hflag) Hin].
  eapply (elem_of_nil m). rewrite <- Hnone.
  apply elem_of_select_unsummarized. done.
Qed.

Lemma check_with_nothing_unsummarized config sessionId E w :
  0 < meaningfulMessageThreshold config →
  select_unsummarized sessionId (tables w) = [] →
  ∃ check w2,
    SummarizerService.checkSummarizationNeeded config sessionId E w = (Ok check, w2)
    ∧ SummarizerService.needsSummary check = false.
Proof.
  intros Hthreshold Hnone. unfold SummarizerService.checkSummarizationNeeded.
  rewrite bind_run. unfold Database.getSession at 1, pool_query_read at 1.
  destruct (head (select_session sessionId (tables w))) as [session|];
    [|by eexists _, _].
  rewrite bind_run. unfold Date_now at 1.
  destruct (Qle_bool _ _); [by eexists _, _|].
  rewrite bind_run. unfold Database.countMeaningfulMessages, pool_query_read.
  world_fields. rewrite (count_meaningful_nothing _ _ Hnone).
  rewrite (proj2 (Z.ltb_lt 0 _) Hthreshold). by eexists _, _.
Qed.

(** X11. A summarization run that succeeds leaves nothing to summarize:
    whatever the clock says afterwards, the check answers that no summary
    is needed, and the context built next has no active message. *)
Theorem summarized_session_starts_empty config sessionId E w resp c cs lastm :
  let batch := select_unsummarized sessionId (tables w) in
  last batch = Some lastm →
  (∀ m, m ∈ batch → is_Some (message_files (files w) !! (sessionId, msg_id m))) →
  (∀ r, backend E (length (calls w)) r = Ok resp) →
  choices resp = c :: cs →
  fresh_uuid E (S (uuids w)) ∉ sum_id <$> summaries (tables w) →
  sessionId ∈ sess_id <$> sessions (tables w) →
  0 < meaningfulMessageThreshold config →
  ∃ result w',
    SummarizerService.generateSummary config sessionId E w = (Ok (Some result), w')
    ∧ SummarizerService.res_coveredMessages result = Z.of_nat (length batch)
    ∧ (∀ E2, ∃ check w2,
         SummarizerService.checkSummarizationNeeded config sessionId E2 w'
           = (Ok check, w2)
         ∧ SummarizerService.needsSummary check = false)
    ∧ ∃ ctx,
        SummarizerService.assembleContext sessionId E w' = (Ok ctx, w')
        ∧ SummarizerService.ctx_messages ctx = []
        ∧ SummarizerService.ctx_activeMessageCount ctx = 0.
Proof.
  intros batch Hlast Hfiles Hback Hchoices Hfresh Hsess Hthreshold.
  destruct (generateSummary_success config sessionId E w resp c cs lastm
              Hlast Hfiles Hback Hchoices Hfresh Hsess)
    as (file & now & t1 & t2 & t3 & w' & req & _ & _ & Hrun & Hins
        & Hupd & Hmark & Htab & _).
  rewrite insert_summary_Ok in Hins by assumption.
  injection Hins as <-. injection Hupd as <-. injection Hmark as <-.
  cbn [sessions messages summaries] in Htab.
  assert (Hnone : select_unsummarized sessionId (tables w') = []).
  { rewrite Htab. apply select_unsummarized_marked. }
  eexists _, w'. split; [exact Hrun|]. split; [reflexivity|]. split.
  - intros E2. by apply check_with_nothing_unsummarized.
  - destruct (assembleContext_full sessionId E w')
      as (ctx & Hctx & _ & _ & Hmsgs & Hcount).
    exists ctx. split; [exact Hctx|]. rewrite Hnone in Hmsgs.
    split; [exact Hmsgs|]. rewrite Hcount, Hmsgs. reflexivity.
Qed.

Lemma sample_files_stored n flag :
  (n ≤ 10)%nat →
  ∀ m, m ∈ select_unsummarized "s" (tables (sample_world n flag)) →
       is_Some (message_files (files (sample_world n flag)) !! ("s", msg_id m)).
Proof.
  intros Hn. apply Forall_forall.
  do 11 (destruct n as [|n];
    [destruct flag; apply (bool_decide_unpack _); vm_compute; exact I|]).
  lia.
Qed.

Lemma summarized_session_starts_empty_witness :
  let E := sample_env (6 * 60 * 1000) (λ _, sample_reply) in
  let w := sample_world 2 false in
  let batch := select_unsummarized "s" (tables w) in
  last batch = Some (sample_row "assistant" false 1)
  ∧ Forall (λ m, is_Some (message_files (files w) !! ("s", msg_id m))) batch
  ∧ (fresh_uuid E (S (uuids w)) ∉ sum_id <$> summaries (tables w))
  ∧ ("s" ∈ sess_id <$> sessions (tables w))
  ∧ 0 < meaningfulMessageThreshold dbConfig_session
  ∧ ∃ result w',
      SummarizerService.generateSummary dbConfig_session "s" E w
      = (Ok (Some result), w')
      ∧ SummarizerService.res_coveredMessages result = 2
      ∧ ∃ ctx, SummarizerService.assembleContext "s" E w' = (Ok ctx, w')
               ∧ SummarizerService.ctx_messages ctx = [].
Proof.
  intros E w batch.
  assert (Hlast : last batch = Some (sample_row "assistant" false 1))
    by (vm_compute; reflexivity).
  assert (Hfiles : ∀ m, m ∈ batch →
            is_Some (message_files (files w) !! ("s", msg_id m)))
    by (apply sample_files_stored; lia).
  assert (Hfresh : fresh_uuid E (S (uuids w)) ∉ sum_id <$> summaries (tables w)).
  { apply (bool_decide_unpack _). vm_compute. exact I. }
  assert (Hsess : "s" ∈ sess_id <$> sessions (tables w)).
  { apply (bool_decide_unpack _). vm_compute. exact I. }
  assert (Hthreshold : 0 < meaningfulMessageThreshold dbConfig_session)
    by (cbn; lia).
  split; [exact Hlast|]. split; [apply Forall_forall; exact Hfiles|].
  split; [exact Hfresh|]. split; [exact Hsess|]. split; [exact Hthreshold|].
  destruct (summarized_session_starts_empty dbConfig_session "s" E w
              (mkResponse ["The user greeted the assistant."] (Some 42))
              "The user greeted the assistant." [] (sample_row "assistant" false 1)
              Hlast Hfiles (λ _, eq_refl) eq_refl Hfresh Hsess Hthreshold)
    as (result & w' & Hrun & Hcov & _ & ctx & Hctx & Hmsgs & _).
  exists result, w'. split; [exact Hrun|]. split; [exact Hcov|].
  exists ctx. split; [exact Hctx | exact Hmsgs].
Defined.

(** X12. The summary row and the summary document get different ids, and
    the context looks the document up under the id of the row.  So after
    a summarization that succeeds, with two distinct ids and no document
    already stored under the id of the row, the text is on file and the
    row is the current summary of the session, yet the context built next
    carries no summary. *)
Theorem summary_text_is_filed_under_another_id config sessionId E w resp c cs lastm :
  let batch := select_unsummarized sessionId (tables w) in
  let documentId := fresh_uuid E (uuids w) in
  let rowId := fresh_uuid E (S (uuids w)) in
  last batch = Some lastm →
  (∀ m, m ∈ batch → is_Some (message_files (files w) !! (sessionId, msg_id m))) →
  (∀ r, backend E (length (calls w)) r = Ok resp) →
  choices resp = c :: cs →
  rowId ∉ sum_id <$> summaries (tables w) →
  sessionId ∈ sess_id <$> sessions (tables w) →
  documentId ≠ rowId →
  summary_files (files w) !! (sessionId, rowId) = None →
  ∃ result w' file row ctx,
    SummarizerService.generateSummary config sessionId E w = (Ok (Some result), w')
    ∧ summary_files (files w') !! (sessionId, documentId) = Some file
    ∧ sf_summary file = c
    ∧ Database.getCurrentSummary sessionId E w' = (Ok (Some row), w')
    ∧ sum_id row = rowId
    ∧ sum_file_path row
      = FileStorage.getRelativePath (SummaryPath sessionId documentId)
    ∧ SummarizerService.assembleContext sessionId E w' = (Ok ctx, w')
    ∧ SummarizerService.ctx_summary ctx = None
    ∧ SummarizerService.ctx_hasSummary ctx = false.
Proof.
  intros batch documentId rowId Hlast Hfiles Hback Hchoices Hfresh Hsess Hdiff Hfree.
  destruct (generateSummary_success config sessionId E w resp c cs lastm
              Hlast Hfiles Hback Hchoices Hfresh Hsess)
    as (file & now & t1 & t2 & t3 & w' & req & Htext & _ & Hrun & Hins
        & Hupd & Hmark & Htab & Hfs & _).
  rewrite insert_summary_Ok in Hins by assumption.
  injection Hins as <-. injection Hupd as <-. injection Hmark as <-.
  cbn [sessions messages summaries] in Htab. cbv zeta in Hfs.
  fold documentId rowId in Htab, Hfs.
  set (row := mkSummaryRow rowId sessionId
                (FileStorage.getRelativePath (SummaryPath sessionId documentId))
                (default 0 (usage resp)) (Some (msg_id lastm)) now) in *.
  assert (Hcur : head (select_current_summary sessionId (tables w')) = Some row).
  { rewrite Htab.
    exact (select_current_summary_new sessionId now row _ _ _ Hfresh Hsess). }
  destruct (assembleContext_full sessionId E w')
    as (ctx & Hctx & Hsummary & Hhas & _).
  assert (Hnone : SummarizerService.ctx_summary ctx = None).
  { rewrite Hsummary, Hcur. cbn. rewrite Hfs.
    unfold FileStorage.write_summary_file. cbn [summary_files].
    rewrite lookup_insert_ne by congruence. by rewrite Hfree. }
  exists (SummarizerService.mkSummaryResult c (Z.of_nat (length batch))
            (default 0 (usage resp))), w', file, row, ctx.
  split; [exact Hrun|]. split.
  { rewrite Hfs. unfold FileStorage.write_summary_file. cbn [summary_files].
    apply lookup_insert_eq. }
  split; [exact Htext|]. split.
  { unfold Database.getCurrentSummary, pool_query_read. by rewrite Hcur. }
  split; [reflexivity|]. split; [reflexivity|]. split; [exact Hctx|].
  split; [exact Hnone|]. by rewrite Hhas, Hnone.
Qed.

Lemma summary_text_is_filed_under_another_id_witness :
  let E := sample_env (6 * 60 * 1000) (λ _, sample_reply) in
  let w := sample_world 2 false in
  let batch := select_unsummarized "s" (tables w) in
  last batch = Some (sample_row "assistant" false 1)
  ∧ Forall (λ m, is_Some (message_files (files w) !! ("s", msg_id m))) batch
  ∧ (fresh_uuid E (S (uuids w)) ∉ sum_id <$> summaries (tables w))
  ∧ ("s" ∈ sess_id <$> sessions (tables w))
  ∧ fresh_uuid E (uuids w) ≠ fresh_uuid E (S (uuids w))
  ∧ summary_files (files w) !! ("s", fresh_uuid E (S (uuids w))) = None
  ∧ ∃ result w' ctx,
      SummarizerService.generateSummary dbConfig_session "s" E w
      = (Ok (Some result), w')
      ∧ SummarizerService.assembleContext "s" E w' = (Ok ctx, w')
      ∧ SummarizerService.ctx_hasSummary ctx = false.
Proof.
  intros E w batch.
  assert (Hlast : last batch = Some (sample_row "assistant" false 1))
    by (vm_compute; reflexivity).
  assert (Hfiles : ∀ m, m ∈ batch →
            is_Some (message_files (files w) !! ("s", msg_id m)))
    by (apply sample_files_stored; lia).
  assert (Hfresh : fresh_uuid E (S (uuids w)) ∉ sum_id <$> summaries (tables w)).
  { apply (bool_decide_unpack _). vm_compute. exact I. }
  assert (Hsess : "s" ∈ sess_id <$> sessions (tables w)).
  { apply (bool_decide_unpack _). vm_compute. exact I. }
  assert (Hdiff : fresh_uuid E (uuids w) ≠ fresh_uuid E (S (uuids w)))
    by discriminate.
  assert (Hfree : summary_files (files w) !! ("s", fresh_uuid E (S (uuids w))) = None)
    by (vm_compute; reflexivity).
  split; [exact Hlast|]. split; [apply Forall_forall; exact Hfiles|].
  split; [exact Hfresh|]. split; [exact Hsess|].
  split; [exact Hdiff|]. split; [exact Hfree|].
  destruct (summary_text_is_filed_under_another_id dbConfig_session "s" E w
              (mkResponse ["The user greeted the assistant."] (Some 42))
              "The user greeted the assistant." [] (sample_row "assistant" false 1)
              Hlast Hfiles (λ _, eq_refl) eq_refl Hfresh Hsess Hdiff Hfree)
    as (result & w' & file & row & ctx & Hrun & _ & _ & _ & _ & _ & Hctx & _ & Hhas).
  exists result, w', ctx. split; [exact Hrun|]. split; [exact Hctx | exact Hhas].
Defined.

Lemma sorted_last_is_greatest {A} (R : relation A) (l : list A) x :
  StronglySorted R l → last l = Some x → ∀ y, y ∈ l → y = x ∨ R y x.
Proof.
  intros Hsorted Hlast y Hy.
  apply last_Some in Hlast as [l' ->].
  apply elem_of_app in Hy as [Hy|Hy].
  - right. apply (StronglySorted_app_1_elem_of _ _ _ _ _ Hsorted Hy). left.
  - left. by apply list_elem_of_singleton in Hy.
Qed.

(** X13. The batch of a summarization is in chronological order, and the
    message that the new summary row covers up to is its last one: no
    message of the batch was created after it.  The document lists the
    ids of the whole batch in that order. *)
Theorem summary_covers_up_to_newest config sessionId E w resp c cs lastm :
  let batch := select_unsummarized sessionId (tables w) in
  last batch = Some lastm →
  (∀ m, m ∈ batch → is_Some (message_files (files w) !! (sessionId, msg_id m))) →
  (∀ r, backend E (length (calls w)) r = Ok resp) →
  choices resp = c :: cs →
  fresh_uuid E (S (uuids w)) ∉ sum_id <$> summaries (tables w) →
  sessionId ∈ sess_id <$> sessions (tables w) →
  ∃ result w' row file,
    SummarizerService.generateSummary config sessionId E w = (Ok (Some result), w')
    ∧ row ∈ summaries (tables w')
    ∧ sum_covers_until_message_id row = Some (msg_id lastm)
    ∧ lastm ∈ batch
    ∧ (∀ m, m ∈ batch → msg_created_at m ≤ msg_created_at lastm)
    ∧ StronglySorted created_asc batch
    ∧ summary_files (files w') !! (sessionId, fresh_uuid E (uuids w)) = Some file
    ∧ sf_covered_message_ids file = msg_id <$> batch.
Proof.
  intros batch Hlast Hfiles Hback Hchoices Hfresh Hsess.
  destruct (generateSummary_success config sessionId E w resp c cs lastm
              Hlast Hfiles Hback Hchoices Hfresh Hsess)
    as (file & now & t1 & t2 & t3 & w' & req & _ & Hcov & Hrun & Hins
        & Hupd & Hmark & Htab & Hfs & _).
  rewrite insert_summary_Ok in Hins by assumption.
  injection Hins as <-. injection Hupd as <-. injection Hmark as <-.
  cbn [sessions messages summaries] in Htab. cbv zeta in Hfs.
  assert (Hsorted : StronglySorted created_asc batch)
    by apply (StronglySorted_merge_sort _).
  eexists _, w', _, file. split; [exact Hrun|].
  split; [rewrite Htab; cbn [summaries]; apply elem_of_app; right; left|].
  split; [reflexivity|]. split.
  { apply last_Some in Hlast as [l' Hl]. rewrite Hl. apply elem_of_app. right. left. }
  split.
  { intros m Hm.
    destruct (sorted_last_is_greatest _ _ _ Hsorted Hlast m Hm) as [->|Hle];
      [lia | exact Hle]. }
  split; [exact Hsorted|]. split; [|exact Hcov].
  rewrite Hfs. unfold FileStorage.write_summary_file. cbn [summary_files].
  apply lookup_insert_eq.
Qed.

Lemma summary_covers_up_to_newest_witness :
  let E := sample_env (6 * 60 * 1000) (λ _, sample_reply) in
  let w := sample_world 2 false in
  let batch := select_unsummarized "s" (tables w) in
  last batch = Some (sample_row "assistant" false 1)
  ∧ Forall (λ m, is_Some (message_files (files w) !! ("s", msg_id m))) batch
  ∧ (fresh_uuid E (S (uuids w)) ∉ sum_id <$> summaries (tables w))
  ∧ ("s" ∈ sess_id <$> sessions (tables w))
  ∧ ∃ result w' row,
      SummarizerService.generateSummary dbConfig_session "s" E w
      = (Ok (Some result), w')
      ∧ row ∈ summaries (tables w')
      ∧ sum_covers_until_message_id row = Some "m1".
Proof.
  intros E w batch.
  assert (Hlast : last batch = Some (sample_row "assistant" false 1))
    by (vm_compute; reflexivity).
  assert (Hfiles : ∀ m, m ∈ batch →
            is_Some (message_files (files w) !! ("s", msg_id m)))
    by (apply sample_files_stored; lia).
  assert (Hfresh : fresh_uuid E (S (uuids w)) ∉ sum_id <$> summaries (tables w)).
  { apply (bool_decide_unpack _). vm_compute. exact I. }
  assert (Hsess : "s" ∈ sess_id <$> sessions (tables w)).
  { apply (bool_decide_unpack _). vm_compute. exact I. }
  split; [exact Hlast|]. split; [apply Forall_forall; exact Hfiles|].
  split; [exact Hfresh|]. split; [exact Hsess|].
  destruct (summary_covers_up_to_newest dbConfig_session "s" E w
              (mkResponse ["The user greeted the assistant."] (Some 42))
              "The user greeted the assistant." [] (sample_row "assistant" false 1)
              Hlast Hfiles (λ _, eq_refl) eq_refl Hfresh Hsess)
    as (result & w' & row & file & Hrun & Hrow & Hcov & _).
  exists result, w', row. split; [exact Hrun|]. split; [exact Hrow | exact Hcov].
Defined.

(** ** Flags *)

(** X14. Marking messages as summarized changes nothing but flags, and
    only raises them: every row keeps its id, session, role, path, token
    count and creation time, a flag that was set stays set, the rows named
    get the flag and the others keep theirs.  Sessions and summaries are
    untouched, and marking the same ids again changes nothing. *)
Theorem marking_only_raises_flags ids E w :
  ∃ w',
    Database.markMessagesSummarized ids E w = (Ok (), w')
    ∧ Forall2 flag_only_raised (messages (tables w)) (messages (tables w'))
    ∧ Forall2 (λ m m', if bool_decide (msg_id m ∈ ids)
                       then msg_is_summarized m' = true else m' = m)
              (messages (tables w)) (messages (tables w'))
    ∧ sessions (tables w') = sessions (tables w)
    ∧ summaries (tables w') = summaries (tables w)
    ∧ files w' = files w
    ∧ ∃ w'', Database.markMessagesSummarized ids E w' = (Ok (), w'')
             ∧ tables w'' = tables w'.
Proof.
  destruct ids as [|i ids].
  - exists w. split; [reflexivity|].
    split; [apply Forall_Forall2_diag, Forall_forall; intros m _; by repeat split|].
    split.
    { apply Forall_Forall2_diag, Forall_forall. intros m _.
      rewrite bool_decide_eq_false_2; [reflexivity | apply not_elem_of_nil]. }
    do 3 (split; [reflexivity|]). by exists w.
  - set (l := i :: ids).
    assert (Hne : l ≠ []) by discriminate.
    eexists. split; [exact (markMessagesSummarized_run l E w Hne)|].
    cbv zeta. world_fields. cbn [sessions messages summaries].
    split.
    { apply Forall2_fmap_r, Forall_Forall2_diag, Forall_forall. intros m _.
      unfold compose, mark_summarized. cbv beta.
      case_bool_decide; by repeat split. }
    split.
    { apply Forall2_fmap_r, Forall_Forall2_diag, Forall_forall. intros m _.
      unfold compose, mark_summarized. cbv beta.
      destruct (bool_decide (msg_id m ∈ l)); reflexivity. }
    do 3 (split; [reflexivity|]).
    eexists. split; [exact (markMessagesSummarized_run l E _ Hne)|].
    cbv zeta. world_fields. cbn [sessions messages summaries]. f_equal.
    rewrite <- list_fmap_compose. apply list_fmap_ext. intros k m _.
    unfold compose, mark_summarized.
    destruct (bool_decide (msg_id m ∈ l)) eqn:Hb; cbn [msg_id]; rewrite Hb;
      reflexivity.
Qed.

(** ** A session id that names no session *)

Lemma select_current_summary_missing sessionId t :
  sessionId ∉ sess_id <$> sessions t → select_current_summary sessionId t = [].
Proof.
  intros Hsess. apply elem_of_nil_inv. intros s Hs.
  unfold select_current_summary in Hs.
  apply list_elem_of_bind in Hs as (s0 & Hs & _).
  apply list_elem_of_bind in Hs as (sess & Hs & Hin).
  case_bool_decide as Hcond; [|by apply elem_of_nil in Hs].
  destruct Hcond as [_ Hid]. apply Hsess. rewrite <- Hid.
  by apply list_elem_of_fmap_2.
Qed.

Lemma select_unsummarized_missing sessionId t :
  sessionId ∉ sess_id <$> sessions t → references_hold t →
  select_unsummarized sessionId t = [].
Proof.
  intros Hsess Hrefs. apply elem_of_nil_inv. intros m Hm.
  apply elem_of_select_unsummarized in Hm as (Hin & Hid & _).
  apply Hsess. rewrite <- Hid. by apply Hrefs.
Qed.

Lemma select_session_missing sessionId t :
  sessionId ∉ sess_id <$> sessions t → select_session sessionId t = [].
Proof.
  intros Hsess. apply elem_of_nil_inv. intros s Hs.
  apply list_elem_of_filter in Hs as [Hid Hin].
  apply Hsess. rewrite <- Hid. by apply list_elem_of_fmap_2.
Qed.

(** X15. For a session id of UUID form that names no session nothing
    fails on the read side: the check answers [session_not_found] without
    reading the clock, the context is the empty package (no summary, no
    message, count 0), and [getSession] returns null.  The world is
    unchanged. *)
Theorem unknown_session_gets_empty_context config sessionId pageSize E w :
  canonical_uuid sessionId = true →
  sessionId ∉ sess_id <$> sessions (tables w) →
  references_hold (tables w) →
  SummarizerService.checkSummarizationNeeded config sessionId E w
    = (Ok (SummarizerService.mkNeeded false "session_not_found" None None), w)
  ∧ SummarizerService.getSessionContext config sessionId E w
    = (Ok (SummarizerService.mkContext None [] false 0), w)
  ∧ SessionService.getContextForApiCall config sessionId E w
    = (Ok (SessionService.mkApiContext [] false 0 (inr 0)), w)
  ∧ SessionService.getSession config sessionId pageSize E w = (Ok None, w).
Proof.
  intros _ Hsess Hrefs.
  assert (Hcheck : SummarizerService.checkSummarizationNeeded config sessionId E w
    = (Ok (SummarizerService.mkNeeded false "session_not_found" None None), w)).
  { unfold SummarizerService.checkSummarizationNeeded.
    erewrite bind_Ok; [|reflexivity].
    by rewrite (select_session_missing _ _ Hsess). }
  assert (Hctx : SummarizerService.getSessionContext config sessionId E w
    = (Ok (SummarizerService.mkContext None [] false 0), w)).
  { rewrite (getSessionContext_run _ _ _ _ _ _ Hcheck).
    cbn [SummarizerService.needsSummary].
    unfold SummarizerService.assembleContext. step.
    rewrite (select_current_summary_missing _ _ Hsess). cbn [head].
    step. step. rewrite (select_unsummarized_missing _ _ Hsess Hrefs).
    reflexivity. }
  split; [exact Hcheck|]. split; [exact Hctx|]. split.
  - unfold SessionService.getContextForApiCall.
    erewrite bind_Ok; [|exact Hctx]. reflexivity.
  - unfold SessionService.getSession. erewrite bind_Ok; [|reflexivity].
    by rewrite (select_session_missing _ _ Hsess).
Qed.

Lemma unknown_session_gets_empty_context_witness :
  let E := uuid_env 1000 (λ _, sample_reply) in
  let w := uuid_world 2 false in
  canonical_uuid ghost_uuid = true
  ∧ (ghost_uuid ∉ sess_id <$> sessions (tables w))
  ∧ references_hold (tables w)
  ∧ SummarizerService.getSessionContext dbConfig_session ghost_uuid E w
    = (Ok (SummarizerService.mkContext None [] false 0), w).
Proof.
  intros E w.
  assert (Hghost : canonical_uuid ghost_uuid = true) by (vm_compute; reflexivity).
  assert (Hsess : ghost_uuid ∉ sess_id <$> sessions (tables w)).
  { apply (bool_decide_unpack _). vm_compute. exact I. }
  assert (Hrefs : references_hold (tables w)).
  { unfold references_hold. apply Forall_forall.
    apply (bool_decide_unpack _). vm_compute. exact I. }
  split; [exact Hghost|]. split; [exact Hsess|]. split; [exact Hrefs|].
  exact (proj1 (proj2 (unknown_session_gets_empty_context dbConfig_session ghost_uuid
                         None E w Hghost Hsess Hrefs))).
Defined.

(** ** Paging: edges and consecutive pages *)

Lemma canonical_uuid_nonempty (s : string) : canonical_uuid s = true → s ≠ "".
Proof. intros Hs ->. discriminate Hs. Qed.

(** X16. The edges of paging, for a session id of UUID form and a cursor
    that is empty or of UUID form.  A negative limit makes the query, and
    with it the listing, throw; limit 0 gives the empty page; a cursor
    that names no message gives the empty page as well; the empty string
    as cursor counts as no cursor. *)
Theorem paging_edges sessionId E w :
  canonical_uuid sessionId = true →
  let well_formed (beforeId : option string) :=
    ∀ b, beforeId = Some b → b ≠ "" → canonical_uuid b = true in
  (∀ limit beforeId, well_formed beforeId → limit < 0 →
     Database.getMessages sessionId limit beforeId E w = (Throw NegativeLimit, w)
     ∧ SessionService.getMessages sessionId limit beforeId E w
       = (Throw NegativeLimit, w))
  ∧ (∀ beforeId, well_formed beforeId →
       Database.getMessages sessionId 0 beforeId E w = (Ok [], w))
  ∧ (∀ limit b, 0 ≤ limit → canonical_uuid b = true →
       b ∉ msg_id <$> messages (tables w) →
       Database.getMessages sessionId limit (Some b) E w = (Ok [], w))
  ∧ (∀ limit, Database.getMessages sessionId limit (Some "") E w
              = Database.getMessages sessionId limit None E w).
Proof.
  intros _ well_formed. split; [|split; [|split]].
  - intros limit beforeId _ Hneg.
    assert (Hdb : Database.getMessages sessionId limit beforeId E w
                  = (Throw NegativeLimit, w)).
    { unfold Database.getMessages. erewrite bind_Throw; [reflexivity|].
      unfold pool_query_read, select_messages_page.
      by rewrite (proj2 (Z.ltb_lt limit 0) Hneg). }
    split; [exact Hdb|]. unfold SessionService.getMessages.
    erewrite bind_Throw; [reflexivity | exact Hdb].
  - intros beforeId _. unfold Database.getMessages.
    erewrite bind_Ok; [|reflexivity]. reflexivity.
  - intros limit b Hlimit Hb%canonical_uuid_nonempty Hunknown.
    unfold Database.getMessages.
    rewrite (truthy_nonempty b Hb).
    erewrite bind_Ok; last first.
    { unfold pool_query_read, select_messages_page.
      rewrite (proj2 (Z.ltb_ge limit 0) Hlimit). cbn [fmap option_fmap option_map].
      reflexivity. }
    assert (Hcursor : cursor_created_at b (tables w) = None).
    { unfold cursor_created_at.
      match goal with
      | |- context [filter ?P ?l] => assert (Hnil : filter P l = [])
      end; [|by rewrite Hnil].
      apply elem_of_nil_inv. intros m Hm.
      apply list_elem_of_filter in Hm as [Hid Hin].
      apply Hunknown. rewrite <- Hid. by apply list_elem_of_fmap_2. }
    rewrite Hcursor.
    match goal with
    | |- context [filter ?P ?l] => assert (Hnil : filter P l = [])
    end.
    { apply elem_of_nil_inv. intros m Hm.
      apply list_elem_of_filter in Hm as [[_ Hbad] _]. exact Hbad. }
    rewrite Hnil. by destruct (Z.to_nat limit).
  - intros limit. reflexivity.
Qed.

Lemma paging_edges_witness :
  let E := uuid_env 1000 (λ _, sample_reply) in
  let w := uuid_world 2 false in
  canonical_uuid uuid_session_id = true
  ∧ -1 < 0 ∧ 0 ≤ 5 ∧ canonical_uuid ghost_uuid = true
  ∧ (ghost_uuid ∉ msg_id <$> messages (tables w))
  ∧ SessionService.getMessages uuid_session_id (-1) None E w
    = (Throw NegativeLimit, w)
  ∧ Database.getMessages uuid_session_id 5 (Some ghost_uuid) E w = (Ok [], w).
Proof.
  intros E w.
  assert (Hsid : canonical_uuid uuid_session_id = true) by (vm_compute; reflexivity).
  assert (Hneg : -1 < 0) by lia.
  assert (Hlimit : 0 ≤ 5) by lia.
  assert (Hb : canonical_uuid ghost_uuid = true) by (vm_compute; reflexivity).
  assert (Hunknown : ghost_uuid ∉ msg_id <$> messages (tables w)).
  { apply (bool_decide_unpack _). vm_compute. exact I. }
  split; [exact Hsid|]. split; [exact Hneg|]. split; [exact Hlimit|].
  split; [exact Hb|]. split; [exact Hunknown|].
  destruct (paging_edges uuid_session_id E w Hsid) as (Hthrow & _ & Hcursor & _).
  split; [|exact (Hcursor 5 ghost_uuid Hlimit Hb Hunknown)].
  apply (Hthrow (-1) None); [|exact Hneg].
  intros b Hnone. discriminate Hnone.
Defined.

Lemma getMessages_Ok_inv sessionId limit beforeId E w page w' :
  Database.getMessages sessionId limit beforeId E w = (Ok page, w') →
  let cursor := match beforeId with
                | Some b => if truthy b then Some (cursor_created_at b (tables w))
                            else None
                | None => None
                end in
  w' = w
  ∧ Z.of_nat (length page) ≤ limit
  ∧ StronglySorted created_asc page
  ∧ ∀ m, m ∈ page →
         m ∈ messages (tables w) ∧ msg_session_id m = sessionId
         ∧ before_cursor cursor m.
Proof.
  intros Hrun cursor.
  destruct (decide (limit < 0)) as [Hneg|Hlimit].
  { exfalso. unfold Database.getMessages in Hrun.
    erewrite bind_Throw in Hrun; [discriminate|].
    unfold pool_query_read, select_messages_page.
    by rewrite (proj2 (Z.ltb_lt limit 0) Hneg). }
  set (found := filter (λ m, msg_session_id m = sessionId ∧ before_cursor cursor m)
                       (messages (tables w))).
  set (sorted := merge_sort created_desc found).
  assert (Hperm : sorted ≡ₚ found) by apply merge_sort_Permutation.
  assert (Hsorted : StronglySorted created_desc sorted)
    by apply (StronglySorted_merge_sort _).
  rewrite <- (take_drop (Z.to_nat limit) sorted) in Hsorted.
  assert (Hpage : Database.getMessages sessionId limit beforeId E w
                  = (Ok (reverse (take (Z.to_nat limit) sorted)), w)).
  { unfold Database.getMessages.
    erewrite bind_Ok; [reflexivity|].
    unfold pool_query_read, select_messages_page.
    rewrite (proj2 (Z.ltb_ge limit 0) ltac:(lia)).
    subst sorted found cursor.
    destruct beforeId as [b|]; [destruct (truthy b)|]; reflexivity. }
  rewrite Hpage in Hrun. injection Hrun as <- <-.
  split; [reflexivity|]. split; [|split].
  - rewrite length_reverse, length_take. lia.
  - apply (Sorted_StronglySorted _).
    apply (Sorted_reverse created_desc).
    apply Sorted.StronglySorted_Sorted.
    exact (StronglySorted_app_1_l _ _ _ Hsorted).
  - intros m Hm. rewrite elem_of_reverse in Hm.
    pose proof (subseteq_take (Z.to_nat limit) sorted m Hm) as Hin.
    rewrite Hperm in Hin. apply list_elem_of_filter in Hin. tauto.
Qed.

(** X17. Paging backwards never repeats a message.  When the first
    (oldest) message of a page is used as the cursor of the next query,
    every message of the page it returns was created strictly before
    every message of the earlier page; the two pages share no message,
    and a message created at the very instant of the cursor message is on
    no older page. *)
Theorem older_page_is_strictly_older sessionId limit limit' beforeId E w
    page first page' :
  NoDup (msg_id <$> messages (tables w)) →
  Database.getMessages sessionId limit beforeId E w = (Ok page, w) →
  head page = Some first →
  msg_id first ≠ "" →
  Database.getMessages sessionId limit' (Some (msg_id first)) E w = (Ok page', w) →
  (∀ m', m' ∈ page' → msg_created_at m' < msg_created_at first)
  ∧ (∀ m m', m ∈ page → m' ∈ page' → msg_created_at m' < msg_created_at m)
  ∧ (∀ m, m ∈ page → m ∉ page').
Proof.
  intros Hnd Hpage Hfirst Hid Hpage'.
  apply getMessages_Ok_inv in Hpage as (_ & _ & Hsorted & Hin).
  apply getMessages_Ok_inv in Hpage' as (_ & _ & _ & Hin').
  rewrite (truthy_nonempty _ Hid) in Hin'.
  destruct page as [|p page]; [discriminate|].
  injection Hfirst as ->.
  destruct (Hin first) as (Hfirst_in & _ & _); [apply elem_of_cons; by left|].
  rewrite (cursor_created_at_unique (msg_id first) first (tables w) Hnd Hfirst_in
             eq_refl) in Hin'.
  assert (Holder : ∀ m', m' ∈ page' → msg_created_at m' < msg_created_at first).
  { intros m' Hm'. by destruct (Hin' m' Hm') as (_ & _ & Hlt). }
  assert (Hnewer : ∀ m, m ∈ first :: page → msg_created_at first ≤ msg_created_at m).
  { intros m Hm. apply elem_of_cons in Hm as [->|Hm]; [lia|].
    apply StronglySorted_inv in Hsorted as [_ Hall].
    rewrite Forall_forall in Hall. exact (Hall m Hm). }
  split; [exact Holder|]. split.
  - intros m m' Hm Hm'. specialize (Holder m' Hm'). specialize (Hnewer m Hm). lia.
  - intros m Hm Hm'. specialize (Holder m Hm'). specialize (Hnewer m Hm). lia.
Qed.

Lemma older_page_is_strictly_older_witness :
  let E := sample_env 1000 (λ _, sample_reply) in
  let w := sample_world 4 false in
  ∃ page first page',
    NoDup (msg_id <$> messages (tables w))
    ∧ Database.getMessages "s" 2 None E w = (Ok page, w)
    ∧ head page = Some first
    ∧ length page' = 2%nat
    ∧ (∀ m, m ∈ page → m ∉ page').
Proof.
  intros E w.
  assert (Hnd : NoDup (msg_id <$> messages (tables w))).
  { apply (bool_decide_unpack _). vm_compute. exact I. }
  set (page := reverse (take 2 (merge_sort created_desc
                 (filter (λ m, msg_session_id m = "s" ∧ before_cursor None m)
                         (messages (tables w)))))).
  assert (Hpage : Database.getMessages "s" 2 None E w = (Ok page, w))
    by (vm_compute; reflexivity).
  set (first := default (sample_row "user" false 0) (head page)).
  assert (Hfirst : head page = Some first) by (vm_compute; reflexivity).
  assert (Hid : msg_id first ≠ "") by (vm_compute; discriminate).
  set (page' := reverse (take 2 (merge_sort created_desc
                  (filter (λ m, msg_session_id m = "s"
                                ∧ before_cursor
                                    (Some (cursor_created_at (msg_id first)
                                             (tables w))) m)
                          (messages (tables w)))))).
  assert (Hpage' : Database.getMessages "s" 2 (Some (msg_id first)) E w
                   = (Ok page', w)) by (vm_compute; reflexivity).
  exists page, first, page'.
  split; [exact Hnd|]. split; [exact Hpage|]. split; [exact Hfirst|].
  split; [vm_compute; reflexivity|].
  exact (proj2 (proj2 (older_page_is_strictly_older "s" 2 2 None E w page first page'
                         Hnd Hpage Hfirst Hid Hpage'))).
Defined.

(** ** The package handed to the chat completion *)

Lemma assembleContext_eq sessionId E w :
  let text :=
    head (select_current_summary sessionId (tables w))
    ≫= λ cur, sf_summary <$> summary_files (files w) !! (sessionId, sum_id cur) in
  let actives := omap (active_entry sessionId (files w))
                      (select_unsummarized sessionId (tables w)) in
  SummarizerService.assembleContext sessionId E w
  = (Ok (SummarizerService.mkContext text actives
           (match text with Some s => truthy s | None => false end)
           (Z.of_nat (length actives))), w).
Proof.
  intros text actives. unfold SummarizerService.assembleContext.
  step.
  assert (Htext :
    match head (select_current_summary sessionId (tables w)) with
    | Some cur =>
        summaryContent ← FileStorage.getSummary sessionId (sum_id cur);
        mret (sf_summary <$> summaryContent)
    | None => mret None
    end E w = (Ok text, w)).
  { subst text. by destruct (head (select_current_summary sessionId (tables w))). }
  erewrite bind_Ok; [|exact Htext].
  step. erewrite bind_Ok; [|apply mapM_loadActive_run].
  cbn. rewrite omap_id_fmap. reflexivity.
Qed.

Lemma copy_chat_messages (l : list ChatMessage) :
  (λ msg, mkChatMessage (role msg) (content msg)) <$> l = l.
Proof.
  induction l as [|[r c] l IH]; [reflexivity|].
  rewrite fmap_cons, IH. reflexivity.
Qed.

(** X18. What [getContextForApiCall] hands on, in terms of the stores as
    they are when it returns.  The active messages are the stored
    contents of the unsummarized rows, in the order of creation, and
    [activeMessageCount] is their number.  With [hasSummary] the list
    starts with one system message that wraps the non-empty summary text,
    and [cachedTokens] is the string [summarized]; without it there is no
    summary text (or an empty one), the list holds the active messages
    only, and [cachedTokens] is 100 for each of them. *)
Theorem api_context_shape config sessionId E w api w' :
  SessionService.getContextForApiCall config sessionId E w = (Ok api, w') →
  let text :=
    head (select_current_summary sessionId (tables w'))
    ≫= λ cur, sf_summary <$> summary_files (files w') !! (sessionId, sum_id cur) in
  let actives := omap (active_entry sessionId (files w'))
                      (select_unsummarized sessionId (tables w')) in
  SessionService.api_activeMessageCount api = Z.of_nat (length actives)
  ∧ (SessionService.api_hasSummary api = true →
     ∃ s, text = Some s ∧ s ≠ ""
          ∧ SessionService.api_messages api
            = mkChatMessage "system"
                ("## Previous Conversation Summary" +:+ LF +:+ s +:+ LF +:+ LF
                 +:+ "Continue the conversation based on this context.")
              :: actives
          ∧ SessionService.api_cachedTokens api = inl "summarized")
  ∧ (SessionService.api_hasSummary api = false →
     (text = None ∨ text = Some "")
     ∧ SessionService.api_messages api = actives
     ∧ SessionService.api_cachedTokens api = inr (Z.of_nat (length actives) * 100)).
Proof.
  intros Hrun text actives.
  unfold SessionService.getContextForApiCall in Hrun. rewrite bind_run in Hrun.
  destruct (SummarizerService.getSessionContext config sessionId E w)
    as [[ctx|e] w1] eqn:Hctx; [|discriminate].
  injection Hrun as <- <-.
  apply getSessionContext_Ok_inv in Hctx.
  rewrite assembleContext_eq in Hctx. fold text actives in Hctx.
  injection Hctx as <-.
  cbn [SessionService.api_messages SessionService.api_hasSummary
       SessionService.api_activeMessageCount SessionService.api_cachedTokens
       SummarizerService.ctx_summary SummarizerService.ctx_messages
       SummarizerService.ctx_hasSummary SummarizerService.ctx_activeMessageCount].
  rewrite copy_chat_messages.
  split; [reflexivity|].
  destruct text as [s|].
  - destruct (truthy s) eqn:Hs.
    + split; [|discriminate]. intros _. exists s.
      split; [reflexivity|]. split; [|split; reflexivity].
      intros ->. discriminate.
    + split; [discriminate|]. intros _. split; [|split; reflexivity].
      right. f_equal. unfold truthy in Hs.
      apply negb_false_iff, String.eqb_eq in Hs. exact Hs.
  - split; [discriminate|]. intros _. split; [by left|]. split; reflexivity.
Qed.

Lemma api_context_shape_witness :
  let E := sample_env 1000 (λ _, sample_reply) in
  let w := sample_world 2 false in
  ∃ api w',
    SessionService.getContextForApiCall dbConfig_session "s" E w = (Ok api, w')
    ∧ SessionService.api_activeMessageCount api
      = Z.of_nat (length (omap (active_entry "s" (files w'))
                               (select_unsummarized "s" (tables w')))).
Proof.
  intros E w.
  set (api := match (SessionService.getContextForApiCall dbConfig_session "s" E w).1 with
              | Ok a => a
              | Throw _ => SessionService.mkApiContext [] false 0 (inr 0)
              end).
  set (w' := (SessionService.getContextForApiCall dbConfig_session "s" E w).2).
  assert (Hrun : SessionService.getContextForApiCall dbConfig_session "s" E w
                 = (Ok api, w')) by (vm_compute; reflexivity).
  exists api, w'. split; [exact Hrun|].
  exact (proj1 (api_context_shape dbConfig_session "s" E w api w' Hrun)).
Defined.

(** ** The generated title *)

Lemma chars_rev_app (s acc : string) :
  list_ascii_of_string (String.rev_app s acc)
  = reverse (list_ascii_of_string s) ++ list_ascii_of_string acc.
Proof.
  revert acc. induction s as [|c s IH]; intros acc; [reflexivity|].
  cbn [String.rev_app list_ascii_of_string]. rewrite IH, reverse_cons.
  rewrite <- (assoc_L (++)). reflexivity.
Qed.

Lemma chars_rev (s : string) :
  list_ascii_of_string (String.rev s) = reverse (list_ascii_of_string s).
Proof.
  unfold String.rev. rewrite chars_rev_app. cbn. by rewrite (right_id_L [] (++)).
Qed.

Lemma trimStart_suffix (s : string) :
  ∃ pre, list_ascii_of_string s = pre ++ list_ascii_of_string (trimStart s).
Proof.
  induction s as [|c s [pre IH]]; [by exists []|].
  cbn [trimStart]. destruct (is_white_space c).
  - exists (c :: pre). cbn [list_ascii_of_string]. by rewrite IH.
  - by exists [].
Qed.

Lemma trimStart_head (s : string) c :
  head (list_ascii_of_string (trimStart s)) = Some c → is_white_space c = false.
Proof.
  induction s as [|a s IH]; [discriminate|].
  cbn [trimStart]. destruct (is_white_space a) eqn:Ha; [exact IH|].
  cbn. intros [= <-]. exact Ha.
Qed.

Lemma trimStart_last (s : string) c :
  last (list_ascii_of_string (trimStart s)) = Some c →
  last (list_ascii_of_string s) = Some c.
Proof.
  destruct (trimStart_suffix s) as [pre ->].
  destruct (list_ascii_of_string (trimStart s)) as [|a l] eqn:Hl; [discriminate|].
  intros Hlast. rewrite last_app, Hlast. reflexivity.
Qed.

Lemma trim_chars (s : string) :
  let chars := list_ascii_of_string (trim s) in
  (∀ c, c ∈ chars → c ∈ list_ascii_of_string s)
  ∧ (∀ c, head chars = Some c → is_white_space c = false)
  ∧ (∀ c, last chars = Some c → is_white_space c = false).
Proof.
  intros chars. subst chars. unfold trim. rewrite chars_rev.
  split; [|split].
  - intros c Hc. rewrite elem_of_reverse in Hc.
    destruct (trimStart_suffix (String.rev (trimStart s))) as [pre Hpre].
    assert (Hin : c ∈ list_ascii_of_string (String.rev (trimStart s))).
    { rewrite Hpre. apply elem_of_app. by right. }
    rewrite chars_rev, elem_of_reverse in Hin.
    destruct (trimStart_suffix s) as [pre' ->].
    apply elem_of_app. by right.
  - intros c Hc. rewrite head_reverse in Hc.
    apply trimStart_last in Hc.
    rewrite chars_rev, last_reverse in Hc.
    exact (trimStart_head _ _ Hc).
  - intros c Hc. rewrite last_reverse in Hc.
    exact (trimStart_head _ _ Hc).
Qed.

Lemma remove_quotes_chars (s : string) c :
  c ∈ list_ascii_of_string (remove_quotes s) →
  c ≠ Ascii.ascii_of_nat 34 ∧ c ≠ Ascii.ascii_of_nat 39.
Proof.
  induction s as [|a s IH]; [by intros ?%elem_of_nil|].
  cbn [remove_quotes]. case_bool_decide as Ha; [exact IH|].
  cbn [list_ascii_of_string]. intros [->|Hc]%elem_of_cons; [|by apply IH].
  split; intros ->; apply Ha; [by left|by right].
Qed.

Lemma remove_final_punctuation_chars (s : string) c :
  c ∈ list_ascii_of_string (remove_final_punctuation s) →
  c ∈ list_ascii_of_string s.
Proof.
  induction s as [|a s IH]; [done|].
  destruct s as [|b s].
  - cbn [remove_final_punctuation]. case_bool_decide; [by intros ?%elem_of_nil|done].
  - change (remove_final_punctuation (String a (String b s)))
      with (String a (remove_final_punctuation (String b s))).
    cbn [list_ascii_of_string] in *.
    intros [->|Hc]%elem_of_cons; [by left|]. right. by apply IH.
Qed.

(** X19. Whatever title [generateTitle] returns holds no quote character
    (neither double nor single) and neither starts nor ends with white
    space, and it is the title that the row of the session carries
    afterwards. *)
Theorem generated_title_is_clean config sessionId E w title w' :
  SessionService.generateTitle config sessionId E w = (Ok (Some title), w') →
  let chars := list_ascii_of_string title in
  (∀ c, c ∈ chars → c ≠ Ascii.ascii_of_nat 34 ∧ c ≠ Ascii.ascii_of_nat 39)
  ∧ (∀ c, head chars = Some c → is_white_space c = false)
  ∧ (∀ c, last chars = Some c → is_white_space c = false)
  ∧ (∀ s, s ∈ sessions (tables w') → sess_id s = sessionId →
          sess_title s = Some title).
Proof.
  intros Hrun chars.
  destruct (session_getMessages_run sessionId 2 None E w) as [msgs Hmsgs]; [lia|].
  unfold SessionService.generateTitle in Hrun.
  erewrite bind_Ok in Hrun; [|exact Hmsgs].
  case_bool_decide; [discriminate|].
  destruct (head _) as [first|]; [|discriminate].
  unfold try_catch in Hrun. rewrite bind_run in Hrun.
  unfold chat_completions_create at 1 in Hrun.
  destruct (backend E _ _) as [resp|e]; [|discriminate].
  destruct (choices resp) as [|c cs]; [discriminate|].
  erewrite bind_Ok in Hrun; [|reflexivity].
  cbn [tables files ticks uuids calls journal] in Hrun.
  erewrite bind_Ok in Hrun; [|by apply updateSession_run].
  injection Hrun as Htitle <-.
  destruct (trim_chars (remove_final_punctuation (remove_quotes c)))
    as (Hsub & Hhead & Hlast).
  rewrite Htitle in Hsub, Hhead, Hlast. fold chars in Hsub, Hhead, Hlast.
  split; [|split; [exact Hhead|split; [exact Hlast|]]].
  - intros a Ha. apply Hsub, remove_final_punctuation_chars in Ha.
    exact (remove_quotes_chars _ _ Ha).
  - cbv zeta. world_fields. cbn [sessions]. intros s Hs Hid.
    apply list_elem_of_fmap in Hs as (s0 & -> & _).
    unfold set_session_fields in *. rewrite <- Htitle.
    case_bool_decide as Hid0; [reflexivity|]. contradiction.
Qed.

Lemma generated_title_is_clean_witness :
  let resp := mkResponse ["  'Greeting the assistant.' "] None in
  let E := sample_env 1000 (λ _, Ok resp) in
  ∃ w',
    SessionService.generateTitle dbConfig_session "s" E asking_world
    = (Ok (Some "Greeting the assistant."), w')
    ∧ ∀ s, s ∈ sessions (tables w') → sess_id s = "s" →
           sess_title s = Some "Greeting the assistant.".
Proof.
  intros resp E.
  set (w' := (SessionService.generateTitle dbConfig_session "s" E asking_world).2).
  assert (Hrun : SessionService.generateTitle dbConfig_session "s" E asking_world
                 = (Ok (Some "Greeting the assistant."), w'))
    by (vm_compute; reflexivity).
  exists w'. split; [exact Hrun|].
  exact (proj2 (proj2 (proj2 (generated_title_is_clean dbConfig_session "s" E
                                asking_world _ w' Hrun)))).
Defined.

(** ** What an update of a session touches *)

(** X20. For a session id of UUID form (and a summary id of that form,
    when one is given) [updateSession] succeeds and touches the
    [sessions] table only: messages, summaries and files stay, and so
    does every row of another session, so for an id that names no session
    nothing changes at all.  In the row of the named session a field that
    the update does not give keeps its value; unless [updateActivity] is
    false, [last_activity_at] is set as well, by a clock reading of its
    own taken after the one for [updated_at]. *)
Theorem update_session_scope sessionId updates E w :
  canonical_uuid sessionId = true →
  (∀ c, Database.upd_currentSummaryId updates = Some (Some c) →
        canonical_uuid c = true) →
  ∃ w',
    Database.updateSession sessionId updates E w = (Ok (), w')
    ∧ messages (tables w') = messages (tables w)
    ∧ summaries (tables w') = summaries (tables w)
    ∧ files w' = files w
    ∧ Forall2 (λ s s',
         sess_id s' = sess_id s
         ∧ sess_created_at s' = sess_created_at s
         ∧ (sess_id s ≠ sessionId → s' = s)
         ∧ (sess_id s = sessionId →
            sess_updated_at s' = clock E (ticks w)
            ∧ (Database.upd_updateActivity updates ≠ Some false →
               sess_last_activity_at s' = clock E (S (ticks w)))
            ∧ (Database.upd_title updates = None → sess_title s' = sess_title s)
            ∧ (Database.upd_currentSummaryId updates = None →
               sess_current_summary_id s' = sess_current_summary_id s)
            ∧ (Database.upd_metadata updates = None →
               sess_metadata s' = sess_metadata s)))
       (sessions (tables w)) (sessions (tables w'))
    ∧ ((sessionId ∉ sess_id <$> sessions (tables w)) → tables w' = tables w).
Proof.
  intros _ _.
  set (activity := match Database.upd_updateActivity updates with
                   | Some false => None
                   | _ => Some (clock E (S (ticks w)))
                   end).
  set (t := mkTables
              (set_session_fields sessionId (Database.upd_title updates)
                 (Database.upd_currentSummaryId updates)
                 (Database.upd_metadata updates) (clock E (ticks w)) activity
               <$> sessions (tables w))
              (messages (tables w)) (summaries (tables w))).
  assert (Hrun : ∃ w', Database.updateSession sessionId updates E w = (Ok (), w')
                       ∧ tables w' = t ∧ files w' = files w).
  { unfold Database.updateSession. subst t activity.
    destruct (Database.upd_updateActivity updates) as [[|]|];
      eexists; (split; [step; step; reflexivity|]); split; reflexivity. }
  destruct Hrun as (w' & Hrun & Ht & Hfiles).
  exists w'. split; [exact Hrun|]. rewrite Ht. subst t. cbn [sessions messages summaries].
  split; [reflexivity|]. split; [reflexivity|]. split; [exact Hfiles|]. split.
  - apply Forall2_fmap_r, Forall_Forall2_diag, Forall_forall.
    intros s _. unfold set_session_fields, compose. cbv beta.
    case_bool_decide as Hid; cbn.
    + split; [reflexivity|]. split; [reflexivity|]. split; [contradiction|].
      intros _. split; [reflexivity|]. split; [|split; [|split]].
      * subst activity. intros Hact.
        destruct (Database.upd_updateActivity updates) as [[|]|];
          [reflexivity | contradiction | reflexivity].
      * intros ->. reflexivity.
      * intros ->. reflexivity.
      * intros ->. reflexivity.
    + split; [reflexivity|]. split; [reflexivity|]. split; [reflexivity|].
      contradiction.
  - intros Hsess. destruct (tables w) as [ss ms su]. cbn [sessions messages summaries] in *.
    f_equal. rewrite <- (list_fmap_id ss) at 2. apply list_fmap_ext.
    intros i s Hs. unfold set_session_fields. case_bool_decide as Hid; [|reflexivity].
    exfalso. apply Hsess. rewrite <- Hid.
    apply list_elem_of_fmap_2. by apply list_elem_of_lookup_2 in Hs.
Qed.

Lemma update_session_scope_witness :
  let E := uuid_env 1000 (λ _, sample_reply) in
  let w := uuid_world 2 false in
  let updates := Database.mkSessionUpdates (Some (Some "Hello")) None None None in
  canonical_uuid uuid_session_id = true
  ∧ canonical_uuid ghost_uuid = true
  ∧ (∀ c, Database.upd_currentSummaryId updates = Some (Some c) →
          canonical_uuid c = true)
  ∧ (ghost_uuid ∉ sess_id <$> sessions (tables w))
  ∧ (∃ w', Database.updateSession uuid_session_id updates E w = (Ok (), w')
           ∧ sess_title <$> sessions (tables w') = [Some "Hello"]
           ∧ messages (tables w') = messages (tables w))
  ∧ (∃ w', Database.updateSession ghost_uuid updates E w = (Ok (), w')
           ∧ tables w' = tables w).
Proof.
  intros E w updates.
  assert (Hsid : canonical_uuid uuid_session_id = true) by (vm_compute; reflexivity).
  assert (Hghost : canonical_uuid ghost_uuid = true) by (vm_compute; reflexivity).
  assert (Hsum : ∀ c, Database.upd_currentSummaryId updates = Some (Some c) →
                      canonical_uuid c = true) by (intros c Hc; discriminate Hc).
  assert (Hmissing : ghost_uuid ∉ sess_id <$> sessions (tables w)).
  { apply (bool_decide_unpack _). vm_compute. exact I. }
  split; [exact Hsid|]. split; [exact Hghost|]. split; [exact Hsum|].
  split; [exact Hmissing|]. split.
  - destruct (update_session_scope uuid_session_id updates E w Hsid Hsum)
      as (w' & Hrun & Hmsgs & _).
    exists w'. split; [exact Hrun|]. split; [|exact Hmsgs].
    vm_compute in Hrun. injection Hrun as <-. reflexivity.
  - destruct (update_session_scope ghost_uuid updates E w Hghost Hsum)
      as (w' & Hrun & _ & _ & _ & _ & Hsame).
    exists w'. split; [exact Hrun | exact (Hsame Hmissing)].
Defined.

(** ** A session with its newest messages *)

(** X21. [getSession] of the session service, for a session that exists:
    a page size of 0 or none at all means the configured default, not an
    empty page; with a limit that is not negative the session row is
    returned together with what [getMessages] gives for that limit, at
    most [limit] messages; a negative page size makes the call throw. *)
Theorem session_comes_with_newest_messages config sessionId pageSize E w s :
  head (select_session sessionId (tables w)) = Some s →
  let limit := match pageSize with
               | Some 0 | None => defaultPageSize config
               | Some p => p
               end in
  (0 ≤ limit →
   ∃ msgs,
     SessionService.getSession config sessionId pageSize E w
     = (Ok (Some (SessionService.mkSessionWithMessages s msgs)), w)
     ∧ SessionService.getMessages sessionId limit None E w = (Ok msgs, w)
     ∧ Z.of_nat (length msgs) ≤ limit)
  ∧ (limit < 0 →
     SessionService.getSession config sessionId pageSize E w
     = (Throw NegativeLimit, w)).
Proof.
  intros Hs limit.
  assert (Hlimit : match pageSize with
                   | Some p => if p =? 0 then defaultPageSize config else p
                   | None => defaultPageSize config
                   end = limit).
  { subst limit. destruct pageSize as [[|p|p]|]; reflexivity. }
  assert (Hhead : SessionService.getSession config sessionId pageSize E w
                  = (msgs ← SessionService.getMessages sessionId limit None;
                     mret (Some (SessionService.mkSessionWithMessages s msgs))) E w).
  { unfold SessionService.getSession. erewrite bind_Ok; [|reflexivity].
    cbn [tables]. rewrite Hs, Hlimit. reflexivity. }
  rewrite Hhead. split.
  - intros Hpos.
    destruct (getMessages_run sessionId limit None E w Hpos) as [refs Hrefs].
    destruct (mapM_session_loadMessage_run sessionId refs E w) as (loaded & Hload & Hall).
    assert (Hmsgs : SessionService.getMessages sessionId limit None E w
                    = (Ok loaded, w)).
    { unfold SessionService.getMessages. erewrite bind_Ok; [|exact Hrefs]. exact Hload. }
    exists loaded. split; [erewrite bind_Ok; [reflexivity | exact Hmsgs]|].
    split; [exact Hmsgs|].
    apply getMessages_Ok_inv in Hrefs as (_ & Hlen & _).
    apply Forall2_length in Hall. rewrite <- Hall. lia.
  - intros Hneg. erewrite bind_Throw; [reflexivity|].
    unfold SessionService.getMessages. erewrite bind_Throw; [reflexivity|].
    unfold Database.getMessages. erewrite bind_Throw; [reflexivity|].
    unfold pool_query_read, select_messages_page.
    by rewrite (proj2 (Z.ltb_lt limit 0) Hneg).
Qed.

Lemma session_comes_with_newest_messages_witness :
  let E := sample_env 1000 (λ _, sample_reply) in
  let w := sample_world 6 false in
  ∃ msgs,
    head (select_session "s" (tables w)) = Some sample_session
    ∧ SessionService.getSession dbConfig_session "s" (Some 0) E w
      = (Ok (Some (SessionService.mkSessionWithMessages sample_session msgs)), w)
    ∧ length msgs = 4%nat.
Proof.
  intros E w.
  assert (Hs : head (select_session "s" (tables w)) = Some sample_session)
    by (vm_compute; reflexivity).
  assert (Hpos : 0 ≤ defaultPageSize dbConfig_session) by (vm_compute; discriminate).
  destruct (proj1 (session_comes_with_newest_messages dbConfig_session "s" (Some 0)
                     E w sample_session Hs) Hpos) as (msgs & Hrun & Hmsgs & _).
  exists msgs. split; [exact Hs|]. split; [exact Hrun|].
  assert (Hlen : (λ r, match r.1 with Ok l => length l | Throw _ => 0%nat end)
                   (SessionService.getMessages "s" (defaultPageSize dbConfig_session)
                      None E w) = 4%nat) by (vm_compute; reflexivity).
  rewrite Hmsgs in Hlen. exact Hlen.
Defined.

(** ** What [addMessage] leaves behind *)

Lemma estimate_tokens_bounds (content : string) :
  4 * (estimate_tokens content - 1) < Z.of_nat (String.length content)
  ∧ Z.of_nat (String.length content) ≤ 4 * estimate_tokens content.
Proof.
  unfold estimate_tokens.
  set (q := Z.of_nat (String.length content) # 4).
  pose proof (Qle_ceiling q) as Hle. pose proof (Qceiling_lt q) as Hlt.
  unfold Qle, Qlt, inject_Z in Hle, Hlt. subst q. cbn [Qnum Qden] in Hle, Hlt.
  lia.
Qed.

(** X22. When [addMessage] succeeds, the role passed the CHECK of the
    schema and the session existed.  The id it returns names both the new
    row, the last of the table and not summarized, and the file that
    holds the content; the token count it returns is the one of the row,
    the length of the content divided by 4 and rounded up; and the time
    stamp of the row is the new [last_activity_at] of the session. *)
Theorem added_message_is_stored sessionId role content metadata E w added w' :
  fresh_uuid E (uuids w) ≠ "" →
  SessionService.addMessage sessionId role content metadata E w = (Ok added, w') →
  let tokens := SessionService.added_tokens added in
  SessionService.added_id added = fresh_uuid E (uuids w)
  ∧ SessionService.added_content added = content
  ∧ 4 * (tokens - 1) < Z.of_nat (String.length content) ≤ 4 * tokens
  ∧ role ∈ ["user"; "assistant"; "system"]
  ∧ sessionId ∈ sess_id <$> sessions (tables w)
  ∧ ∃ row file,
      messages (tables w') = messages (tables w) ++ [row]
      ∧ msg_id row = SessionService.added_id added
      ∧ msg_session_id row = sessionId
      ∧ msg_role row = role
      ∧ msg_tokens row = tokens
      ∧ msg_is_summarized row = false
      ∧ message_files (files w') !! (sessionId, SessionService.added_id added)
        = Some file
      ∧ mf_role file = role
      ∧ mf_content file = content
      ∧ ∀ s, s ∈ sessions (tables w') → sess_id s = sessionId →
             sess_last_activity_at s = msg_created_at row.
Proof.
  intros Hid Hrun tokens.
  destruct (addMessage_Ok_inv _ _ _ _ _ _ _ _ Hid Hrun)
    as (file & n & t1 & Hadded & Hrole & Hcontent & Hfiles & Hins & Hupd & _ & _).
  subst tokens added. cbn [SessionService.added_id SessionService.added_content
                     SessionService.added_tokens].
  split; [reflexivity|]. split; [reflexivity|].
  split; [exact (estimate_tokens_bounds content)|].
  unfold insert_message in Hins.
  destruct (role_check role) eqn:Hcheck; [|discriminate]. cbn [negb] in Hins.
  case_bool_decide as Hdup; [discriminate|].
  case_bool_decide as Hsess; [|discriminate].
  injection Hins as <-. injection Hupd as <-. cbn [sessions messages summaries].
  split.
  { unfold role_check in Hcheck. apply bool_decide_eq_true in Hcheck.
    rewrite !elem_of_cons. tauto. }
  split; [exact Hsess|].
  eexists _, file. split; [reflexivity|]. cbn [msg_id msg_session_id msg_role
    msg_tokens msg_is_summarized msg_created_at].
  repeat (split; [reflexivity|]).
  split; [rewrite Hfiles; apply lookup_insert_eq|].
  split; [exact Hrole|]. split; [exact Hcontent|].
  intros s Hs Hsid. apply list_elem_of_fmap in Hs as (s0 & -> & _).
  revert Hsid. unfold touch_session. case_bool_decide; [reflexivity|contradiction].
Qed.

Lemma added_message_is_stored_witness :
  let E := sample_env 1000 (λ _, sample_reply) in
  let w := sample_world 2 false in
  ∃ added w',
    fresh_uuid E (uuids w) ≠ ""
    ∧ SessionService.addMessage "s" "user" "hello there"
        (SessionService.mkMetadata None None None) E w = (Ok added, w')
    ∧ SessionService.added_id added = fresh_uuid E (uuids w).
Proof.
  intros E w.
  set (run := SessionService.addMessage "s" "user" "hello there"
                (SessionService.mkMetadata None None None) E w).
  set (added := match run.1 with
                | Ok a => a
                | Throw _ => SessionService.mkAddedMessage "" "" "" 0
                end).
  set (w' := run.2).
  assert (Hid : fresh_uuid E (uuids w) ≠ "") by (vm_compute; discriminate).
  assert (Hrun : run = (Ok added, w')) by (vm_compute; reflexivity).
  exists added, w'. split; [exact Hid|]. split; [exact Hrun|].
  exact (proj1 (added_message_is_stored "s" "user" "hello there"
                  (SessionService.mkMetadata None None None) E w added w' Hid Hrun)).
Defined.
